(** * VoiceAI backend: a shallow embedding of the voice session orchestrator

    The development follows the Python sources under [backend/app]:

    - [services/tools/executor.py]   the domain tool executor ([ToolExecutor]),
    - [core/session_manager.py]      the Redis-backed session store,
    - [services/cost_tracker.py]     the per-session cost ledger,
    - [api/llm_proxy.py]             the text tool-call parser and the proxy loop,
    - [api/voice.py]                 the agent loop and the websocket message loop.

    Python values are modelled by the inductive [pyval]; exceptions by the
    error monad [res]; the PostgreSQL tables and the Redis keys by explicit
    stores threaded through every operation.  Strings are byte strings: the
    model covers ASCII text, which is what the methods used here
    ([lower], [strip], [int], the [re] classes) distinguish.

    Each call of a tool is one step: the tool methods contain no [await]
    between their reads and their commit.  Outside the model are the expiry
    of Redis keys, failures of the connections to Redis, to the database and
    to the client, and several server processes racing on one database.

    The file has three parts: the embedding of the sources, the vocabulary
    of the properties with the concrete inputs of the examples, and the
    theorems. *)

From Stdlib Require Import ZArith QArith Ascii String List Lia Bool DecimalString.
From stdpp Require Import base gmap strings list.

Open Scope string_scope.
Set Warnings "-register-all".

(** ** Python strings *)

Module Py.

Definition code (c : ascii) : nat := nat_of_ascii c.

Definition in_range (lo hi : nat) (c : ascii) : bool :=
  (lo <=? code c)%nat && (code c <=? hi)%nat.

Definition is_upper (c : ascii) : bool := in_range 65 90 c.
Definition is_lower (c : ascii) : bool := in_range 97 122 c.
Definition is_digit (c : ascii) : bool := in_range 48 57 c.

(** [str.isspace] on the ASCII range: tab, LF, VT, FF, CR, the four
    separators FS..US and the space. *)
Definition isspace (c : ascii) : bool :=
  in_range 9 13 c || in_range 28 31 c || (code c =? 32)%nat.

(** The regular-expression class [\w] on the ASCII range. *)
Definition is_word (c : ascii) : bool :=
  is_upper c || is_lower c || is_digit c || (code c =? 95)%nat.

Definition lower_char (c : ascii) : ascii :=
  if is_upper c then ascii_of_nat (code c + 32) else c.

Fixpoint lower (s : string) : string :=
  match s with
  | EmptyString => EmptyString
  | String c r => String (lower_char c) (lower r)
  end.

Fixpoint lstrip (s : string) : string :=
  match s with
  | EmptyString => EmptyString
  | String c r => if isspace c then lstrip r else s
  end.

Definition rstrip (s : string) : string := String.rev (lstrip (String.rev s)).

Definition strip (s : string) : string := rstrip (lstrip s).

(** [needle in hay] *)
Fixpoint contains (needle hay : string) : bool :=
  String.prefix needle hay
  || match hay with
     | EmptyString => false
     | String _ r => contains needle r
     end.

(** [s.replace(old, new)] for a non-empty [old]: occurrences are replaced
    from the left and do not overlap; [skip] counts the characters of the
    occurrence being consumed. *)
Fixpoint replace_from (old new : string) (skip : nat) (s : string) : string :=
  match s with
  | EmptyString => EmptyString
  | String c r =>
      match skip with
      | S k => replace_from old new k r
      | O =>
          if String.prefix old s
          then new +:+ replace_from old new (String.length old - 1) r
          else String c (replace_from old new 0 r)
      end
  end.

Definition replace (old new s : string) : string := replace_from old new 0 s.

(** [s.split(sep)] for a one-character separator. *)
Fixpoint split (sep : ascii) (s : string) : list string :=
  match s with
  | EmptyString => [EmptyString]
  | String c r =>
      if Ascii.eqb c sep then EmptyString :: split sep r
      else match split sep r with
           | h :: t => String c h :: t
           | [] => [String c EmptyString]
           end
  end.

(** [sep.join(parts)] *)
Fixpoint join (sep : string) (parts : list string) : string :=
  match parts with
  | [] => EmptyString
  | [p] => p
  | p :: rest => p +:+ sep +:+ join sep rest
  end.

(** [''.join(filter(str.isdigit, s))] *)
Fixpoint filter_digits (s : string) : string :=
  match s with
  | EmptyString => EmptyString
  | String c r => if is_digit c then String c (filter_digits r) else filter_digits r
  end.

Definition digit_val (c : ascii) : Z := Z.of_nat (code c - 48).

(** The digits of an [int] literal after its first digit: single
    underscores may separate digits. *)
Fixpoint digits_val (acc : Z) (after_underscore : bool) (s : string) : option Z :=
  match s with
  | EmptyString => if after_underscore then None else Some acc
  | String c r =>
      if is_digit c then digits_val (10 * acc + digit_val c) false r
      else if (code c =? 95)%nat
           then if after_underscore then None else digits_val acc true r
           else None
  end.

Definition unsigned_val (s : string) : option Z :=
  match s with
  | EmptyString => None
  | String c r => if is_digit c then digits_val (digit_val c) false r else None
  end.

(** [int(s)] for a string: surrounding whitespace is dropped, then an
    optional sign and the digits; [None] stands for [ValueError]. *)
Definition int_of_string (s : string) : option Z :=
  match strip s with
  | String "-" r => Z.opp <$> unsigned_val r
  | String "+" r => unsigned_val r
  | body => unsigned_val body
  end.

(** [str(n)] for an integer. *)
Definition str_of_Z (n : Z) : string := NilZero.string_of_int (Z.to_int n).

(** [f"{n:02d}"]: zero padding to two characters, the sign included. *)
Definition fmt_02d (n : Z) : string :=
  if (n <? 0)%Z then str_of_Z n
  else if (n <? 10)%Z then "0" +:+ str_of_Z n
  else str_of_Z n.

(** The year of [strftime], four digits: exact from the year 1000 on (below
    it the padding depends on the platform's C library). *)
Definition fmt_04d (n : Z) : string :=
  if (n <? 0)%Z then str_of_Z n
  else if (n <? 10)%Z then "000" +:+ str_of_Z n
  else if (n <? 100)%Z then "00" +:+ str_of_Z n
  else if (n <? 1000)%Z then "0" +:+ str_of_Z n
  else str_of_Z n.

(** The double quote, for strings that contain one. *)
Definition dq : string := String "034"%char EmptyString.

End Py.

(** ** Python values, truthiness and exceptions *)

(** A float is not-a-number, an infinity, or a finite double, kept as the
    rational it denotes. *)
Inductive pyfloat :=
| FNan
| FInf (negative : bool)
| FFin (q : Q).

(** The values a decoded JSON document, a tool argument map or a tool
    result can hold.  A [dict] is its list of items in insertion order, with
    at most one item per key. *)
Inductive pyval :=
| PNone
| PBool (b : bool)
| PInt (n : Z)
| PFloat (f : pyfloat)
| PStr (s : string)
| PList (l : list pyval)
| PDict (d : list (string * pyval)).

Definition pydict := list (string * pyval).

(** [bool(v)] *)
Definition truthy (v : pyval) : bool :=
  match v with
  | PNone => false
  | PBool b => b
  | PInt n => negb (n =? 0)%Z
  | PFloat (FFin q) => negb (Qeq_bool q 0)
  | PFloat _ => true
  | PStr s => negb (String.eqb s "")
  | PList l => match l with [] => false | _ => true end
  | PDict d => match d with [] => false | _ => true end
  end.

(** [d.get(key)] and [d.get(key, default)] *)
Fixpoint dict_lookup (key : string) (d : pydict) : option pyval :=
  match d with
  | [] => None
  | (k, v) :: r => if String.eqb k key then Some v else dict_lookup key r
  end.

Definition dict_get (d : pydict) (key : string) (default : pyval) : pyval :=
  match dict_lookup key d with
  | Some v => v
  | None => default
  end.

(** [type(v).__name__] *)
Definition type_name (v : pyval) : string :=
  match v with
  | PNone => "NoneType"
  | PBool _ => "bool"
  | PInt _ => "int"
  | PFloat _ => "float"
  | PStr _ => "str"
  | PList _ => "list"
  | PDict _ => "dict"
  end.

(** The exceptions the modelled code can meet; each carries [str(e)].
    [JSONDecodeError] is a [ValueError] in Python and is kept apart here only
    to be caught by its own name. *)
Inductive exn :=
| ValueError (msg : string)
| JSONDecodeError (msg : string)
| TypeError (msg : string)
| AttributeError (msg : string)
| OverflowError (msg : string)
| RuntimeError (msg : string).

Definition exn_str (e : exn) : string :=
  match e with
  | ValueError m | JSONDecodeError m | TypeError m
  | AttributeError m | OverflowError m | RuntimeError m => m
  end.

(** [isinstance(e, ValueError)] *)
Definition is_ValueError (e : exn) : bool :=
  match e with
  | ValueError _ | JSONDecodeError _ => true
  | _ => false
  end.

Inductive res (A : Type) :=
| Ok (a : A)
| Raise (e : exn).
Arguments Ok {A} a.
Arguments Raise {A} e.

(** Sequencing stops at the first exception ([x ← m; k] below). *)
#[export] Instance res_bind : MBind res := λ A B k m,
  match m with
  | Ok a => k a
  | Raise e => Raise e
  end.

(** Calling a [str] method on a value: any other type has no such
    attribute. *)
Definition str_method (meth : string) (v : pyval) : res string :=
  match v with
  | PStr s => Ok s
  | _ => Raise (AttributeError
           ("'" +:+ type_name v +:+ "' object has no attribute '" +:+ meth +:+ "'"))
  end.

(** Truncation of a rational towards zero. *)
Definition Qtrunc (q : Q) : Z := Z.quot (Qnum q) (Zpos (Qden q)).

(** [int(v)] *)
Definition py_int (v : pyval) : res Z :=
  match v with
  | PStr s =>
      match Py.int_of_string s with
      | Some n => Ok n
      | None => Raise (ValueError ("invalid literal for int() with base 10: '" +:+ s +:+ "'"))
      end
  | PInt n => Ok n
  | PBool b => Ok (if b then 1 else 0)%Z
  | PFloat (FFin q) => Ok (Qtrunc q)
  | PFloat FNan => Raise (ValueError "cannot convert float NaN to integer")
  | PFloat (FInf _) => Raise (OverflowError "cannot convert float infinity to integer")
  | _ => Raise (TypeError
           ("int() argument must be a string, a bytes-like object or a real number, not '"
            +:+ type_name v +:+ "'"))
  end.

(** What the interpreter, its standard library and the database driver
    contribute and the repository only calls: [repr] of floats and
    containers, the JSON encoder, [datetime.strptime] (with [None] for its
    [ValueError]) and the binding of query parameters. *)
Record datetime := {
  dt_year : Z;
  dt_month : Z;
  dt_day : Z;
  dt_micros : Z   (* microseconds since midnight *)
}.

Record runtime := {
  py_repr : pyval -> string;
  json_dumps : pyval -> string;
  strptime : string -> string -> option datetime;
  (* how the database driver binds a value that is not of the column's own
     Python type: the bound value, or the driver's or server's error *)
  db_bind_int : pyval -> res Z;
  db_bind_str : pyval -> res (option string)
}.

(** [str(v)], as an f-string formats a value. *)
Definition py_str (rt : runtime) (v : pyval) : string :=
  match v with
  | PStr s => s
  | PInt n => Py.str_of_Z n
  | PBool true => "True"
  | PBool false => "False"
  | PNone => "None"
  | _ => py_repr rt v
  end.

(** ** The calendar of [datetime] *)

Module Cal.
Open Scope Z_scope.

Definition is_leap (y : Z) : bool :=
  ((y mod 4 =? 0) && negb (y mod 100 =? 0)) || (y mod 400 =? 0).

Definition days_in_month (y m : Z) : Z :=
  if m =? 2 then (if is_leap y then 29 else 28)
  else if (m =? 4) || (m =? 6) || (m =? 9) || (m =? 11) then 30
  else 31.

Definition valid_date (y m d : Z) : bool :=
  (1 <=? y) && (y <=? 9999) && (1 <=? m) && (m <=? 12)
  && (1 <=? d) && (d <=? days_in_month y m).

(** Days since 1970-01-01 of a civil date, and back. *)
Definition days_from_civil (y m d : Z) : Z :=
  let y' := if m <=? 2 then y - 1 else y in
  let era := y' / 400 in
  let yoe := y' - era * 400 in
  let doy := (153 * (m + (if 2 <? m then -3 else 9)) + 2) / 5 + d - 1 in
  let doe := yoe * 365 + yoe / 4 - yoe / 100 + doy in
  era * 146097 + doe - 719468.

Definition civil_from_days (z : Z) : Z * Z * Z :=
  let z := z + 719468 in
  let era := z / 146097 in
  let doe := z - era * 146097 in
  let yoe := (doe - doe / 1460 + doe / 36524 - doe / 146096) / 365 in
  let y := yoe + era * 400 in
  let doy := doe - (365 * yoe + yoe / 4 - yoe / 100) in
  let mp := (5 * doy + 2) / 153 in
  let d := doy - (153 * mp + 2) / 5 + 1 in
  let m := if mp <? 10 then mp + 3 else mp - 9 in
  (if m <=? 2 then y + 1 else y, m, d).

Definition ordinal (t : datetime) : Z :=
  days_from_civil (dt_year t) (dt_month t) (dt_day t).

(** [t.weekday()]: Monday is 0. *)
Definition weekday (t : datetime) : Z := (ordinal t + 3) mod 7.

(** [t + timedelta(days=n)]; a year outside 1..9999 is an
    [OverflowError]. *)
Definition add_days (t : datetime) (n : Z) : res datetime :=
  let '(y, m, d) := civil_from_days (ordinal t + n) in
  if (1 <=? y) && (y <=? 9999)
  then Ok {| dt_year := y; dt_month := m; dt_day := d; dt_micros := dt_micros t |}
  else Raise (OverflowError "date value out of range").

(** [t.replace(year=y)]; [None] stands for the [ValueError] of a day that
    does not exist in the new year. *)
Definition replace_year (t : datetime) (y : Z) : option datetime :=
  if valid_date y (dt_month t) (dt_day t)
  then Some {| dt_year := y; dt_month := dt_month t; dt_day := dt_day t;
               dt_micros := dt_micros t |}
  else None.

(** [a < b] *)
Definition before (a b : datetime) : bool :=
  (dt_year a <? dt_year b)
  || ((dt_year a =? dt_year b)
      && ((dt_month a <? dt_month b)
          || ((dt_month a =? dt_month b)
              && ((dt_day a <? dt_day b)
                  || ((dt_day a =? dt_day b) && (dt_micros a <? dt_micros b)))))).

Definition day_names : list string :=
  ["Monday"; "Tuesday"; "Wednesday"; "Thursday"; "Friday"; "Saturday"; "Sunday"].

Definition month_names : list string :=
  ["January"; "February"; "March"; "April"; "May"; "June"; "July";
   "August"; "September"; "October"; "November"; "December"].

Definition day_name (t : datetime) : string :=
  nth (Z.to_nat (weekday t)) day_names "".

Definition month_name (t : datetime) : string :=
  nth (Z.to_nat (dt_month t - 1)) month_names "".

(** [t.strftime("%Y-%m-%d")] *)
Definition strftime_iso (t : datetime) : string :=
  Py.fmt_04d (dt_year t) +:+ "-" +:+ Py.fmt_02d (dt_month t) +:+ "-" +:+ Py.fmt_02d (dt_day t).

(** [t.strftime("%A, %B %d")] *)
Definition strftime_short (t : datetime) : string :=
  day_name t +:+ ", " +:+ month_name t +:+ " " +:+ Py.fmt_02d (dt_day t).

(** [t.strftime("%A, %B %d, %Y")] *)
Definition strftime_long (t : datetime) : string :=
  strftime_short t +:+ ", " +:+ Py.fmt_04d (dt_year t).

End Cal.

(** ** The tables of [db/models.py] *)

Module User.
Record t := {
  id : Z;
  contact_number : string;
  name : option string
}.
End User.

Module Appointment.
Record t := {
  id : Z;
  user_id : Z;
  appointment_date : string;
  appointment_time : string;
  status : string;            (* scheduled, cancelled, completed *)
  purpose : option string;
  created_at : option string  (* ISO timestamp set by the server *)
}.

Definition with_status (a : t) (s : string) : t :=
  {| id := id a; user_id := user_id a; appointment_date := appointment_date a;
     appointment_time := appointment_time a; status := s;
     purpose := purpose a; created_at := created_at a |}.

Definition with_slot (a : t) (date time : string) : t :=
  {| id := id a; user_id := user_id a; appointment_date := date;
     appointment_time := time; status := status a;
     purpose := purpose a; created_at := created_at a |}.
End Appointment.

Module ConversationSummary.
Record t := {
  user_id : Z;
  session_id : string;
  summary : string;
  appointments_discussed : option string;
  duration_seconds : Q;
  total_cost : pyval
}.
End ConversationSummary.

(** The database: the rows of [appointments] in insertion order, the next
    value of its [id] sequence, the rows of [users] and those of
    [conversation_summaries]. *)
Record database := {
  appointments : list Appointment.t;
  next_id : Z;
  users : list User.t;
  conversation_summaries : list ConversationSummary.t
}.

Definition with_appointments (db : database) (rows : list Appointment.t) : database :=
  {| appointments := rows; next_id := next_id db; users := users db;
     conversation_summaries := conversation_summaries db |}.

Definition add_summary (db : database) (row : ConversationSummary.t) : database :=
  {| appointments := appointments db; next_id := next_id db; users := users db;
     conversation_summaries := (conversation_summaries db ++ [row])%list |}.

(** [db.query(Appointment).filter(Appointment.id == n).first()] *)
Definition find_appointment (db : database) (n : Z) : option Appointment.t :=
  List.find (fun a => (Appointment.id a =? n)%Z) (appointments db).

(** Committing a change to the row whose primary key is [n]. *)
Definition update_appointment (db : database) (n : Z)
    (f : Appointment.t -> Appointment.t) : database :=
  with_appointments db
    (List.map (fun a => if (Appointment.id a =? n)%Z then f a else a) (appointments db)).

(** [db.add(row); db.commit(); db.refresh(row)]: the sequence gives the
    new row its [id]. *)
Definition insert_appointment (db : database) (user : Z) (date time : string)
    (purpose : option string) (stamp : string) : Z * database :=
  let row := {| Appointment.id := next_id db;
                Appointment.user_id := user;
                Appointment.appointment_date := date;
                Appointment.appointment_time := time;
                Appointment.status := "scheduled";
                Appointment.purpose := purpose;
                Appointment.created_at := Some stamp |} in
  (next_id db,
   {| appointments := (appointments db ++ [row])%list;
      next_id := (next_id db + 1)%Z;
      users := users db;
      conversation_summaries := conversation_summaries db |}).

(** [db.query(User).filter(User.contact_number == c).first()] *)
Definition find_user_by_contact (db : database) (c : string) : option User.t :=
  List.find (fun u => String.eqb (User.contact_number u) c) (users db).

(** ** The Redis store ([core/redis_client.py]) *)

(** One map per Redis type; a key names a hash (session), a list
    (conversation) or a string (cost record).  Values are kept decoded:
    [json.loads (json.dumps v)] is [v].  Expiry is not modelled. *)
Record cost_data := {
  stt_audio_seconds : Q;
  llm_input_tokens : Z;
  llm_output_tokens : Z;
  tts_characters : Z;
  tavus_seconds : Q;
  requests_stt : Z;
  requests_llm : Z;
  requests_tts : Z;
  started_at : string
}.

Record redis := {
  hashes : gmap string (gmap string pyval);
  lists : gmap string (list pyval);
  costs : gmap string cost_data
}.

Module Redis.

Definition exists_ (r : redis) (key : string) : bool :=
  match hashes r !! key, lists r !! key, costs r !! key with
  | None, None, None => false
  | _, _, _ => true
  end.

Definition hget (r : redis) (key field : string) : option pyval :=
  h ← hashes r !! key; h !! field.

Definition hset (r : redis) (key field : string) (v : pyval) : redis :=
  {| hashes := <[key := <[field := v]> (default ∅ (hashes r !! key))]> (hashes r);
     lists := lists r; costs := costs r |}.

Definition delete (r : redis) (key : string) : redis :=
  {| hashes := base.delete key (hashes r);
     lists := base.delete key (lists r);
     costs := base.delete key (costs r) |}.

Definition rpush (r : redis) (key : string) (v : pyval) : redis :=
  {| hashes := hashes r;
     lists := <[key := (default [] (lists r !! key) ++ [v])%list]> (lists r);
     costs := costs r |}.

(** [LTRIM key -n -1]: keep the last [n] elements. *)
Definition ltrim_last (r : redis) (key : string) (n : nat) : redis :=
  match lists r !! key with
  | None => r
  | Some l =>
      {| hashes := hashes r;
         lists := <[key := drop (length l - n) l]> (lists r);
         costs := costs r |}
  end.

(** [LRANGE key 0 -1] *)
Definition lrange_all (r : redis) (key : string) : list pyval :=
  default [] (lists r !! key).

Definition set_cost (r : redis) (key : string) (c : cost_data) : redis :=
  {| hashes := hashes r; lists := lists r; costs := <[key := c]> (costs r) |}.

End Redis.

(** ** [core/session_manager.py]: [RedisSessionManager] *)

Module session_manager.

Definition namespace : string := "voice:sessions".
Definition conversation_namespace : string := "voice:conversations".

Definition _key (session_id : string) : string := namespace +:+ ":" +:+ session_id.

Definition _conversation_key (session_id : string) : string :=
  conversation_namespace +:+ ":" +:+ session_id.

(** [create_session]: [sid] is the identifier drawn, [created] and [start]
    the two readings of the clock.  [start_time] is kept as the number it
    is the text of. *)
Definition create_session (r : redis) (sid created : string) (start : Q) : pydict * redis :=
  let key := _key sid in
  let fields : list (string * pyval) :=
    [("session_id", PStr sid); ("status", PStr "initiated"); ("created_at", PStr created);
     ("start_time", PFloat (FFin start)); ("user_contact", PStr ""); ("ws_active", PStr "0")] in
  ([("session_id", PStr sid); ("created_at", PStr created); ("status", PStr "initiated")],
   fold_left (fun r kv => Redis.hset r key (fst kv) (snd kv)) fields r).

Definition get (r : redis) (session_id : string) : option (gmap string pyval) :=
  match hashes r !! _key session_id with
  | Some h => if (size h =? 0)%nat then None else Some h
  | None => None
  end.

Definition set_field (field : string) (r : redis) (session_id : string) (v : pyval) : redis :=
  let key := _key session_id in
  if Redis.exists_ r key then Redis.hset r key field v else r.

Definition set_user := set_field "user_contact".
Definition set_status := set_field "status".

Definition set_ws_active (r : redis) (session_id : string) (active : bool) : redis :=
  set_field "ws_active" r session_id (PStr (if active then "1" else "0")).

(** [get_start_time]; [utcnow] is the clock's reading for a session with no
    start time. *)
Definition get_start_time (r : redis) (session_id : string) (utcnow : Q) : Q :=
  match Redis.hget r (_key session_id) "start_time" with
  | Some (PFloat (FFin q)) => q
  | _ => utcnow
  end.

Definition init_conversation (r : redis) (session_id system_prompt : string) : redis :=
  let key := _conversation_key session_id in
  let initial_message := PDict [("role", PStr "system"); ("content", PStr system_prompt)] in
  Redis.rpush (Redis.delete r key) key initial_message.

(** The optional keys of a message are added only for truthy arguments. *)
Definition optional_item (key : string) (v : pyval) : pydict :=
  if truthy v then [(key, v)] else [].

Definition add_message (r : redis) (session_id role content : string)
    (tool_calls tool_call_id name : pyval) : redis :=
  let key := _conversation_key session_id in
  let message :=
    PDict ([("role", PStr role); ("content", PStr content)]
           ++ optional_item "tool_calls" tool_calls
           ++ optional_item "tool_call_id" tool_call_id
           ++ optional_item "name" name)%list in
  Redis.ltrim_last (Redis.rpush r key message) key 100.

Definition get_conversation (r : redis) (session_id : string) : list pyval :=
  Redis.lrange_all r (_conversation_key session_id).

Definition message_role (m : pyval) : pyval :=
  match m with
  | PDict d => dict_get d "role" PNone
  | _ => PNone
  end.

Definition is_role (role : string) (m : pyval) : bool :=
  match message_role m with
  | PStr s => String.eqb s role
  | _ => false
  end.

Definition get_user_turn_count (r : redis) (session_id : string) : nat :=
  length (List.filter (is_role "user") (get_conversation r session_id)).

Definition clear_conversation (r : redis) (session_id : string) : redis :=
  Redis.delete r (_conversation_key session_id).

Definition remove (r : redis) (session_id : string) : redis :=
  Redis.delete (Redis.delete r (_key session_id)) (_conversation_key session_id).

Definition set_metadata (r : redis) (session_id field : string) (value : pyval) : redis :=
  let key := _key session_id in
  if Redis.exists_ r key then Redis.hset r key ("meta:" +:+ field) value else r.

Definition get_metadata (r : redis) (session_id field : string) (default : pyval) : pyval :=
  match Redis.hget r (_key session_id) ("meta:" +:+ field) with
  | Some value => value
  | None => default
  end.

End session_manager.

(** ** [services/tools/executor.py]: [ToolExecutor] *)

(** What a tool call reads from outside the stores: [datetime.now()] and the
    timestamp the database server gives a new row. *)
Record clock := {
  now : datetime;
  db_now : string
}.

Record world := {
  db : database;
  kv : redis
}.

Definition with_db (w : world) (d : database) : world := {| db := d; kv := kv w |}.
Definition with_kv (w : world) (r : redis) : world := {| db := db w; kv := r |}.

Module ToolExecutor.

Record t := {
  session_id : string;
  user_id : option Z;
  user_name : option string
}.

Definition AVAILABLE_SLOTS : list string :=
  ["09:00"; "10:00"; "11:00"; "14:00"; "15:00"; "16:00"; "17:00"; "18:00"].

(** [x in l] for a list of strings. *)
Definition str_in (x : string) (l : list string) : bool :=
  existsb (String.eqb x) l.

(** [s or 'User'] for an optional string. *)
Definition or_User (s : option string) : string :=
  match s with
  | Some n => if String.eqb n "" then "User" else n
  | None => "User"
  end.

Definition opt_str (s : option string) : pyval :=
  match s with
  | Some n => PStr n
  | None => PNone
  end.

Definition failure (error : string) : pyval :=
  PDict [("success", PBool false); ("error", PStr error)].

(** [__init__]: an executor built with a truthy [user_id] marks the
    session as pre-identified. *)
Definition init (r : redis) (session_id : string) (user_id : option Z)
    (user_name : option string) : t * redis :=
  let self := {| session_id := session_id; user_id := user_id; user_name := user_name |} in
  match user_id with
  | Some n =>
      if (n =? 0)%Z then (self, r)
      else
        let r := session_manager.set_metadata r session_id "authenticated_user_id" (PInt n) in
        let r := session_manager.set_metadata r session_id "authenticated_user_name"
                   (PStr (or_User user_name)) in
        (self, r)
  | None => (self, r)
  end.

Definition _get_current_user_id (self : t) (r : redis) : pyval :=
  match user_id self with
  | Some n =>
      if (n =? 0)%Z
      then session_manager.get_metadata r (session_id self) "authenticated_user_id" PNone
      else PInt n
  | None => session_manager.get_metadata r (session_id self) "authenticated_user_id" PNone
  end.

(** [args.get(key, default)]: [args] is whatever the model sent. *)
Definition args_get (args : pyval) (key : string) (default : pyval) : res pyval :=
  match args with
  | PDict d => Ok (dict_get d key default)
  | _ => Raise (AttributeError ("'" +:+ type_name args +:+ "' object has no attribute 'get'"))
  end.

(** A value bound to an integer column or compared with one in a query. *)
Definition bind_int (rt : runtime) (v : pyval) : res Z :=
  match v with
  | PInt n => Ok n
  | _ => db_bind_int rt v
  end.

(** A value bound to a nullable string column. *)
Definition bind_str (rt : runtime) (v : pyval) : res (option string) :=
  match v with
  | PStr s => Ok (Some s)
  | PNone => Ok None
  | _ => db_bind_str rt v
  end.

(** [n == v] for an integer [n] *)
Definition int_eq (n : Z) (v : pyval) : bool :=
  match v with
  | PInt m => (n =? m)%Z
  | PBool b => (n =? (if b then 1 else 0))%Z
  | PFloat (FFin q) => Qeq_bool (inject_Z n) q
  | _ => false
  end.

(** *** Helper methods *)

Definition next_weekdays : list string :=
  ["monday"; "tuesday"; "wednesday"; "thursday"; "friday"; "saturday"; "sunday"].

(** The loop over [enumerate(days)] of [_parse_date]: the first weekday
    named in the text decides. *)
Fixpoint next_weekday (today : datetime) (date_str : string) (i : Z)
    (days : list string) : option (res datetime) :=
  match days with
  | [] => None
  | day :: rest =>
      if Py.contains day date_str then
        let current_day := Cal.weekday today in
        let days_ahead := (i - current_day)%Z in
        let days_ahead := if (days_ahead <=? 0)%Z then (days_ahead + 7)%Z else days_ahead in
        Some (Cal.add_days today days_ahead)
      else next_weekday today date_str (i + 1)%Z rest
  end.

Definition date_formats : list string :=
  ["%Y-%m-%d"; "%d-%m-%Y"; "%m/%d/%Y"; "%d/%m/%Y"; "%B %d"; "%b %d"; "%d %B"; "%d %b"].

(** One turn of the loop over [formats]: [None] is the [ValueError] that
    moves on to the next format. *)
Definition try_format (rt : runtime) (today : datetime) (date_str fmt : string)
    : option datetime :=
  match strptime rt date_str fmt with
  | None => None
  | Some parsed =>
      if (dt_year parsed =? 1900)%Z then
        match Cal.replace_year parsed (dt_year today) with
        | None => None
        | Some parsed =>
            if Cal.before parsed today
            then Cal.replace_year parsed (dt_year today + 1)
            else Some parsed
        end
      else Some parsed
  end.

Fixpoint try_formats (rt : runtime) (today : datetime) (date_str : string)
    (formats : list string) : res datetime :=
  match formats with
  | [] => Raise (ValueError ("Could not parse date: " +:+ date_str))
  | fmt :: rest =>
      match try_format rt today date_str fmt with
      | Some parsed => Ok parsed
      | None => try_formats rt today date_str rest
      end
  end.

Definition _parse_date (rt : runtime) (c : clock) (date_str : pyval) : res datetime :=
  s ← str_method "lower" date_str;
  let date_str := Py.strip (Py.lower s) in
  let today := now c in
  if str_in date_str ["today"; "now"] then Ok today
  else if String.eqb date_str "tomorrow" then Cal.add_days today 1
  else if String.eqb date_str "day after tomorrow" then Cal.add_days today 2
  else if Py.contains "next" date_str then
    match next_weekday today date_str 0 next_weekdays with
    | Some r => r
    | None =>
        if Py.contains "week" date_str then Cal.add_days today 7
        else try_formats rt today date_str date_formats
    end
  else try_formats rt today date_str date_formats.

(** The [try] block of [_normalize_time]; [None] is any exception, which
    the bare [except] turns into the text itself. *)
Definition parse_clock (time_str : string) (is_pm is_am : bool) : option string :=
  hm ← (if Py.contains ":" time_str then
          match Py.split ":" time_str with
          | [hour; minute] =>
              hour ← Py.int_of_string hour;
              minute ← (if String.eqb minute "" then Some 0%Z else Py.int_of_string minute);
              Some (hour, minute)
          | _ => None
          end
        else
          hour ← Py.int_of_string time_str;
          Some (hour, 0%Z));
  let '(hour, minute) := hm in
  let hour :=
    if is_pm && (hour <? 12)%Z then (hour + 12)%Z
    else if is_am && (hour =? 12)%Z then 0%Z
    else hour in
  Some (Py.fmt_02d hour +:+ ":" +:+ Py.fmt_02d minute).

Definition _normalize_time (time_str : pyval) : res string :=
  s ← str_method "lower" time_str;
  let time_str := Py.strip (Py.lower s) in
  let time_str := Py.replace " " "" time_str in
  let is_pm := Py.contains "pm" time_str || Py.contains "p.m" time_str in
  let is_am := Py.contains "am" time_str || Py.contains "a.m" time_str in
  let time_str :=
    Py.replace "." ""
      (Py.replace "a.m." ""
         (Py.replace "p.m." ""
            (Py.replace "am" "" (Py.replace "pm" "" time_str)))) in
  match parse_clock time_str is_pm is_am with
  | Some t => Ok t
  | None => Ok time_str
  end.

Definition _get_booked_slots_from_db (d : database) (date : string)
    (exclude_appointment_id : option Z) : list string :=
  let query := fun a : Appointment.t =>
    String.eqb (Appointment.appointment_date a) date
    && String.eqb (Appointment.status a) "scheduled" in
  let query :=
    match exclude_appointment_id with
    | Some n =>
        if (n =? 0)%Z then query
        else fun a => query a && negb (Appointment.id a =? n)%Z
    | None => query
    end in
  List.map Appointment.appointment_time (List.filter query (appointments d)).

(** [ORDER BY appointment_date, appointment_time], and the key of the
    [sort] in [retrieve_appointments]: strings compare byte by byte, and rows
    with equal keys keep their order. *)
Definition key_le (k1 k2 : string * string) : bool :=
  String.ltb (fst k1) (fst k2)
  || (String.eqb (fst k1) (fst k2) && String.leb (snd k1) (snd k2)).

Fixpoint insert_by {A : Type} (key : A -> string * string) (x : A) (l : list A) : list A :=
  match l with
  | [] => [x]
  | y :: r => if key_le (key y) (key x) then y :: insert_by key x r else x :: l
  end.

Definition sort_by {A : Type} (key : A -> string * string) (l : list A) : list A :=
  fold_left (fun acc x => insert_by key x acc) l [].

Definition row_dict (a : Appointment.t) : pydict :=
  [("id", PStr (Py.str_of_Z (Appointment.id a)));
   ("date", PStr (Appointment.appointment_date a));
   ("time", PStr (Appointment.appointment_time a));
   ("status", PStr (Appointment.status a));
   ("purpose", PStr (default "" (Appointment.purpose a)));
   ("created_at", opt_str (Appointment.created_at a))].

Definition _get_user_appointments_from_db (d : database) (user : Z) : list pydict :=
  let rows := List.filter (fun a => (Appointment.user_id a =? user)%Z) (appointments d) in
  List.map row_dict
    (sort_by (fun a => (Appointment.appointment_date a, Appointment.appointment_time a)) rows).

(** [a[key]] or [a.get(key, "")] read as a string. *)
Definition item_str (a : pydict) (key : string) : string :=
  match dict_get a key (PStr "") with
  | PStr s => s
  | _ => ""
  end.

Definition is_scheduled (a : pydict) : bool := String.eqb (item_str a "status") "scheduled".

(** *** Tool implementations: each returns its result or the exception it
    raises, with the executor and the stores as it leaves them. *)

Definition outcome : Type := res pyval * t * world.

(** [self.user_id] when it is truthy. *)
Definition own_user_id (self : t) : option Z :=
  match user_id self with
  | Some n => if (n =? 0)%Z then None else Some n
  | None => None
  end.

Definition _execute_identify_user (rt : runtime) (self : t) (w : world) (args : pyval)
    : outcome :=
  match own_user_id self with
  | Some n =>
      (Ok (PDict [("success", PBool true);
                  ("message", PStr ("User already authenticated as " +:+ or_User (user_name self)));
                  ("user_id", PInt n);
                  ("already_authenticated", PBool true)]), self, w)
  | None =>
      match (v ← args_get args "contact_number" (PStr ""); str_method "strip" v) with
      | Raise e => (Raise e, self, w)
      | Ok contact_number =>
          let contact_number := Py.filter_digits (Py.strip contact_number) in
          if (String.length contact_number <? 10)%nat then
            (Ok (failure "Invalid phone number. Please provide a 10-digit number."), self, w)
          else
            match find_user_by_contact (db w) contact_number with
            | Some user =>
                let r := session_manager.set_metadata (kv w) (session_id self)
                           "authenticated_user_id" (PInt (User.id user)) in
                let r := session_manager.set_metadata r (session_id self)
                           "authenticated_user_name" (opt_str (User.name user)) in
                let self := {| session_id := session_id self;
                               user_id := Some (User.id user);
                               user_name := User.name user |} in
                let existing := _get_user_appointments_from_db (db w) (User.id user) in
                (Ok (PDict [("success", PBool true);
                            ("user_id", PInt (User.id user));
                            ("user_name", opt_str (User.name user));
                            ("message", PStr ("Welcome back, " +:+ or_User (User.name user) +:+ "!"));
                            ("existing_appointments_count",
                             PInt (Z.of_nat (length existing)))]),
                 self, with_kv w r)
            | None =>
                (Ok (failure "No user found with that phone number. Please register first."),
                 self, w)
            end
      end
  end.

Definition _execute_fetch_slots (rt : runtime) (c : clock) (self : t) (w : world)
    (args : pyval) : outcome :=
  match args_get args "date" (PStr "") with
  | Raise e => (Raise e, self, w)
  | Ok date_str =>
      match _parse_date rt c date_str with
      | Raise e =>
          if is_ValueError e
          then (Ok (failure ("Invalid date format: " +:+ exn_str e)), self, w)
          else (Raise e, self, w)
      | Ok date =>
          let date_formatted := Cal.strftime_iso date in
          let booked_slots := _get_booked_slots_from_db (db w) date_formatted None in
          let available :=
            List.filter (fun slot => negb (str_in slot booked_slots)) AVAILABLE_SLOTS in
          (Ok (PDict [("success", PBool true);
                      ("date", PStr date_formatted);
                      ("date_display", PStr (Cal.strftime_long date));
                      ("available_slots", PList (List.map PStr available));
                      ("booked_slots", PList (List.map PStr booked_slots));
                      ("message",
                       PStr ("Found " +:+ Py.str_of_Z (Z.of_nat (length available))
                             +:+ " available slots on " +:+ date_formatted))]),
           self, w)
      end
  end.

Definition not_authenticated : pyval :=
  failure "User not authenticated. Please log in first.".

(** The loop of [book_appointment] over the user's appointments. *)
Definition holds_slot (date time : string) (appt : pydict) : bool :=
  String.eqb (item_str appt "date") date
  && String.eqb (item_str appt "time") time
  && String.eqb (item_str appt "status") "scheduled".

Definition _execute_book_appointment (rt : runtime) (c : clock) (self : t) (w : world)
    (args : pyval) : outcome :=
  let user_id := _get_current_user_id self (kv w) in
  if negb (truthy user_id) then (Ok not_authenticated, self, w)
  else
    match (date_str ← args_get args "date" (PStr "");
           time_str ← args_get args "time" (PStr "");
           purpose ← args_get args "purpose" (PStr "General appointment");
           Ok (date_str, time_str, purpose)) with
    | Raise e => (Raise e, self, w)
    | Ok (date_str, time_str, purpose) =>
        match _parse_date rt c date_str with
        | Raise e =>
            if is_ValueError e
            then (Ok (failure ("Invalid date: " +:+ exn_str e)), self, w)
            else (Raise e, self, w)
        | Ok date =>
            let date_formatted := Cal.strftime_iso date in
            match _normalize_time time_str with
            | Raise e => (Raise e, self, w)
            | Ok time_str =>
                if negb (str_in time_str AVAILABLE_SLOTS) then
                  (Ok (failure ("Invalid time slot. Available slots are: "
                                +:+ Py.join ", " AVAILABLE_SLOTS)), self, w)
                else
                  let booked_slots := _get_booked_slots_from_db (db w) date_formatted None in
                  if str_in time_str booked_slots then
                    (Ok (failure ("Sorry, " +:+ time_str +:+ " on " +:+ date_formatted
                                  +:+ " is already booked. Please choose another slot.")),
                     self, w)
                  else
                    match bind_int rt user_id with
                    | Raise e => (Raise e, self, w)
                    | Ok user =>
                        let user_appointments := _get_user_appointments_from_db (db w) user in
                        if existsb (holds_slot date_formatted time_str) user_appointments then
                          (Ok (failure "You already have an appointment at this date and time."),
                           self, w)
                        else
                          match bind_str rt purpose with
                          | Raise e => (Raise e, self, w)
                          | Ok stored_purpose =>
                              let '(appointment_id, d) :=
                                insert_appointment (db w) user date_formatted time_str
                                  stored_purpose (db_now c) in
                              (Ok (PDict
                                 [("success", PBool true);
                                  ("appointment_id", PStr (Py.str_of_Z appointment_id));
                                  ("date", PStr date_formatted);
                                  ("date_display", PStr (Cal.strftime_long date));
                                  ("time", PStr time_str);
                                  ("purpose", purpose);
                                  ("message",
                                   PStr ("Appointment booked for " +:+ Cal.strftime_short date
                                         +:+ " at " +:+ time_str))]),
                               self, with_db w d)
                          end
                    end
            end
        end
    end.

Definition count (l : list pydict) : pyval := PInt (Z.of_nat (length l)).

Definition _execute_retrieve_appointments (rt : runtime) (c : clock) (self : t) (w : world)
    (args : pyval) : outcome :=
  let user_id := _get_current_user_id self (kv w) in
  if negb (truthy user_id) then (Ok not_authenticated, self, w)
  else
    match (include_cancelled ← args_get args "include_cancelled" (PBool false);
           user ← bind_int rt user_id;
           Ok (include_cancelled, user)) with
    | Raise e => (Raise e, self, w)
    | Ok (include_cancelled, user) =>
        let appointments := _get_user_appointments_from_db (db w) user in
        let appointments :=
          if negb (truthy include_cancelled)
          then List.filter (fun a => negb (String.eqb (item_str a "status") "cancelled"))
                 appointments
          else appointments in
        let appointments :=
          sort_by (fun a => (item_str a "date", item_str a "time")) appointments in
        let today := Cal.strftime_iso (now c) in
        let upcoming :=
          List.filter (fun a => String.leb today (item_str a "date") && is_scheduled a)
            appointments in
        let past :=
          List.filter (fun a => String.ltb (item_str a "date") today || negb (is_scheduled a))
            appointments in
        (Ok (PDict [("success", PBool true);
                    ("user_id", user_id);
                    ("total_count", count appointments);
                    ("upcoming", PList (List.map PDict upcoming));
                    ("upcoming_count", count upcoming);
                    ("past", PList (List.map PDict past));
                    ("past_count", count past);
                    ("message",
                     PStr ("Found " +:+ Py.str_of_Z (Z.of_nat (length upcoming))
                           +:+ " upcoming and " +:+ Py.str_of_Z (Z.of_nat (length past))
                           +:+ " past appointments"))]),
         self, w)
    end.

(** The body of the [try] of [cancel_appointment], given the parsed
    identifier. *)
Definition cancel_found (rt : runtime) (self : t) (w : world) (user_id appointment_id : pyval)
    (n : Z) : outcome :=
  match find_appointment (db w) n with
  | None =>
      (Ok (failure ("Appointment " +:+ py_str rt appointment_id +:+ " not found.")), self, w)
  | Some appointment =>
      if negb (int_eq (Appointment.user_id appointment) user_id) then
        (Ok (failure "This appointment doesn't belong to you."), self, w)
      else if String.eqb (Appointment.status appointment) "cancelled" then
        (Ok (failure "This appointment is already cancelled."), self, w)
      else
        let d := update_appointment (db w) n (fun a => Appointment.with_status a "cancelled") in
        (Ok (PDict
           [("success", PBool true);
            ("appointment_id", appointment_id);
            ("date", PStr (Appointment.appointment_date appointment));
            ("time", PStr (Appointment.appointment_time appointment));
            ("message",
             PStr ("Appointment on " +:+ Appointment.appointment_date appointment
                   +:+ " at " +:+ Appointment.appointment_time appointment
                   +:+ " has been cancelled."))]),
         self, with_db w d)
  end.

Definition invalid_id (rt : runtime) (appointment_id : pyval) : pyval :=
  failure ("Invalid appointment ID: " +:+ py_str rt appointment_id).

Definition _execute_cancel_appointment (rt : runtime) (self : t) (w : world) (args : pyval)
    : outcome :=
  let user_id := _get_current_user_id self (kv w) in
  if negb (truthy user_id) then (Ok not_authenticated, self, w)
  else
    match args_get args "appointment_id" (PStr "") with
    | Raise e => (Raise e, self, w)
    | Ok appointment_id =>
        match py_int appointment_id with
        | Raise e =>
            if is_ValueError e then (Ok (invalid_id rt appointment_id), self, w)
            else (Raise e, self, w)
        | Ok n => cancel_found rt self w user_id appointment_id n
        end
    end.

(** The part of [modify_appointment] after the ownership and status
    checks. *)
Definition modify_owned (rt : runtime) (c : clock) (self : t) (w : world)
    (appointment_id new_date new_time : pyval) (n : Z) (appointment : Appointment.t)
    : outcome :=
  match (if truthy new_date
         then match _parse_date rt c new_date with
              | Ok date_obj => Ok (inl (Cal.strftime_iso date_obj))
              | Raise e =>
                  if is_ValueError e
                  then Ok (inr (failure ("Invalid new date: " +:+ exn_str e)))
                  else Raise e
              end
         else Ok (inl (Appointment.appointment_date appointment))) with
  | Raise e => (Raise e, self, w)
  | Ok (inr result) => (Ok result, self, w)
  | Ok (inl target_date) =>
      match (if truthy new_time
             then _normalize_time new_time
             else Ok (Appointment.appointment_time appointment)) with
      | Raise e => (Raise e, self, w)
      | Ok target_time =>
          if truthy new_time && negb (str_in target_time AVAILABLE_SLOTS) then
            (Ok (failure ("Invalid time. Available: " +:+ Py.join ", " AVAILABLE_SLOTS)),
             self, w)
          else
            let booked_slots := _get_booked_slots_from_db (db w) target_date (Some n) in
            if str_in target_time booked_slots then
              (Ok (failure ("Sorry, " +:+ target_time +:+ " on " +:+ target_date
                            +:+ " is already booked.")), self, w)
            else
              let old_date := Appointment.appointment_date appointment in
              let old_time := Appointment.appointment_time appointment in
              let d := update_appointment (db w) n
                         (fun a => Appointment.with_slot a target_date target_time) in
              (Ok (PDict
                 [("success", PBool true);
                  ("appointment_id", appointment_id);
                  ("old_date", PStr old_date);
                  ("old_time", PStr old_time);
                  ("new_date", PStr target_date);
                  ("new_time", PStr target_time);
                  ("message",
                   PStr ("Appointment changed from " +:+ old_date +:+ " " +:+ old_time
                         +:+ " to " +:+ target_date +:+ " " +:+ target_time))]),
               self, with_db w d)
      end
  end.

Definition _execute_modify_appointment (rt : runtime) (c : clock) (self : t) (w : world)
    (args : pyval) : outcome :=
  let user_id := _get_current_user_id self (kv w) in
  if negb (truthy user_id) then (Ok not_authenticated, self, w)
  else
    match (appointment_id ← args_get args "appointment_id" (PStr "");
           new_date ← args_get args "new_date" PNone;
           new_time ← args_get args "new_time" PNone;
           Ok (appointment_id, new_date, new_time)) with
    | Raise e => (Raise e, self, w)
    | Ok (appointment_id, new_date, new_time) =>
        if negb (truthy new_date) && negb (truthy new_time) then
          (Ok (failure "Please specify a new date or time to modify."), self, w)
        else
          match py_int appointment_id with
          | Raise e =>
              if is_ValueError e then (Ok (invalid_id rt appointment_id), self, w)
              else (Raise e, self, w)
          | Ok n =>
              match find_appointment (db w) n with
              | None =>
                  (Ok (failure ("Appointment " +:+ py_str rt appointment_id +:+ " not found.")),
                   self, w)
              | Some appointment =>
                  if negb (int_eq (Appointment.user_id appointment) user_id) then
                    (Ok (failure "This appointment doesn't belong to you."), self, w)
                  else if String.eqb (Appointment.status appointment) "cancelled" then
                    (Ok (failure "Cannot modify a cancelled appointment."), self, w)
                  else modify_owned rt c self w appointment_id new_date new_time n appointment
              end
          end
    end.

Definition _execute_end_conversation (self : t) (w : world) (args : pyval) : outcome :=
  match args_get args "reason" (PStr "user_request") with
  | Raise e => (Raise e, self, w)
  | Ok reason =>
      (Ok (PDict [("success", PBool true);
                  ("reason", reason);
                  ("message", PStr "Ending conversation. Goodbye!")]), self, w)
  end.

(** [getattr(self, f"_execute_{tool_name}", None)]: the methods of the class
    whose name starts with [_execute_]. *)
Definition method (rt : runtime) (c : clock) (tool_name : string)
    : option (t -> world -> pyval -> outcome) :=
  if String.eqb tool_name "identify_user" then Some (_execute_identify_user rt)
  else if String.eqb tool_name "fetch_slots" then Some (_execute_fetch_slots rt c)
  else if String.eqb tool_name "book_appointment" then Some (_execute_book_appointment rt c)
  else if String.eqb tool_name "retrieve_appointments"
       then Some (_execute_retrieve_appointments rt c)
  else if String.eqb tool_name "cancel_appointment" then Some (_execute_cancel_appointment rt)
  else if String.eqb tool_name "modify_appointment" then Some (_execute_modify_appointment rt c)
  else if String.eqb tool_name "end_conversation"
       then Some (fun self w args => _execute_end_conversation self w args)
  else None.

(** [execute]: an unknown tool and any exception of a tool become a failure
    result. *)
Definition execute (rt : runtime) (c : clock) (self : t) (w : world)
    (tool_name : string) (arguments : pyval) : outcome :=
  match method rt c tool_name with
  | None => (Ok (failure ("Unknown tool: " +:+ tool_name)), self, w)
  | Some m =>
      match m self w arguments with
      | (Ok result, self, w) => (Ok result, self, w)
      | (Raise e, self, w) => (Ok (failure (exn_str e)), self, w)
      end
  end.

(** [get_session_appointments] *)
Definition get_session_appointments (rt : runtime) (self : t) (w : world) : res (list pydict) :=
  let user_id := _get_current_user_id self (kv w) in
  if negb (truthy user_id) then Ok []
  else
    user ← bind_int rt user_id;
    Ok (List.map
          (fun a => [("id", dict_get a "id" PNone); ("date", dict_get a "date" PNone);
                     ("time", dict_get a "time" PNone); ("status", dict_get a "status" PNone);
                     ("purpose", dict_get a "purpose" (PStr ""))])
          (List.filter is_scheduled (_get_user_appointments_from_db (db w) user))).

End ToolExecutor.

(** ** The REST endpoints over the appointments ([api/appointments.py]) *)

(** What an endpoint hands to the framework: the value it returns, or the
    [HTTPException] it raises. *)
Inductive http (A : Type) :=
| Returned (a : A)
| HTTPException (status_code : Z) (detail : string).

Arguments Returned {A} a.
Arguments HTTPException {A} status_code detail.

(** [schemas.AppointmentCreate], the validated body of a request. *)
Module AppointmentCreate.
Record t := {
  user_id : option Z;
  appointment_date : string;
  appointment_time : string;
  purpose : option string
}.
End AppointmentCreate.

(** Each endpoint takes the database, the validated request and the user
    the [get_current_user] dependency resolved, and gives its response with
    the database as it leaves it. *)
Module appointments_api.

Definition slot_booked : string :=
  "This time slot is already booked. Please choose another time.".

(** Committing a change to a row, under a name the endpoints leave free. *)
Definition commit_change := update_appointment.

(** The conflict query: the first scheduled row at the requested date and
    time, other than the row [except] for [update_appointment].  The
    endpoints test only whether a row comes back. *)
Definition conflict (d : database) (appointment : AppointmentCreate.t) (except : option Z)
    : option Appointment.t :=
  List.find
    (fun a =>
       match except with
       | Some n => negb (Appointment.id a =? n)%Z
       | None => true
       end
       && String.eqb (Appointment.appointment_date a)
            (AppointmentCreate.appointment_date appointment)
       && String.eqb (Appointment.appointment_time a)
            (AppointmentCreate.appointment_time appointment)
       && String.eqb (Appointment.status a) "scheduled")
    (appointments d).

(** [POST /]: the row is the caller's, whatever [user_id] the body names. *)
Definition create_appointment (d : database) (db_now : string)
    (appointment : AppointmentCreate.t) (current_user : User.t)
    : http Appointment.t * database :=
  match conflict d appointment None with
  | Some _ => (HTTPException 400 slot_booked, d)
  | None =>
      let db_appointment :=
        {| Appointment.id := next_id d;
           Appointment.user_id := User.id current_user;
           Appointment.appointment_date := AppointmentCreate.appointment_date appointment;
           Appointment.appointment_time := AppointmentCreate.appointment_time appointment;
           Appointment.status := "scheduled";
           Appointment.purpose := AppointmentCreate.purpose appointment;
           Appointment.created_at := Some db_now |} in
      (Returned db_appointment,
       snd (insert_appointment d (User.id current_user)
              (AppointmentCreate.appointment_date appointment)
              (AppointmentCreate.appointment_time appointment)
              (AppointmentCreate.purpose appointment) db_now))
  end.

(** [GET /]: [skip] and [limit] are naturals here; the database server
    refuses a negative [OFFSET] or [LIMIT]. *)
Definition get_appointments (d : database) (user_id : option Z) (skip limit : nat)
    (current_user : User.t) : list Appointment.t :=
  let target_user_id :=
    match user_id with
    | Some n => if (n =? 0)%Z then User.id current_user else n
    | None => User.id current_user
    end in
  let rows :=
    List.filter (fun a => (Appointment.user_id a =? target_user_id)%Z) (appointments d) in
  take limit
    (drop skip
       (ToolExecutor.sort_by
          (fun a => (Appointment.appointment_date a, Appointment.appointment_time a)) rows)).

(** [GET /{appointment_id}] *)
Definition get_appointment (d : database) (appointment_id : Z) (current_user : User.t)
    : http Appointment.t :=
  match find_appointment d appointment_id with
  | None => HTTPException 404 "Appointment not found"
  | Some appointment =>
      if negb (Appointment.user_id appointment =? User.id current_user)%Z
      then HTTPException 403 "Not authorized to view this appointment"
      else Returned appointment
  end.

(** The fields [update_appointment] assigns. *)
Definition with_request (a : Appointment.t) (appointment : AppointmentCreate.t)
    : Appointment.t :=
  {| Appointment.id := Appointment.id a;
     Appointment.user_id := Appointment.user_id a;
     Appointment.appointment_date := AppointmentCreate.appointment_date appointment;
     Appointment.appointment_time := AppointmentCreate.appointment_time appointment;
     Appointment.status := Appointment.status a;
     Appointment.purpose := AppointmentCreate.purpose appointment;
     Appointment.created_at := Appointment.created_at a |}.

(** [PUT /{appointment_id}] *)
Definition update_appointment (d : database) (appointment_id : Z)
    (appointment : AppointmentCreate.t) (current_user : User.t)
    : http Appointment.t * database :=
  match find_appointment d appointment_id with
  | None => (HTTPException 404 "Appointment not found", d)
  | Some db_appointment =>
      if negb (Appointment.user_id db_appointment =? User.id current_user)%Z
      then (HTTPException 403 "Not authorized to modify this appointment", d)
      else
        match conflict d appointment (Some appointment_id) with
        | Some _ => (HTTPException 400 slot_booked, d)
        | None =>
            (Returned (with_request db_appointment appointment),
             commit_change d appointment_id (fun a => with_request a appointment))
        end
  end.

(** [DELETE /{appointment_id}] *)
Definition cancel_appointment (d : database) (appointment_id : Z) (current_user : User.t)
    : http pydict * database :=
  match find_appointment d appointment_id with
  | None => (HTTPException 404 "Appointment not found", d)
  | Some db_appointment =>
      if negb (Appointment.user_id db_appointment =? User.id current_user)%Z
      then (HTTPException 403 "Not authorized to cancel this appointment", d)
      else
        (Returned [("message", PStr "Appointment cancelled successfully")],
         commit_change d appointment_id
           (fun a => Appointment.with_status a "cancelled"))
  end.

End appointments_api.

(** ** Regular expressions, as Python's [re] matches them *)

(** The fragment the sources use: literals, classes, sequence, alternation,
    greedy [?], [*] and [+], the lazy [*?], capturing groups and [$].  The
    matcher backtracks in the order of [re]: the first alternative first, as
    many repetitions as possible first (as few for a lazy operator). *)
Module Re.

Inductive regex :=
| Lit (s : string)
| Cls (p : ascii -> bool)
| Seq (a b : regex)
| Alt (a b : regex)
| Opt (a : regex)
| Star (a : regex)
| Plus (a : regex)
| LazyStar (a : regex)
| Grp (a : regex)
| Eos.

Fixpoint drop_prefix (p s : string) : option string :=
  match p, s with
  | EmptyString, _ => Some s
  | String a p', String b s' => if Ascii.eqb a b then drop_prefix p' s' else None
  | String _ _, EmptyString => None
  end.

(** The first [n] characters of [s]. *)
Fixpoint take (n : nat) (s : string) : string :=
  match n, s with
  | S k, String c r => String c (take k r)
  | _, _ => EmptyString
  end.

(** The text between two suffixes of the subject. *)
Definition consumed (s s' : string) : string :=
  take (String.length s - String.length s') s.

Definition shorter (s' s : string) : bool :=
  (String.length s' <? String.length s)%nat.

Section Matcher.
Context {R : Type}.

(** [run r fuel s caps k]: match [r] at the head of [s], then continue with
    [k] on the rest and the groups captured so far; [None] makes the matcher
    try its next choice.  A repetition goes round only after consuming a
    character, so [fuel] above the length of the subject is never used up. *)
Fixpoint run (r : regex) (fuel : nat) (s : string) (caps : list string)
    (k : string -> list string -> option R) : option R :=
  match r with
  | Lit p =>
      match drop_prefix p s with
      | Some s' => k s' caps
      | None => None
      end
  | Cls p =>
      match s with
      | String c s' => if p c then k s' caps else None
      | EmptyString => None
      end
  | Seq a b => run a fuel s caps (fun s' caps' => run b fuel s' caps' k)
  | Alt a b =>
      match run a fuel s caps k with
      | Some x => Some x
      | None => run b fuel s caps k
      end
  | Opt a =>
      match run a fuel s caps k with
      | Some x => Some x
      | None => k s caps
      end
  | Star a =>
      (fix star (n : nat) (s : string) (caps : list string) {struct n} : option R :=
         match n with
         | O => k s caps
         | S n' =>
             match run a fuel s caps
                     (fun s' caps' => if shorter s' s then star n' s' caps' else None) with
             | Some x => Some x
             | None => k s caps
             end
         end) fuel s caps
  | Plus a =>
      run a fuel s caps
        ((fix star (n : nat) (s : string) (caps : list string) {struct n} : option R :=
            match n with
            | O => k s caps
            | S n' =>
                match run a fuel s caps
                        (fun s' caps' => if shorter s' s then star n' s' caps' else None) with
                | Some x => Some x
                | None => k s caps
                end
            end) fuel)
  | LazyStar a =>
      (fix star (n : nat) (s : string) (caps : list string) {struct n} : option R :=
         match k s caps with
         | Some x => Some x
         | None =>
             match n with
             | O => None
             | S n' =>
                 run a fuel s caps
                   (fun s' caps' => if shorter s' s then star n' s' caps' else None)
             end
         end) fuel s caps
  | Grp a => run a fuel s caps (fun s' caps' => k s' (caps' ++ [consumed s s'])%list)
  | Eos =>
      match s with
      | EmptyString => k s caps
      | String c EmptyString => if Ascii.eqb c "010" then k s caps else None
      | _ => None
      end
  end.

End Matcher.

(** A match at the head of [s]: the rest of the subject and the groups. *)
Definition match_at (r : regex) (s : string) : option (string * list string) :=
  run r (S (String.length s)) s [] (fun s' caps => Some (s', caps)).

(** [re.findall]: the groups of each match, from the left, matches not
    overlapping.  None of the patterns below matches the empty string. *)
Fixpoint findall_from (r : regex) (skip : nat) (s : string) : list (list string) :=
  match s with
  | EmptyString => []
  | String _ rest =>
      match skip with
      | S k => findall_from r k rest
      | O =>
          match match_at r s with
          | Some (s', caps) =>
              caps :: findall_from r (String.length s - String.length s' - 1) rest
          | None => findall_from r 0 rest
          end
      end
  end.

Definition findall (r : regex) (s : string) : list (list string) := findall_from r 0 s.

(** [re.sub(r, repl, s)] for a literal replacement. *)
Fixpoint sub_from (r : regex) (repl : string) (skip : nat) (s : string) : string :=
  match s with
  | EmptyString => EmptyString
  | String c rest =>
      match skip with
      | S k => sub_from r repl k rest
      | O =>
          match match_at r s with
          | Some (s', _) =>
              if shorter s' s
              then repl +:+ sub_from r repl (String.length s - String.length s' - 1) rest
              else String c (sub_from r repl 0 rest)
          | None => String c (sub_from r repl 0 rest)
          end
      end
  end.

Definition sub (r : regex) (repl s : string) : string := sub_from r repl 0 s.

Definition chr (c : ascii) : regex := Cls (Ascii.eqb c).
Definition not_chr (c : ascii) : regex := Cls (fun x => negb (Ascii.eqb c x)).
Definition word : regex := Cls Py.is_word.
Definition space : regex := Cls Py.isspace.
(** [.] with and without [re.DOTALL] *)
Definition any : regex := Cls (fun _ => true).
Definition dot : regex := not_chr "010".

Fixpoint seq (l : list regex) : regex :=
  match l with
  | [] => Lit ""
  | [r] => r
  | r :: rest => Seq r (seq rest)
  end.

End Re.

(** ** [json.loads] *)

(** The decoder of the standard library, on byte strings.  A number with a
    fraction or an exponent is kept as the exact rational of its literal (the
    interpreter rounds it to a double); an escape above code point 255 has no
    character in the model and is read as [?].  [None] is
    [json.JSONDecodeError]. *)
Module Json.

Definition is_ws (c : ascii) : bool :=
  Ascii.eqb c " " || Ascii.eqb c "009" || Ascii.eqb c "010" || Ascii.eqb c "013".

Fixpoint skip_ws (s : string) : string :=
  match s with
  | String c r => if is_ws c then skip_ws r else s
  | EmptyString => EmptyString
  end.

Definition hex_val (c : ascii) : option nat :=
  if Py.is_digit c then Some (Py.code c - 48)
  else if Py.in_range 97 102 c then Some (Py.code c - 87)
  else if Py.in_range 65 70 c then Some (Py.code c - 55)
  else None.

Definition hex4 (a b c d : ascii) : option nat :=
  x ← hex_val a; y ← hex_val b; z ← hex_val c; w ← hex_val d;
  Some (((x * 16 + y) * 16 + z) * 16 + w).

Definition char_of_code (n : nat) : ascii :=
  if (n <? 256)%nat then ascii_of_nat n else "?"%char.

Definition escape (c : ascii) : option ascii :=
  if Ascii.eqb c "034" then Some "034"%char
  else if Ascii.eqb c "\" then Some "\"%char
  else if Ascii.eqb c "/" then Some "/"%char
  else if Ascii.eqb c "b" then Some "008"%char
  else if Ascii.eqb c "f" then Some "012"%char
  else if Ascii.eqb c "n" then Some "010"%char
  else if Ascii.eqb c "r" then Some "013"%char
  else if Ascii.eqb c "t" then Some "009"%char
  else None.

(** The characters after an opening quote, up to the closing one. *)
Fixpoint string_body (s : string) : option (string * string) :=
  match s with
  | EmptyString => None
  | String c r =>
      if Ascii.eqb c "034" then Some (EmptyString, r)
      else if Ascii.eqb c "\" then
        match r with
        | String e r' =>
            if Ascii.eqb e "u" then
              match r' with
              | String h1 (String h2 (String h3 (String h4 r''))) =>
                  n ← hex4 h1 h2 h3 h4;
                  '(t, rest) ← string_body r'';
                  Some (String (char_of_code n) t, rest)
              | _ => None
              end
            else
              ch ← escape e;
              '(t, rest) ← string_body r';
              Some (String ch t, rest)
        | EmptyString => None
        end
      else if (Py.code c <? 32)%nat then None
      else
        '(t, rest) ← string_body r;
        Some (String c t, rest)
  end.

(** The longest run of digits at the head of [s], and the rest. *)
Fixpoint span_digits (s : string) : string * string :=
  match s with
  | String c r =>
      if Py.is_digit c then let '(ds, rest) := span_digits r in (String c ds, rest)
      else (EmptyString, s)
  | EmptyString => (EmptyString, EmptyString)
  end.

Fixpoint digits_Z (acc : Z) (ds : string) : Z :=
  match ds with
  | String c r => digits_Z (10 * acc + Py.digit_val c) r
  | EmptyString => acc
  end.

Definition int_part (s : string) : option (string * string) :=
  match s with
  | String c r =>
      if Ascii.eqb c "0" then Some ("0", r)
      else if Py.is_digit c then Some (span_digits s)
      else None
  | EmptyString => None
  end.

Definition frac_part (s : string) : option string * string :=
  match s with
  | String "." r =>
      let '(ds, rest) := span_digits r in
      if String.eqb ds "" then (None, s) else (Some ds, rest)
  | _ => (None, s)
  end.

Definition exp_part (s : string) : option Z * string :=
  match s with
  | String e r =>
      if Ascii.eqb e "e" || Ascii.eqb e "E" then
        let '(neg, r') :=
          match r with
          | String "-" r' => (true, r')
          | String "+" r' => (false, r')
          | _ => (false, r)
          end in
        let '(ds, rest) := span_digits r' in
        if String.eqb ds "" then (None, s)
        else (Some (if neg then - digits_Z 0 ds else digits_Z 0 ds)%Z, rest)
      else (None, s)
  | EmptyString => (None, s)
  end.

(** [m * 10^e] *)
Definition scale (m e : Z) : Q :=
  if (0 <=? e)%Z then inject_Z (m * 10 ^ e)
  else Qmake m (Z.to_pos (10 ^ (- e))).

Definition number (s : string) : option (pyval * string) :=
  let '(neg, r) :=
    match s with
    | String "-" r => (true, r)
    | _ => (false, s)
    end in
  '(ds, r) ← int_part r;
  let '(frac, r) := frac_part r in
  let '(exp, r) := exp_part r in
  let sign := fun z : Z => if neg then Z.opp z else z in
  match frac, exp with
  | None, None => Some (PInt (sign (digits_Z 0 ds)), r)
  | _, _ =>
      let fs := default "" frac in
      let m := sign (digits_Z 0 (ds +:+ fs)) in
      let e := (default 0 exp - Z.of_nat (String.length fs))%Z in
      Some (PFloat (FFin (scale m e)), r)
  end.

(** [d[key] = v] while the object is built: a repeated key keeps its place
    and takes the later value. *)
Fixpoint dict_set (d : pydict) (key : string) (v : pyval) : pydict :=
  match d with
  | [] => [(key, v)]
  | (k, x) :: r => if String.eqb k key then (k, v) :: r else (k, x) :: dict_set r key v
  end.

Definition literal (s : string) : option (pyval * string) :=
  match Re.drop_prefix "null" s with
  | Some r => Some (PNone, r)
  | None =>
  match Re.drop_prefix "true" s with
  | Some r => Some (PBool true, r)
  | None =>
  match Re.drop_prefix "false" s with
  | Some r => Some (PBool false, r)
  | None =>
  match number s with
  | Some x => Some x
  | None =>
  match Re.drop_prefix "NaN" s with
  | Some r => Some (PFloat FNan, r)
  | None =>
  match Re.drop_prefix "Infinity" s with
  | Some r => Some (PFloat (FInf false), r)
  | None =>
  match Re.drop_prefix "-Infinity" s with
  | Some r => Some (PFloat (FInf true), r)
  | None => None
  end end end end end end end.

(** One value at the head of [s].  Every nested value starts at least one
    character further on, so [fuel] above the length of the text is never
    used up. *)
Fixpoint value (fuel : nat) (s : string) {struct fuel} : option (pyval * string) :=
  match fuel with
  | O => None
  | S f =>
      match s with
      | String c r =>
          if Ascii.eqb c "034" then
            '(t, rest) ← string_body r; Some (PStr t, rest)
          else if Ascii.eqb c "{" then
            match skip_ws r with
            | String "}" rest => Some (PDict [], rest)
            | r =>
                (fix members (n : nat) (s : string) (acc : pydict) {struct n}
                   : option (pyval * string) :=
                   match n with
                   | O => None
                   | S n' =>
                       match s with
                       | String q body =>
                           if Ascii.eqb q "034" then
                             '(key, rest) ← string_body body;
                             match skip_ws rest with
                             | String ":" rest =>
                                 '(v, rest) ← value f (skip_ws rest);
                                 let acc := dict_set acc key v in
                                 match skip_ws rest with
                                 | String "}" rest => Some (PDict acc, rest)
                                 | String "," rest => members n' (skip_ws rest) acc
                                 | _ => None
                                 end
                             | _ => None
                             end
                           else None
                       | EmptyString => None
                       end
                   end) f r []
            end
          else if Ascii.eqb c "[" then
            match skip_ws r with
            | String "]" rest => Some (PList [], rest)
            | r =>
                (fix elements (n : nat) (s : string) (acc : list pyval) {struct n}
                   : option (pyval * string) :=
                   match n with
                   | O => None
                   | S n' =>
                       '(v, rest) ← value f s;
                       let acc := (acc ++ [v])%list in
                       match skip_ws rest with
                       | String "]" rest => Some (PList acc, rest)
                       | String "," rest => elements n' (skip_ws rest) acc
                       | _ => None
                       end
                   end) f r []
            end
          else literal s
      | EmptyString => None
      end
  end.

Definition loads (s : string) : option pyval :=
  '(v, rest) ← value (S (String.length s)) (skip_ws s);
  match skip_ws rest with
  | EmptyString => Some v
  | _ => None
  end.

End Json.

(** ** [services/llm/base.py]: the provider interface *)

Record ToolCall := {
  tc_id : string;
  tc_name : string;
  tc_arguments : pyval
}.

Record LLMMessage := {
  role : string;
  content : pyval;
  name : pyval;
  tool_call_id : pyval;
  tool_calls : list ToolCall
}.

Record LLMResponse := {
  r_content : option string;
  r_tool_calls : list ToolCall;
  r_usage : option (list (string * Z));
  r_latency_ms : option Q
}.

(** [usage.get(key, 0)] *)
Definition usage_get (usage : list (string * Z)) (key : string) : Z :=
  match List.find (fun kv => String.eqb (fst kv) key) usage with
  | Some kv => snd kv
  | None => 0%Z
  end.

(** A provider's [generate], as one invocation of an agent loop sees it: the
    answer may depend on the messages sent and on how many calls came before
    (a model need not answer the same question the same way twice). *)
Definition provider : Type := nat -> list LLMMessage -> res LLMResponse.

(** [ConversationContext]: the history of one conversation, trimmed to
    [max_history] messages as user and assistant messages are added. *)
Module ConversationContext.

Record t := {
  session_id : string;
  system_prompt : option string;
  max_history : Z;
  _messages : list LLMMessage;
  _metadata : pydict
}.

Definition with_messages (self : t) (messages : list LLMMessage) : t :=
  {| session_id := session_id self; system_prompt := system_prompt self;
     max_history := max_history self; _messages := messages;
     _metadata := _metadata self |}.

(** [LLMMessage(role=role, content=content)] *)
Definition message (role content : string) : LLMMessage :=
  {| role := role; content := PStr content; name := PNone; tool_call_id := PNone;
     tool_calls := [] |}.

(** [if system_prompt:] holds of a prompt that is neither [None] nor empty. *)
Definition has_prompt (system_prompt : option string) : bool :=
  match system_prompt with
  | Some p => negb (String.eqb p "")
  | None => false
  end.

Definition init (session_id : string) (system_prompt : option string) (max_history : Z) : t :=
  {| session_id := session_id; system_prompt := system_prompt; max_history := max_history;
     _messages := if has_prompt system_prompt
                  then [message "system" (default "" system_prompt)] else [];
     _metadata := [] |}.

(** The slice [l[i:]]: from position [i], counted from the end when [i] is
    negative, and from the start of the list when that falls before it. *)
Definition slice_from {A : Type} (i : Z) (l : list A) : list A :=
  if (0 <=? i)%Z then drop (Z.to_nat i) l
  else drop (length l - Z.to_nat (- i)) l.

Definition _trim_history (self : t) : t :=
  if (Z.of_nat (length (_messages self)) <=? max_history self)%Z then self
  else
    let has_system :=
      match _messages self with
      | first :: _ => String.eqb (role first) "system"
      | [] => false
      end in
    if has_system
    then with_messages self
           (take 1 (_messages self)
            ++ slice_from (- (max_history self - 1)) (_messages self))
    else with_messages self (slice_from (- max_history self) (_messages self)).

Definition add_user_message (self : t) (content : string) : t :=
  _trim_history (with_messages self (_messages self ++ [message "user" content])).

Definition add_assistant_message (self : t) (content : string) : t :=
  _trim_history (with_messages self (_messages self ++ [message "assistant" content])).

Definition add_tool_result (self : t) (tool_call_id name result : string) : t :=
  with_messages self
    (_messages self
     ++ [{| role := "tool"; content := PStr result; name := PStr name;
            tool_call_id := PStr tool_call_id; tool_calls := [] |}]).

Definition get_messages (self : t) : list LLMMessage := _messages self.

Definition clear_history (self : t) (keep_system : bool) : t :=
  with_messages self
    (if keep_system && has_prompt (system_prompt self)
     then [message "system" (default "" (system_prompt self))] else []).

End ConversationContext.

(** [content or ""] *)
Definition content_or (c : option string) (fallback : string) : string :=
  match c with
  | Some s => if String.eqb s "" then fallback else s
  | None => fallback
  end.

(** ** [api/llm_proxy.py] *)

Module llm_proxy.

Definition MAX_TOOL_ITERATIONS : nat := 5.

Definition payload : Re.regex :=
  Re.Grp (Re.seq [Re.chr "{"; Re.Plus (Re.not_chr "}"); Re.chr "}"]).

(** [<function=(\w+)>(\{[^}]+\})</function>] *)
Definition pattern1 : Re.regex :=
  Re.seq [Re.Lit "<function="; Re.Grp (Re.Plus Re.word); Re.chr ">"; payload;
          Re.Lit "</function>"].

(** [<function=(\w+)=?(\{[^}]+\})>?] *)
Definition pattern2 : Re.regex :=
  Re.seq [Re.Lit "<function="; Re.Grp (Re.Plus Re.word); Re.Opt (Re.chr "="); payload;
          Re.Opt (Re.chr ">")].

(** [<function=(\w+)(\{[^}]+\})>?] *)
Definition pattern3 : Re.regex :=
  Re.seq [Re.Lit "<function="; Re.Grp (Re.Plus Re.word); payload; Re.Opt (Re.chr ">")].

(** [<function=\w+[=>]?\{[^}]+\}>?(?:</function>)?] *)
Definition call_syntax : Re.regex :=
  Re.seq [Re.Lit "<function="; Re.Plus Re.word;
          Re.Opt (Re.Cls (fun c => Ascii.eqb c "=" || Ascii.eqb c ">"));
          Re.chr "{"; Re.Plus (Re.not_chr "}"); Re.chr "}";
          Re.Opt (Re.chr ">"); Re.Opt (Re.Lit "</function>")].

(** The two groups of a match. *)
Definition groups (caps : list string) : string * string :=
  match caps with
  | [g1; g2] => (g1, g2)
  | _ => ("", "")
  end.

(** The body of the loop over [matches]: a payload that does not decode
    gives the call an empty argument map. *)
Definition call_of_match (call_id : string) (m : string * string) : ToolCall :=
  let func_name := fst m in
  let args :=
    match Json.loads (snd m) with
    | Some args => args
    | None => PDict []
    end in
  {| tc_id := "call_" +:+ call_id; tc_name := func_name; tc_arguments := args |}.

(** All matches, pattern by pattern. *)
Definition text_matches (content : string) : list (string * string) :=
  List.concat
    (List.map (fun pattern => List.map groups (Re.findall pattern content))
       [pattern1; pattern2; pattern3]).

(** The calls of a list of matches; the [i]-th call made takes its
    identifier from the [i]-th UUID drawn. *)
Fixpoint calls_from (uuid_hex : nat -> string) (i : nat) (ms : list (string * string))
    : list ToolCall :=
  match ms with
  | [] => []
  | m :: rest => call_of_match (uuid_hex i) m :: calls_from uuid_hex (S i) rest
  end.

Definition parse_text_tool_calls (uuid_hex : nat -> string) (content : string)
    : string * list ToolCall :=
  let tool_calls := calls_from uuid_hex 0 (text_matches content) in
  let clean_content := Py.strip (Re.sub call_syntax "" content) in
  (clean_content, tool_calls).

(** [<function[^>]*>.*?(?:</function>|$)] with [re.DOTALL] *)
Definition function_tag : Re.regex :=
  Re.seq [Re.Lit "<function"; Re.Star (Re.not_chr ">"); Re.chr ">"; Re.LazyStar Re.any;
          Re.Alt (Re.Lit "</function>") Re.Eos].

(** [\{Q[^Q]+Q:.*?\}], with Q standing for the double quote *)
Definition json_args : Re.regex :=
  Re.seq [Re.chr "{"; Re.chr "034"; Re.Plus (Re.not_chr "034"); Re.chr "034"; Re.chr ":";
          Re.LazyStar Re.dot; Re.chr "}"].

Definition clean_response_for_speech (content : string) : string :=
  let content := Re.sub function_tag "" content in
  let content := Re.sub json_args "" content in
  Py.strip (Re.sub (Re.Plus Re.space) " " content).

(** *** The tool-calling loop of [chat_completions] *)

Definition assistant_message (content : string) (calls : list ToolCall) : LLMMessage :=
  {| role := "assistant"; content := PStr content; name := PNone; tool_call_id := PNone;
     tool_calls := calls |}.

Definition tool_message (rt : runtime) (tc : ToolCall) (result : pyval) : LLMMessage :=
  {| role := "tool"; content := PStr (json_dumps rt result); name := PStr (tc_name tc);
     tool_call_id := PStr (tc_id tc); tool_calls := [] |}.

(** The loop over [tool_calls_to_execute]. *)
Fixpoint run_calls (rt : runtime) (c : clock) (calls : list ToolCall)
    (self : ToolExecutor.t) (w : world) (llm_messages : list LLMMessage)
    : res (list LLMMessage) * ToolExecutor.t * world :=
  match calls with
  | [] => (Ok llm_messages, self, w)
  | tool_call :: rest =>
      match ToolExecutor.execute rt c self w (tc_name tool_call) (tc_arguments tool_call) with
      | (Raise e, self, w) => (Raise e, self, w)
      | (Ok result, self, w) =>
          run_calls rt c rest self w (llm_messages ++ [tool_message rt tool_call result])%list
      end
  end.

(** The tool calls one response asks for, and its text: those of the
    response proper, or those found in its text. *)
Definition calls_and_content (uuid_hex : nat -> string) (has_executor : bool)
    (llm_response : LLMResponse) : list ToolCall * string :=
  let tool_calls_to_execute := r_tool_calls llm_response in
  let response_content := content_or (r_content llm_response) "" in
  match tool_calls_to_execute with
  | [] =>
      if has_executor && Py.contains "<function=" response_content then
        let '(clean_content, parsed_calls) :=
          parse_text_tool_calls uuid_hex response_content in
        match parsed_calls with
        | [] => (tool_calls_to_execute, response_content)
        | _ => (parsed_calls, clean_content)
        end
      else (tool_calls_to_execute, response_content)
  | _ => (tool_calls_to_execute, response_content)
  end.

Definition trouble : string :=
  "I'm sorry, I had trouble processing that. Could you please try again?".

(** The [while] loop of [chat_completions], from a given value of
    [iteration]: the final response (the text the avatar speaks), the value
    of [iteration] on leaving, and the executor and stores. *)
Fixpoint completion_loop (fuel : nat) (rt : runtime) (clk : nat -> clock)
    (uuid_hex : nat -> nat -> string) (llm : provider)
    (tool_executor : option ToolExecutor.t) (w : world)
    (llm_messages : list LLMMessage) (iteration : nat)
    : option (string * nat * option ToolExecutor.t * world) :=
  if (iteration <? MAX_TOOL_ITERATIONS)%nat then
    match fuel with
    | O => None
    | S fuel =>
        let iteration := S iteration in
        match llm iteration llm_messages with
        | Raise _ => Some (trouble, iteration, tool_executor, w)
        | Ok llm_response =>
            let '(tool_calls_to_execute, response_content) :=
              calls_and_content (uuid_hex iteration)
                (match tool_executor with Some _ => true | None => false end)
                llm_response in
            match tool_calls_to_execute, tool_executor with
            | _ :: _, Some self =>
                let llm_messages :=
                  (llm_messages
                   ++ [assistant_message response_content tool_calls_to_execute])%list in
                match run_calls rt (clk iteration) tool_calls_to_execute self w
                        llm_messages with
                | (Raise _, self, w) => Some (trouble, iteration, Some self, w)
                | (Ok llm_messages, self, w) =>
                    completion_loop fuel rt clk uuid_hex llm (Some self) w llm_messages
                      iteration
                end
            | _, _ =>
                let final_response :=
                  content_or (Some response_content)
                    "I'm sorry, I couldn't generate a response." in
                Some (clean_response_for_speech final_response, iteration,
                      tool_executor, w)
            end
        end
    end
  else Some ("", iteration, tool_executor, w).

End llm_proxy.

(** ** [services/cost_tracker.py]: [CostTracker] *)

Module CostTracker.

Definition COST_KEY_PREFIX : string := "voice:costs".

Definition _key (session_id : string) : string := COST_KEY_PREFIX +:+ ":" +:+ session_id.

(** [_get_data]; [utcnow] is the text of the clock's reading, which a
    record created now starts with. *)
Definition _get_data (r : redis) (session_id utcnow : string) : cost_data :=
  match costs r !! _key session_id with
  | Some data => data
  | None =>
      {| stt_audio_seconds := 0; llm_input_tokens := 0; llm_output_tokens := 0;
         tts_characters := 0; tavus_seconds := 0;
         requests_stt := 0; requests_llm := 0; requests_tts := 0;
         started_at := utcnow |}
  end.

Definition _save_data (r : redis) (session_id : string) (data : cost_data) : redis :=
  Redis.set_cost r (_key session_id) data.

Definition track_stt (r : redis) (session_id utcnow : string) (audio_seconds : Q) : redis :=
  let data := _get_data r session_id utcnow in
  _save_data r session_id
    {| stt_audio_seconds := stt_audio_seconds data + audio_seconds;
       llm_input_tokens := llm_input_tokens data;
       llm_output_tokens := llm_output_tokens data;
       tts_characters := tts_characters data;
       tavus_seconds := tavus_seconds data;
       requests_stt := requests_stt data + 1;
       requests_llm := requests_llm data;
       requests_tts := requests_tts data;
       started_at := started_at data |}.

Definition track_llm (r : redis) (session_id utcnow : string) (input_tokens output_tokens : Z)
    : redis :=
  let data := _get_data r session_id utcnow in
  _save_data r session_id
    {| stt_audio_seconds := stt_audio_seconds data;
       llm_input_tokens := llm_input_tokens data + input_tokens;
       llm_output_tokens := llm_output_tokens data + output_tokens;
       tts_characters := tts_characters data;
       tavus_seconds := tavus_seconds data;
       requests_stt := requests_stt data;
       requests_llm := requests_llm data + 1;
       requests_tts := requests_tts data;
       started_at := started_at data |}.

Definition track_tts (r : redis) (session_id utcnow : string) (characters : Z) : redis :=
  let data := _get_data r session_id utcnow in
  _save_data r session_id
    {| stt_audio_seconds := stt_audio_seconds data;
       llm_input_tokens := llm_input_tokens data;
       llm_output_tokens := llm_output_tokens data;
       tts_characters := tts_characters data + characters;
       tavus_seconds := tavus_seconds data;
       requests_stt := requests_stt data;
       requests_llm := requests_llm data;
       requests_tts := requests_tts data + 1;
       started_at := started_at data |}.

(** [track_tavus] sets the total, it does not accumulate. *)
Definition track_tavus (r : redis) (session_id utcnow : string) (seconds : Q) : redis :=
  let data := _get_data r session_id utcnow in
  _save_data r session_id
    {| stt_audio_seconds := stt_audio_seconds data;
       llm_input_tokens := llm_input_tokens data;
       llm_output_tokens := llm_output_tokens data;
       tts_characters := tts_characters data;
       tavus_seconds := seconds;
       requests_stt := requests_stt data;
       requests_llm := requests_llm data;
       requests_tts := requests_tts data;
       started_at := started_at data |}.

Definition clear (r : redis) (session_id : string) : redis :=
  Redis.delete r (_key session_id).

End CostTracker.

(** ** The collaborators of [api/voice.py] *)

Record TTSResponse := {
  audio_base64 : string;
  sample_rate : Z;
  duration_ms : Z;
  visemes : pyval
}.

(** The streaming transcription client, as the websocket handler uses
    it. *)
Class Deepgram (D : Type) := {
  dg_new : string -> D;
  dg_connect : D -> D * bool;
  dg_is_connected : D -> bool;
  dg_send_audio : D -> string -> res D;
  dg_finish_stream : D -> res D;
  dg_get_full_transcript : D -> string;
  dg_close : D -> res D
}.

(** What the handler calls and the repository does not define: the
    providers behind [get_llm_provider] ([None] for a real provider that
    fails to initialise), speech synthesis, [base64.b64decode],
    [decode_token] of the absent [core/security.py], the documents and texts
    that float arithmetic and formatting produce, and the two prompts. *)
Record services := {
  sv_rt : runtime;
  real_llm : option provider;
  mock_llm : provider;
  summary_real_llm : list LLMMessage -> res LLMResponse;
  summary_mock_llm : list LLMMessage -> res LLMResponse;
  synthesize_speech : string -> res TTSResponse;
  b64decode : pyval -> res string;
  decode_token : pyval -> res pydict;
  get_breakdown : cost_data -> pydict;
  round1 : Q -> pyval;
  fmt_1f : Q -> string;
  VOICE_AGENT_SYSTEM_PROMPT : string;
  CALL_SUMMARY_SYSTEM_PROMPT : string
}.

(** What one message reads from the clocks: [datetime.now()] for the tool
    calls of each iteration of the agent loop, [time.time()] and the text of
    [datetime.utcnow()]. *)
Record tick := {
  t_clock : nat -> clock;
  t_time : Q;
  t_utcnow : string
}.

(** What the server has sent on the websocket. *)
Inductive frame :=
| Text (doc : pyval)
| CloseFrame (code : Z).

Definition WS_1000_NORMAL_CLOSURE : Z := 1000.
Definition WS_1008_POLICY_VIOLATION : Z := 1008.
Definition WS_1011_INTERNAL_ERROR : Z := 1011.

(** ** [api/voice.py] *)

Module voice.

Definition MAX_TOOL_ITERATIONS : nat := 10.

Definition apology : string :=
  "I apologize, but I'm having trouble processing your request. Could you please try again?".

Definition item_str := ToolExecutor.item_str.

Definition m_get (msg : pyval) (key : string) (default : pyval) : pyval :=
  match msg with
  | PDict d => dict_get d key default
  | _ => default
  end.

Definition _format_conversation_for_summary (messages : list pyval) : string :=
  let lines :=
    List.map
      (fun msg =>
         (if session_manager.is_role "user" msg then "User" else "Assistant")
         +:+ ": " +:+ match m_get msg "content" (PStr "") with PStr s => s | _ => "" end)
      (List.filter (fun msg => negb (session_manager.is_role "system" msg)) messages) in
  match lines with
  | [] => "No conversation recorded."
  | _ => Py.join (String "010" EmptyString) lines
  end.

Definition stored_call (tc : pyval) : ToolCall :=
  match tc with
  | PDict d =>
      {| tc_id := item_str d "id"; tc_name := item_str d "name";
         tc_arguments := dict_get d "arguments" (PDict []) |}
  | _ => {| tc_id := ""; tc_name := ""; tc_arguments := PDict [] |}
  end.

Definition message_roles : list string := ["system"; "user"; "assistant"; "tool"].

Definition _redis_message_to_llm_message (msg : pyval) : LLMMessage :=
  let role_str := match m_get msg "role" (PStr "user") with PStr s => s | _ => "" end in
  let content := m_get msg "content" (PStr "") in
  if String.eqb role_str "tool" then
    {| role := "tool"; content := content; name := m_get msg "name" PNone;
       tool_call_id := m_get msg "tool_call_id" PNone; tool_calls := [] |}
  else if String.eqb role_str "assistant" && truthy (m_get msg "tool_calls" PNone) then
    {| role := "assistant"; content := content; name := PNone; tool_call_id := PNone;
       tool_calls :=
         match m_get msg "tool_calls" (PList []) with
         | PList l => List.map stored_call l
         | _ => []
         end |}
  else
    {| role := if ToolExecutor.str_in role_str message_roles then role_str else "user";
       content := content; name := PNone; tool_call_id := PNone; tool_calls := [] |}.

Definition _redis_messages_to_llm_messages (messages : list pyval) : list LLMMessage :=
  List.map _redis_message_to_llm_message messages.

(** What a turn changes: the stores, the executor, and the frames sent. *)
Record state := {
  w : world;
  tool_executor : ToolExecutor.t;
  sent : list frame
}.

Definition send_text (st : state) (doc : pyval) : state :=
  {| w := w st; tool_executor := tool_executor st; sent := (sent st ++ [Text doc])%list |}.

Definition close (st : state) (code : Z) : state :=
  {| w := w st; tool_executor := tool_executor st;
     sent := (sent st ++ [CloseFrame code])%list |}.

Definition with_kv_of (st : state) (f : redis -> redis) : state :=
  {| w := with_kv (w st) (f (kv (w st))); tool_executor := tool_executor st; sent := sent st |}.

Definition call_data (tc : ToolCall) : pyval :=
  PDict [("id", PStr (tc_id tc)); ("name", PStr (tc_name tc)); ("arguments", tc_arguments tc)].

(** The rate-limit test on [str(e)] in the agent loop. *)
Definition rate_limited (e : exn) : bool :=
  let error_str := exn_str e in
  Py.contains "429" error_str
  || Py.contains "quota" (Py.lower error_str)
  || Py.contains "ResourceExhausted" error_str.

(** The body of the loop over the tool calls of one response. *)
Fixpoint run_tool_calls (sv : services) (c : clock) (session_id : string)
    (calls : list ToolCall) (end_conversation : bool) (st : state)
    : res bool * state :=
  match calls with
  | [] => (Ok end_conversation, st)
  | tool_call :: rest =>
      let st := send_text st
        (PDict [("type", PStr "tool_call"); ("tool", PStr (tc_name tool_call));
                ("tool_call_id", PStr (tc_id tool_call));
                ("arguments", tc_arguments tool_call);
                ("status", PStr "in_progress");
                ("message", PStr ("Executing " +:+ tc_name tool_call +:+ "..."))]) in
      match ToolExecutor.execute (sv_rt sv) c (tool_executor st) (w st)
              (tc_name tool_call) (tc_arguments tool_call) with
      | (Raise e, ex, w') => (Raise e, {| w := w'; tool_executor := ex; sent := sent st |})
      | (Ok tool_result, ex, w') =>
          let st := {| w := w'; tool_executor := ex; sent := sent st |} in
          let end_conversation :=
            if String.eqb (tc_name tool_call) "end_conversation" then true
            else end_conversation in
          let st := send_text st
            (PDict [("type", PStr "tool_result"); ("tool", PStr (tc_name tool_call));
                    ("tool_call_id", PStr (tc_id tool_call));
                    ("status", m_get tool_result "status" (PStr "success"));
                    ("result", tool_result)]) in
          let st := with_kv_of st (fun r =>
            session_manager.add_message r session_id "tool"
              (json_dumps (sv_rt sv) tool_result) PNone
              (PStr (tc_id tool_call)) (PStr (tc_name tool_call))) in
          run_tool_calls sv c session_id rest end_conversation st
      end
  end.

(** [llm.generate] of one iteration, with the fall back to the mock
    provider on a rate limit: the response, the provider the loop goes on
    with, and whether the usage is to be tracked. *)
Definition generate (sv : services) (llm : provider) (iteration : nat)
    (llm_messages : list LLMMessage) : res (LLMResponse * provider * bool) :=
  match llm iteration llm_messages with
  | Ok llm_response => Ok (llm_response, llm, true)
  | Raise e =>
      if rate_limited e then
        llm_response ← mock_llm sv iteration llm_messages;
        Ok (llm_response, mock_llm sv, false)
      else Raise e
  end.

Definition track_usage (cost_tracker : option string) (utcnow : string)
    (llm_response : LLMResponse) (r : redis) : redis :=
  match cost_tracker, r_usage llm_response with
  | Some sid, Some usage =>
      match usage with
      | [] => r
      | _ => CostTracker.track_llm r sid utcnow
               (usage_get usage "input_tokens") (usage_get usage "output_tokens")
      end
  | _, _ => r
  end.

(** The [while] loop of [_process_llm_with_tools], from a given value of
    [iteration]: the value returned or the exception raised, the value of
    [iteration] on leaving, and the state.  [fuel] bounds the unfolding;
    [None] would be a loop that is still running when it is spent. *)
Fixpoint tool_loop (fuel : nat) (sv : services) (tk : tick) (session_id : string)
    (cost_tracker : option string) (llm : provider) (iteration : nat)
    (end_conversation : bool) (st : state)
    : option (res (string * bool) * nat * state) :=
  if (iteration <? MAX_TOOL_ITERATIONS)%nat then
    match fuel with
    | O => None
    | S fuel =>
        let iteration := S iteration in
        let redis_messages := session_manager.get_conversation (kv (w st)) session_id in
        let llm_messages := _redis_messages_to_llm_messages redis_messages in
        match generate sv llm iteration llm_messages with
        | Raise e => Some (Raise e, iteration, st)
        | Ok (llm_response, llm, tracked) =>
            let st :=
              if tracked
              then with_kv_of st (track_usage cost_tracker (t_utcnow tk) llm_response)
              else st in
            match r_tool_calls llm_response with
            | _ :: _ =>
                let tool_calls_data := PList (List.map call_data (r_tool_calls llm_response)) in
                let st := with_kv_of st (fun r =>
                  session_manager.add_message r session_id "assistant"
                    (content_or (r_content llm_response) "") tool_calls_data PNone PNone) in
                match run_tool_calls sv (t_clock tk iteration) session_id
                        (r_tool_calls llm_response) end_conversation st with
                | (Raise e, st) => Some (Raise e, iteration, st)
                | (Ok end_conversation, st) =>
                    tool_loop fuel sv tk session_id cost_tracker llm iteration
                      end_conversation st
                end
            | [] =>
                let final_response :=
                  content_or (r_content llm_response)
                    "I'm sorry, I couldn't generate a response." in
                let st := with_kv_of st (fun r =>
                  session_manager.add_message r session_id "assistant" final_response
                    PNone PNone PNone) in
                Some (Ok (final_response, end_conversation), iteration, st)
            end
        end
    end
  else Some (Ok (apology, false), iteration, st).

(** [_process_llm_with_tools] *)
Definition _process_llm_with_tools (sv : services) (tk : tick) (session_id : string)
    (cost_tracker : option string) (st : state)
    : option (res (string * bool) * nat * state) :=
  let llm :=
    match real_llm sv with
    | Some llm => llm
    | None => mock_llm sv
    end in
  tool_loop MAX_TOOL_ITERATIONS sv tk session_id cost_tracker llm 0 false st.

(** *** [initiate_call] *)

Definition greeting (user_name : option string) : string :=
  "Hello " +:+ default "None" user_name
  +:+ "! I'm your AI appointment assistant. I can help you book, check, modify, "
  +:+ "or cancel appointments. How can I assist you today?".

(** [POST /api/voice/initiate] for the logged-in user; [sid], [created] and
    [start] are the identifier [create_session] draws and its two readings
    of the clock. *)
Definition initiate_call (sv : services) (r : redis) (current_user : User.t)
    (sid created : string) (start : Q) : res pyval * redis :=
  let '(sess, r) := session_manager.create_session r sid created start in
  let session_id := item_str sess "session_id" in
  let r := session_manager.set_user r session_id (PStr (User.contact_number current_user)) in
  let r := session_manager.set_status r session_id (PStr "greet_ready") in
  let greeting_text := greeting (User.name current_user) in
  match synthesize_speech sv greeting_text with
  | Raise e => (Raise e, r)
  | Ok tts_response =>
      (Ok (PDict [("session_id", PStr session_id);
                  ("greeting_text", PStr greeting_text);
                  ("greeting_audio_data", PStr (audio_base64 tts_response));
                  ("greeting_audio_format", PStr "pcm_16000");
                  ("greeting_sample_rate", PInt (sample_rate tts_response));
                  ("greeting_duration_ms", PInt (duration_ms tts_response));
                  ("greeting_visemes", visemes tts_response)]), r)
  end.

(** *** The websocket handler [voice_ws] *)

Section Handler.
Context {D : Type} `{Deepgram D}.

(** The local variables of the handler once the connection is
    authenticated. *)
Record conn := {
  session_id : string;
  user : User.t;
  cost_tracker : option string;
  deepgram_client : D;
  audio_start_time : option Q
}.

Definition with_deepgram (c : conn) (d : D) : conn :=
  {| session_id := session_id c; user := user c; cost_tracker := cost_tracker c;
     deepgram_client := d; audio_start_time := audio_start_time c |}.

Definition with_audio_start (c : conn) (t : option Q) : conn :=
  {| session_id := session_id c; user := user c; cost_tracker := cost_tracker c;
     deepgram_client := deepgram_client c; audio_start_time := t |}.

(** How the body of the message loop ends: with the next turn of the
    loop, with [break], or with an exception that leaves the loop. *)
Inductive step :=
| Continue (c : conn) (st : state)
| Break (c : conn) (st : state)
| Failed (e : exn) (c : conn) (st : state).

Definition nl : string := String "010" EmptyString.

Definition user_context (u : User.t) : string :=
  nl +:+ nl +:+ "## User Context" +:+ nl
  +:+ "- The user's name is " +:+ default "None" (User.name u) +:+ nl
  +:+ "- User ID: " +:+ Py.str_of_Z (User.id u) +:+ nl
  +:+ "- The user is already authenticated - do NOT ask for phone number or identification"
  +:+ nl
  +:+ "- You can directly help with their appointment requests" +:+ nl.

Definition audio_response (text : string) (tts : TTSResponse) (user_transcript : string)
    (should_end_call : bool) : pyval :=
  PDict [("type", PStr "audio_response"); ("text", PStr text);
         ("audio_data", PStr (audio_base64 tts)); ("audio_format", PStr "pcm_16000");
         ("sample_rate", PInt (sample_rate tts)); ("duration_ms", PInt (duration_ms tts));
         ("visemes", visemes tts); ("user_transcript", PStr user_transcript);
         ("should_end_call", PBool should_end_call)].

Definition track_tts (c : conn) (tk : tick) (text : string) (st : state) : state :=
  match cost_tracker c with
  | Some sid =>
      with_kv_of st (fun r =>
        CostTracker.track_tts r sid (t_utcnow tk) (Z.of_nat (String.length text)))
  | None => st
  end.

(** The agent loop as the handler calls it; a loop that did not return
    would be [None], which [tool_loop_returns] below excludes. *)
Definition run_agent (sv : services) (tk : tick) (c : conn) (st : state)
    : res (string * bool) * state :=
  match _process_llm_with_tools sv tk (session_id c) (cost_tracker c) st with
  | Some (r, _, st) => (r, st)
  | None => (Raise (RuntimeError "the agent loop did not return"), st)
  end.

Definition on_audio_chunk (sv : services) (tk : tick) (c : conn) (st : state) (msg : pydict)
    : step :=
  let b64 := dict_get msg "data" (PStr "") in
  match b64decode sv b64 with
  | Raise _ => Continue c st
  | Ok raw_bytes =>
      let c :=
        match audio_start_time c with
        | None => with_audio_start c (Some (t_time tk))
        | Some _ => c
        end in
      if dg_is_connected (deepgram_client c) then
        match dg_send_audio (deepgram_client c) raw_bytes with
        | Ok d => Continue (with_deepgram c d) st
        | Raise _ => Continue c st
        end
      else Continue c st
  end.

Definition on_end_of_speech (sv : services) (tk : tick) (c : conn) (st : state)
    (msg : pydict) : step :=
  let st :=
    match audio_start_time c, cost_tracker c with
    | Some t0, Some sid =>
        if Qeq_bool t0 0 then st
        else with_kv_of st (fun r =>
               CostTracker.track_stt r sid (t_utcnow tk) (t_time tk - t0)%Q)
    | _, _ => st
    end in
  let c := with_audio_start c None in
  match (if dg_is_connected (deepgram_client c)
         then d ← dg_finish_stream (deepgram_client c); Ok (d, dg_get_full_transcript d)
         else Ok (deepgram_client c, "")) with
  | Raise e => Failed e c st
  | Ok (d, final_transcript) =>
      let c := with_deepgram c d in
      let '(llm_response_text, should_end_call, st) :=
        if negb (String.eqb (Py.strip final_transcript) "") then
          let st := with_kv_of st (fun r =>
            session_manager.add_message r (session_id c) "user" final_transcript
              PNone PNone PNone) in
          match run_agent sv tk c st with
          | (Ok (text, ending), st) => (text, ending, st)
          | (Raise _, st) =>
              ("I'm sorry, I had trouble processing that. Could you please repeat?", false, st)
          end
        else ("", false, st) in
      let response_text := content_or (Some llm_response_text) "I'm listening. Please continue." in
      match synthesize_speech sv response_text with
      | Raise e => Failed e c st
      | Ok tts_response =>
          let st := track_tts c tk response_text st in
          let st := send_text st
            (audio_response response_text tts_response final_transcript should_end_call) in
          match dg_close (deepgram_client c) with
          | Raise e => Failed e c st
          | Ok _ =>
              let '(d, _) := dg_connect (dg_new (session_id c)) in
              Continue (with_deepgram c d) st
          end
      end
  end.

Definition summary_request (sv : services) (call_duration : Q) (user_turns : nat)
    (redis_messages : list pyval) : list LLMMessage :=
  [{| role := "system"; content := PStr (CALL_SUMMARY_SYSTEM_PROMPT sv); name := PNone;
      tool_call_id := PNone; tool_calls := [] |};
   {| role := "user";
      content := PStr ("Please summarize this conversation:" +:+ nl
                       +:+ "                            " +:+ nl
                       +:+ "Call Duration: " +:+ fmt_1f sv call_duration +:+ " seconds" +:+ nl
                       +:+ "User Turns: " +:+ Py.str_of_Z (Z.of_nat user_turns) +:+ nl +:+ nl
                       +:+ "Conversation:" +:+ nl
                       +:+ _format_conversation_for_summary redis_messages +:+ nl);
      name := PNone; tool_call_id := PNone; tool_calls := [] |}].

(** The rate-limit test of the summary request. *)
Definition summary_rate_limited (e : exn) : bool :=
  let error_str := exn_str e in
  Py.contains "429" error_str || Py.contains "quota" (Py.lower error_str).

Definition call_summary (summary : pyval) (duration : pyval) (user_turns : nat)
    (appointments_booked : list pydict) : pyval :=
  PDict [("type", PStr "call_summary"); ("summary", summary);
         ("duration_seconds", duration); ("total_turns", PInt (Z.of_nat user_turns));
         ("appointments_booked", PList (List.map PDict appointments_booked))].

Definition breakdown_of (sv : services) (tk : tick) (sid : string) (st : state) : pydict :=
  get_breakdown sv (CostTracker._get_data (kv (w st)) sid (t_utcnow tk)).

(** The [try] block of the [end_call] branch: the exception it ends with,
    if any, and the state it leaves. *)
Definition summarize (sv : services) (tk : tick) (c : conn) (st : state)
    : option exn * state :=
  let call_duration :=
    (t_time tk - session_manager.get_start_time (kv (w st)) (session_id c) (t_time tk))%Q in
  let user_turns := session_manager.get_user_turn_count (kv (w st)) (session_id c) in
  let redis_messages := session_manager.get_conversation (kv (w st)) (session_id c) in
  let summary_messages := summary_request sv call_duration user_turns redis_messages in
  let generated :=
    match (match real_llm sv with
           | Some _ => summary_real_llm sv summary_messages
           | None => summary_mock_llm sv summary_messages
           end) with
    | Ok response => Ok (response, true)
    | Raise e =>
        if summary_rate_limited e
        then response ← summary_mock_llm sv summary_messages; Ok (response, false)
        else Raise e
    end in
  match generated with
  | Raise e => (Some e, st)
  | Ok (summary_response, tracked) =>
      let st :=
        if tracked
        then with_kv_of st (track_usage (cost_tracker c) (t_utcnow tk) summary_response)
        else st in
      match r_latency_ms summary_response with
      | None =>
          (Some (TypeError "unsupported format string passed to NoneType.__format__"), st)
      | Some _ =>
          match ToolExecutor.get_session_appointments (sv_rt sv) (tool_executor st) (w st) with
          | Raise e => (Some e, st)
          | Ok appointments_booked =>
              let cost_breakdown :=
                match cost_tracker c with
                | Some sid => Some (breakdown_of sv tk sid st)
                | None => None
                end in
              let st :=
                match r_content summary_response with
                | None => st
                | Some summary =>
                    {| w := with_db (w st)
                         (add_summary (db (w st))
                            {| ConversationSummary.user_id := User.id (user c);
                               ConversationSummary.session_id := session_id c;
                               ConversationSummary.summary := summary;
                               ConversationSummary.appointments_discussed :=
                                 match appointments_booked with
                                 | [] => None
                                 | _ => Some (json_dumps (sv_rt sv)
                                                (PList (List.map PDict appointments_booked)))
                                 end;
                               ConversationSummary.duration_seconds := call_duration;
                               ConversationSummary.total_cost :=
                                 match cost_breakdown with
                                 | Some b => dict_get b "total_usd" PNone
                                 | None => PNone
                                 end |});
                       tool_executor := tool_executor st; sent := sent st |}
                end in
              let st := send_text st
                (call_summary (ToolExecutor.opt_str (r_content summary_response))
                   (round1 sv call_duration) user_turns appointments_booked) in
              let st :=
                match cost_breakdown with
                | Some (_ :: _ as b) =>
                    send_text st (PDict [("type", PStr "cost_breakdown"); ("costs", PDict b)])
                | _ => st
                end in
              (None, st)
          end
      end
  end.

Definition on_end_call (sv : services) (tk : tick) (c : conn) (st : state) : step :=
  let st :=
    match summarize sv tk c st with
    | (None, st) => st
    | (Some _, st) =>
        let call_duration :=
          (t_time tk - session_manager.get_start_time (kv (w st)) (session_id c) (t_time tk))%Q in
        let user_turns := session_manager.get_user_turn_count (kv (w st)) (session_id c) in
        let st := send_text st
          (call_summary (PStr "Call ended. Summary generation failed due to service limits.")
             (round1 sv call_duration) user_turns []) in
        match cost_tracker c with
        | Some sid =>
            send_text st (PDict [("type", PStr "cost_breakdown");
                                 ("costs", PDict (breakdown_of sv tk sid st))])
        | None => st
        end
    end in
  let st := with_kv_of st (fun r =>
    session_manager.set_status r (session_id c) (PStr "ended")) in
  Break c (close st WS_1000_NORMAL_CLOSURE).

Definition on_text_input (sv : services) (tk : tick) (c : conn) (st : state) (msg : pydict)
    : step :=
  match str_method "strip" (dict_get msg "text" (PStr "")) with
  | Raise e => Failed e c st
  | Ok text =>
      let text := Py.strip text in
      if String.eqb text "" then Continue c st
      else
        let st := with_kv_of st (fun r =>
          session_manager.add_message r (session_id c) "user" text PNone PNone PNone) in
        let failed := fun st : state =>
          send_text st
            (PDict [("type", PStr "audio_response");
                    ("text", PStr "I'm sorry, I had trouble processing that.");
                    ("audio_data", PStr ""); ("audio_format", PStr "pcm_16000");
                    ("sample_rate", PInt 16000); ("duration_ms", PInt 0);
                    ("visemes", PList []); ("user_transcript", PStr text);
                    ("should_end_call", PBool false)]) in
        match run_agent sv tk c st with
        | (Raise _, st) => Continue c (failed st)
        | (Ok (llm_response_text, should_end_call), st) =>
            match synthesize_speech sv llm_response_text with
            | Raise _ => Continue c (failed st)
            | Ok tts_response =>
                let st := track_tts c tk llm_response_text st in
                Continue c
                  (send_text st
                     (audio_response llm_response_text tts_response text should_end_call))
            end
        end
  end.

(** The body of [while True:] for one text received from the client. *)
Definition on_message (sv : services) (tk : tick) (c : conn) (st : state) (raw : string)
    : step :=
  match Json.loads raw with
  | None => Failed (JSONDecodeError "Expecting value") c st
  | Some (PDict msg) =>
      let mtype := dict_get msg "type" PNone in
      let msg_sid := dict_get msg "session_id" PNone in
      if negb (match msg_sid with
               | PStr sid => String.eqb sid (session_id c)
               | _ => false
               end)
      then Continue c st
      else
        match mtype with
        | PStr "audio_chunk" => on_audio_chunk sv tk c st msg
        | PStr "end_of_speech" => on_end_of_speech sv tk c st msg
        | PStr "end_call" => on_end_call sv tk c st
        | PStr "text_input" => on_text_input sv tk c st msg
        | _ => Continue c st
        end
  | Some v =>
      Failed (AttributeError ("'" +:+ type_name v +:+ "' object has no attribute 'get'")) c st
  end.

(** How the prologue of [voice_ws] ends: with an authenticated connection
    entering the message loop, or with the connection closed. *)
Inductive accepted :=
| Accepted (c : conn) (st : state)
| Refused (w' : world) (sent' : list frame).

(** What the [finally] block does to the stores once [session_id] is
    set. *)
Definition release (r : redis) (sid : string) : redis :=
  let r := session_manager.set_ws_active r sid false in
  let r := session_manager.set_status r sid (PStr "closed") in
  session_manager.remove r sid.

(** The prologue, from [accept()] to the [ready] message, with what the
    [finally] block does when the handler returns or fails before the
    message loop: once [session_id] is assigned and truthy, the session it
    names is released.  A session identifier that is not a string names no
    session ([create_session] only makes keys of the form [sess_...]), and a
    token subject that is not a string names no user. *)
Definition accept (sv : services) (w0 : world) (auth_raw : string) : accepted :=
  match Json.loads auth_raw with
  | Some (PDict auth_msg) =>
      match dict_get auth_msg "type" PNone with
      | PStr "auth" =>
          let token := dict_get auth_msg "token" PNone in
          let session_id := dict_get auth_msg "session_id" PNone in
          let released :=
            match session_id with
            | PStr sid => with_kv w0 (release (kv w0) sid)
            | _ => w0
            end in
          if negb (truthy token) || negb (truthy session_id)
          then Refused (if truthy session_id then released else w0)
                 [CloseFrame WS_1008_POLICY_VIOLATION]
          else
            match decode_token sv token with
            | Raise _ => Refused released [CloseFrame WS_1011_INTERNAL_ERROR]
            | Ok payload =>
                match session_id with
                | PStr sid =>
                    match session_manager.get (kv w0) sid with
                    | None => Refused released [CloseFrame WS_1008_POLICY_VIOLATION]
                    | Some _ =>
                        let contact_number := dict_get payload "sub" (PStr "unknown") in
                        let r := session_manager.set_user (kv w0) sid contact_number in
                        let r := session_manager.set_ws_active r sid true in
                        let r := session_manager.set_status r sid (PStr "connected") in
                        match contact_number with
                        | PStr contact =>
                            match find_user_by_contact (db w0) contact with
                            | None =>
                                Refused (with_kv w0 (release r sid))
                                  [CloseFrame WS_1008_POLICY_VIOLATION]
                            | Some u =>
                                let full_system_prompt :=
                                  VOICE_AGENT_SYSTEM_PROMPT sv +:+ user_context u in
                                let r := session_manager.init_conversation r sid
                                           full_system_prompt in
                                let '(ex, r) :=
                                  ToolExecutor.init r sid (Some (User.id u)) (User.name u) in
                                let '(d, connected) := dg_connect (dg_new sid) in
                                Accepted
                                  {| session_id := sid; user := u; cost_tracker := Some sid;
                                     deepgram_client := d; audio_start_time := None |}
                                  {| w := with_kv w0 r; tool_executor := ex;
                                     sent := [Text (PDict [("type", PStr "ready");
                                                           ("session_id", PStr sid);
                                                           ("sample_rate", PInt 16000);
                                                           ("deepgram_connected",
                                                            PBool connected)])] |}
                            end
                        | _ =>
                            Refused (with_kv w0 (release r sid))
                              [CloseFrame WS_1008_POLICY_VIOLATION]
                        end
                    end
                | _ => Refused w0 [CloseFrame WS_1008_POLICY_VIOLATION]
                end
            end
      | _ => Refused w0 [CloseFrame WS_1008_POLICY_VIOLATION]
      end
  | _ => Refused w0 [CloseFrame WS_1011_INTERNAL_ERROR]
  end.

(** The [finally] block: the session and its conversation are removed. *)
Definition cleanup (c : conn) (st : state) : state :=
  with_kv_of st (fun r => release r (session_id c)).

(** The message loop over the texts the client sends, one clock reading per
    text; when the texts run out the client has disconnected. *)
Fixpoint serve (sv : services) (c : conn) (st : state) (incoming : list (tick * string))
    : state :=
  match incoming with
  | [] => cleanup c st
  | (tk, raw) :: rest =>
      match on_message sv tk c st raw with
      | Continue c st => serve sv c st rest
      | Break c st => cleanup c st
      | Failed _ c st => cleanup c (close st WS_1011_INTERNAL_ERROR)
      end
  end.

(** [voice_ws]: the prologue, the message loop and the [finally] block;
    the stores and the frames sent when the handler ends. *)
Definition voice_ws (sv : services) (w0 : world) (auth_raw : string)
    (incoming : list (tick * string)) : world * list frame :=
  match accept sv w0 auth_raw with
  | Accepted c st =>
      let st := serve sv c st incoming in
      (w st, sent st)
  | Refused w' sent' => (w', sent')
  end.

End Handler.

End voice.

(** * The vocabulary of the properties *)

(** ** Results of a tool *)

Module Results.
Import ToolExecutor.

(** A structured result: a [dict] with a boolean [success] item. *)
Definition structured (v : pyval) : Prop :=
  exists d b, v = PDict d /\ dict_lookup "success" d = Some (PBool b).

(** What [execute] needs of a tool: a result it returns is structured. *)
Definition returns_structured (o : outcome) : Prop :=
  match o with
  | (Ok v, _, _) => structured v
  | (Raise _, _, _) => True
  end.

(** A result with [success] false. *)
Definition failed (result : pyval) : Prop :=
  exists d, result = PDict d /\ dict_lookup "success" d = Some (PBool false).

End Results.

(** ** The appointment store under the tool executor *)

Module Store.
Import ToolExecutor.

Definition scheduled (a : Appointment.t) : bool :=
  String.eqb (Appointment.status a) "scheduled".

Definition at_slot (date time : string) (a : Appointment.t) : bool :=
  scheduled a
  && String.eqb (Appointment.appointment_date a) date
  && String.eqb (Appointment.appointment_time a) time.

(** The scheduled appointments at a date and time, of anyone and of one
    user. *)
Definition scheduled_at (date time : string) (d : database) : list Appointment.t :=
  List.filter (at_slot date time) (appointments d).

Definition scheduled_for (user : Z) (date time : string) (d : database)
    : list Appointment.t :=
  List.filter (fun a => (Appointment.user_id a =? user)%Z && at_slot date time a)
    (appointments d).

(** What every store built through the executor satisfies: the primary
    keys are below the sequence and distinct, two scheduled appointments at
    one date and time are one row, and every time is a catalog slot. *)
Record db_inv (d : database) : Prop := {
  ids_below : forall a, In a (appointments d) -> (Appointment.id a < next_id d)%Z;
  ids_nodup : List.NoDup (List.map Appointment.id (appointments d));
  one_per_slot :
    forall a b, In a (appointments d) -> In b (appointments d) ->
      scheduled a = true -> scheduled b = true ->
      Appointment.appointment_date a = Appointment.appointment_date b ->
      Appointment.appointment_time a = Appointment.appointment_time b ->
      Appointment.id a = Appointment.id b;
  catalog_times :
    forall a, In a (appointments d) -> In (Appointment.appointment_time a) AVAILABLE_SLOTS
}.

(** The stores reachable through the executor: from a store with no
    appointment (any users, any sessions), by constructing executors and
    executing tools, for any session, user, tool name, arguments and clock
    readings. *)
Inductive reachable (rt : runtime) : world -> Prop :=
| reach_empty w :
    appointments (db w) = [] -> reachable rt w
| reach_init w session_id user_id user_name :
    reachable rt w ->
    reachable rt (with_kv w (snd (init (kv w) session_id user_id user_name)))
| reach_execute w c self tool_name arguments :
    reachable rt w ->
    reachable rt (snd (execute rt c self w tool_name arguments)).

Definition cancelled (a : Appointment.t) : Appointment.t :=
  Appointment.with_status a "cancelled".

(** The arguments of the booking example. *)
Definition tomorrow_2pm : pyval := PDict [("date", PStr "tomorrow"); ("time", PStr "2pm")].

End Store.

(** ** The conversation history *)

Module History.
Import session_manager.

(** The last [n] elements of a list, as [LTRIM key -n -1] keeps them. *)
Definition last_n {A} (n : nat) (l : list A) : list A := drop (length l - n) l.

(** The message [add_message] appends. *)
Definition message (role content : string) (tool_calls tool_call_id name : pyval) : pyval :=
  PDict ([("role", PStr role); ("content", PStr content)]
         ++ optional_item "tool_calls" tool_calls
         ++ optional_item "tool_call_id" tool_call_id
         ++ optional_item "name" name)%list.

Definition system_message (system_prompt : string) : pyval :=
  PDict [("role", PStr "system"); ("content", PStr system_prompt)].

(** One call of [add_message], for any session. *)
Record add_call := {
  a_session : string;
  a_role : string;
  a_content : string;
  a_tool_calls : pyval;
  a_tool_call_id : pyval;
  a_name : pyval
}.

Definition add (r : redis) (a : add_call) : redis :=
  add_message r (a_session a) (a_role a) (a_content a)
    (a_tool_calls a) (a_tool_call_id a) (a_name a).

Definition message_of (a : add_call) : pyval :=
  message (a_role a) (a_content a) (a_tool_calls a) (a_tool_call_id a) (a_name a).

(** The messages a sequence of calls adds to one session. *)
Definition added (sid : string) (calls : list add_call) : list pyval :=
  List.map message_of (List.filter (fun a => String.eqb (a_session a) sid) calls).

End History.

(** ** The agent loop *)

Module Agent.

(** A provider that asks for a tool call in every response. *)
Definition always_calls (llm : provider) : Prop :=
  forall iteration llm_messages,
    exists llm_response,
      llm iteration llm_messages = Ok llm_response /\ r_tool_calls llm_response <> [].

(** The provider [_process_llm_with_tools] starts with. *)
Definition first_provider (sv : services) : provider :=
  match real_llm sv with
  | Some llm => llm
  | None => mock_llm sv
  end.

End Agent.

(** ** Concrete inputs for the examples *)

Module Ex.

(** A runtime for the examples, none of which reaches it: dates are given
    as relative terms, and every value formatted or bound is a string or an
    integer. *)
Definition rt : runtime :=
  {| py_repr := fun _ => "<repr>";
     json_dumps := fun _ => "<json>";
     strptime := fun _ _ => None;
     db_bind_int := fun _ => Raise (RuntimeError "can't adapt type");
     db_bind_str := fun _ => Raise (RuntimeError "can't adapt type") |}.

(** Tuesday 3 November 2026, 10:30. *)
Definition clk : clock :=
  {| now := {| dt_year := 2026; dt_month := 11; dt_day := 3; dt_micros := 37800000000 |};
     db_now := "2026-11-03T10:30:00+00:00" |}.

Definition no_keys : redis := {| hashes := ∅; lists := ∅; costs := ∅ |}.

Definition empty_world : world :=
  {| db := {| appointments := []; next_id := 1; users := []; conversation_summaries := [] |};
     kv := no_keys |}.

(** The executor of an authenticated user. *)
Definition ann : ToolExecutor.t :=
  {| ToolExecutor.session_id := "sess_0123456789ab";
     ToolExecutor.user_id := Some 7%Z;
     ToolExecutor.user_name := Some "Ann" |}.

Definition row (id user : Z) (date time status : string) : Appointment.t :=
  {| Appointment.id := id; Appointment.user_id := user;
     Appointment.appointment_date := date; Appointment.appointment_time := time;
     Appointment.status := status; Appointment.purpose := None;
     Appointment.created_at := None |}.

(** A store with a scheduled appointment at a time outside the catalog, as
    [POST /api/appointments/] of [api/appointments.py] creates one: that
    endpoint checks the slot for a conflict and not against the catalog. *)
Definition off_catalog_world : world :=
  {| db := {| appointments := [row 1 7 "2026-11-03" "12:30" "scheduled"];
              next_id := 2; users := []; conversation_summaries := [] |};
     kv := no_keys |}.

(** The store after Ann books tomorrow at 2pm in an empty store. *)
Definition booked_world : world :=
  snd (ToolExecutor.execute rt clk ann empty_world "book_appointment" Store.tomorrow_2pm).

Definition sid : string := "sess_0123456789ab".

(** The text of a JSON object, from its items already written as JSON. *)
Definition q (s : string) : string := Py.dq +:+ s +:+ Py.dq.

Definition json_object (items : list (string * string)) : string :=
  "{" +:+ Py.join "," (List.map (fun kv => q (fst kv) +:+ ":" +:+ snd kv) items) +:+ "}".

(** A model's text with a tool call written in it. *)
Definition fetch_markup : string :=
  "<function=fetch_slots>" +:+ json_object [("date", q "2026-01-22")] +:+ "</function>".

Definition markup_text : string := "Let me check. " +:+ fetch_markup.

Definition reply (text : string) (calls : list ToolCall) : LLMResponse :=
  {| r_content := Some text; r_tool_calls := calls; r_usage := None; r_latency_ms := None |}.

(** Speech synthesis that returns the text it was given as its audio, so
    that the frame sent shows what was synthesized. *)
Definition tts_echo (text : string) : res TTSResponse :=
  Ok {| audio_base64 := text; sample_rate := 16000; duration_ms := 0; visemes := PList [] |}.

Definition services_with (llm : provider) : services :=
  {| sv_rt := rt;
     real_llm := Some llm;
     mock_llm := fun _ _ => Ok (reply "mock" []);
     summary_real_llm := fun _ => Ok (reply "summary" []);
     summary_mock_llm := fun _ => Ok (reply "summary" []);
     synthesize_speech := tts_echo;
     b64decode := fun _ => Raise (ValueError "Incorrect padding");
     decode_token := fun _ => Raise (ValueError "Invalid token");
     get_breakdown := fun _ => [("total_usd", PInt 0)];
     round1 := fun _ => PInt 0;
     fmt_1f := fun _ => "0.0";
     VOICE_AGENT_SYSTEM_PROMPT := "You are an appointment assistant.";
     CALL_SUMMARY_SYSTEM_PROMPT := "Summarize the call." |}.

(** A model that answers with the text above and no structured call. *)
Definition markup_llm : provider := fun _ _ => Ok (reply markup_text []).

(** A model that asks for a tool call in every response. *)
Definition adversarial_llm : provider :=
  fun iteration _ =>
    Ok (reply "" [{| tc_id := "call_" +:+ Py.str_of_Z (Z.of_nat iteration);
                     tc_name := "fetch_slots";
                     tc_arguments := PDict [("date", PStr "today")] |}]).

Definition tk : tick :=
  {| t_clock := fun _ => clk; t_time := 1793701800; t_utcnow := "2026-11-03T10:30:00" |}.

(** A transcription client that never connects. *)
#[export] Instance no_deepgram : Deepgram unit :=
  {| dg_new := fun _ => tt;
     dg_connect := fun d => (d, false);
     dg_is_connected := fun _ => false;
     dg_send_audio := fun d _ => Ok d;
     dg_finish_stream := fun d => Ok d;
     dg_get_full_transcript := fun _ => "";
     dg_close := fun d => Ok d |}.

Definition ann_user : User.t :=
  {| User.id := 7; User.contact_number := "5550100199"; User.name := Some "Ann" |}.

(** Ann's connection, bound to [sid], with the conversation initialised. *)
Definition connection : voice.conn (D := unit) :=
  {| voice.session_id := sid; voice.user := ann_user; voice.cost_tracker := Some sid;
     voice.deepgram_client := tt; voice.audio_start_time := None |}.

Definition started : voice.state :=
  {| voice.w := with_kv empty_world
                  (session_manager.init_conversation no_keys sid "You are an assistant.");
     voice.tool_executor := ann;
     voice.sent := [] |}.

Definition text_input (session text : string) : string :=
  json_object [("type", q "text_input"); ("session_id", q session); ("text", q text)].

End Ex.

Create HintDb tools.

(** ** Tactics *)

(** Case analysis on every branch of a tool's body. *)
Ltac tool_cases :=
  repeat first
    [ progress cbn [Results.returns_structured]
    | match goal with
      | |- context [match ?x with _ => _ end] => destruct x eqn:?
      | |- context [if ?b then _ else _] => destruct b eqn:?
      end ];
  try exact I; auto with tools.

Ltac tool_branches :=
  repeat match goal with
         | |- context [match ?x with _ => _ end] => destruct x eqn:?
         end;
  cbn [snd db with_db with_kv]; try assumption.

(** ** Rows and results, for the properties of the tools *)

Module Rows.
Import ToolExecutor Results.

(** A result with [success] true. *)
Definition succeeded (result : pyval) : Prop :=
  exists d, result = PDict d /\ dict_lookup "success" d = Some (PBool true).

(** The columns no tool writes once the row is inserted. *)
Definition identity (a : Appointment.t) : Z * Z * option string * option string :=
  (Appointment.id a, Appointment.user_id a, Appointment.purpose a, Appointment.created_at a).

(** The appointments of everyone but one user. *)
Definition of_others (u : Z) (d : database) : list Appointment.t :=
  List.filter (fun a => negb (Appointment.user_id a =? u)%Z) (appointments d).

(** The appointments of one user. *)
Definition of_user (u : Z) (d : database) : list Appointment.t :=
  List.filter (fun a => (Appointment.user_id a =? u)%Z) (appointments d).

(** A tool that leaves the executor and the stores as they were whenever it
    fails or raises. *)
Definition keeps (self : t) (w : world) (o : outcome) : Prop :=
  match o with
  | (Ok v, s1, w1) => failed v -> s1 = self /\ w1 = w
  | (Raise _, s1, w1) => s1 = self /\ w1 = w
  end.

(** A later table of appointments: the rows of the earlier one with their
    identity columns, and at most one more. *)
Definition grows (d d' : database) : Prop :=
  exists extra,
    length extra <= 1
    /\ List.map identity (appointments d') = List.map identity (appointments d ++ extra)
    /\ (next_id d <= next_id d')%Z.

(** What [retrieve_appointments] shows of a row. *)
Definition shown (include_cancelled : pyval) (a : pydict) : bool :=
  truthy include_cancelled || negb (String.eqb (item_str a "status") "cancelled").

End Rows.

(** ** Times of day and the calendar *)

Module Clock.

(** The spellings of the two halves of the day that [_normalize_time]
    is applied to below. *)
Definition pm_suffixes : list string :=
  ["pm"; " pm"; "PM"; " PM"; "p.m."; " p.m."; "P.M."; " P.M."].
Definition am_suffixes : list string :=
  ["am"; " am"; "AM"; " AM"; "a.m."; " a.m."; "A.M."; " A.M."].

(** The hour of the 24-hour clock for an hour of the 12-hour clock. *)
Definition hour24 (h : Z) (pm : bool) : Z :=
  if pm then (if (h =? 12)%Z then 12 else h + 12)%Z
  else (if (h =? 12)%Z then 0 else h)%Z.

Definition hh_mm (h m : Z) : string := Py.fmt_02d h +:+ ":" +:+ Py.fmt_02d m.

(** [p] holds of the [n] integers from [z] on. *)
Fixpoint all_from (n : nat) (z : Z) (p : Z -> bool) : bool :=
  match n with
  | O => true
  | S n' => p z && all_from n' (z + 1)%Z p
  end.

(** What [_normalize_time] does with the hour [h] and the minute [m] under
    each spelling, and with the 24-hour form. *)
Definition normalizes (want : string) (text : string) : bool :=
  match ToolExecutor._normalize_time (PStr text) with
  | Ok t => String.eqb t want
  | Raise _ => false
  end.

Definition normalizes_12h (pm : bool) (h m : Z) : bool :=
  forallb
    (fun suffix =>
       normalizes (hh_mm (hour24 h pm) m) (Py.str_of_Z h +:+ ":" +:+ Py.fmt_02d m +:+ suffix)
       && normalizes (hh_mm (hour24 h pm) 0) (Py.str_of_Z h +:+ suffix))
    (if pm then pm_suffixes else am_suffixes).

(** The day of a 400-year era [doe] is the day its civil date counts
    back to. *)
Definition era_day_ok (doe : Z) : bool :=
  let '(y, m, d) := Cal.civil_from_days (doe - 719468) in
  (Cal.days_from_civil y m d =? doe - 719468)%Z.

End Clock.

(** ** The writes of the session manager *)

Module Sessions.
Import session_manager.

(** One call of a method of [RedisSessionManager] that writes, for a given
    session. *)
Inductive write :=
| CreateSession (created : string) (start : Q)
| SetUser (contact_number : pyval)
| SetStatus (status : pyval)
| SetWsActive (active : bool)
| InitConversation (system_prompt : string)
| AddMessage (role content : string) (tool_calls tool_call_id name : pyval)
| ClearConversation
| Remove
| SetMetadata (field : string) (value : pyval).

Definition apply (r : redis) (sid : string) (op : write) : redis :=
  match op with
  | CreateSession created start => snd (create_session r sid created start)
  | SetUser v => set_user r sid v
  | SetStatus v => set_status r sid v
  | SetWsActive b => set_ws_active r sid b
  | InitConversation p => init_conversation r sid p
  | AddMessage role content tool_calls tool_call_id name =>
      add_message r sid role content tool_calls tool_call_id name
  | ClearConversation => clear_conversation r sid
  | Remove => remove r sid
  | SetMetadata field value => set_metadata r sid field value
  end.

(** A field of a session as [hget] reads it. *)
Definition field (r : redis) (sid name : string) : option pyval :=
  Redis.hget r (_key sid) name.

End Sessions.

(** ** The steps of the message loop *)

Module Steps.
Import voice.

Section Handler.
Context {D : Type} `{Deepgram D}.

(** A step that leaves the connection bound to the session it was bound
    to. *)
Definition same_session (c : conn (D := D)) (s : step (D := D)) : Prop :=
  match s with
  | Continue c' _ | Break c' _ | Failed _ c' _ => session_id c' = session_id c
  end.

End Handler.

End Steps.

(** ** The cost ledger *)

Module Costs.
Import CostTracker.

(** One tracked use of a service. *)
Inductive usage :=
| Stt (audio_seconds : Q)
| Llm (input_tokens output_tokens : Z)
| Tts (characters : Z)
| Tavus (seconds : Q).

(** A use, with the session it is tracked for and the reading of the
    clock. *)
Record event := {
  e_session : string;
  e_utcnow : string;
  e_usage : usage
}.

Definition track (r : redis) (e : event) : redis :=
  match e_usage e with
  | Stt s => track_stt r (e_session e) (e_utcnow e) s
  | Llm i o => track_llm r (e_session e) (e_utcnow e) i o
  | Tts n => track_tts r (e_session e) (e_utcnow e) n
  | Tavus s => track_tavus r (e_session e) (e_utcnow e) s
  end.

(** The integer counters of a record. *)
Definition counters (d : cost_data) : Z * Z * Z * Z * Z * Z :=
  (llm_input_tokens d, llm_output_tokens d, tts_characters d,
   requests_stt d, requests_llm d, requests_tts d).

(** What one use adds to the counters. *)
Definition adds (u : usage) : Z * Z * Z * Z * Z * Z :=
  match u with
  | Stt _ => (0, 0, 0, 1, 0, 0)
  | Llm i o => (i, o, 0, 0, 1, 0)
  | Tts n => (0, 0, n, 0, 0, 1)
  | Tavus _ => (0, 0, 0, 0, 0, 0)
  end%Z.

Definition plus (a b : Z * Z * Z * Z * Z * Z) : Z * Z * Z * Z * Z * Z :=
  let '(a1, a2, a3, a4, a5, a6) := a in
  let '(b1, b2, b3, b4, b5, b6) := b in
  (a1 + b1, a2 + b2, a3 + b3, a4 + b4, a5 + b5, a6 + b6)%Z.

(** The sum over the uses tracked for one session. *)
Definition total (sid : string) (events : list event) : Z * Z * Z * Z * Z * Z :=
  fold_left (fun acc e => if String.eqb (e_session e) sid then plus acc (adds (e_usage e)) else acc)
    events (0, 0, 0, 0, 0, 0)%Z.

End Costs.

(** ** Texts, for the properties of the parser *)

Module Text.

(** Every character of [s] satisfies [p]. *)
Fixpoint all_chars (p : ascii -> bool) (s : string) : bool :=
  match s with
  | EmptyString => true
  | String c r => p c && all_chars p r
  end.

Definition is_not (c x : ascii) : bool := negb (Ascii.eqb c x).

(** A text with none of the characters that start call syntax, whose only
    white space is single spaces between other characters: what
    [spaced true] accepts. *)
Fixpoint spaced (after_space : bool) (s : string) : bool :=
  match s with
  | EmptyString => negb after_space
  | String c r =>
      if Py.isspace c
      then Ascii.eqb c " " && negb after_space && spaced true r
      else is_not "<" c && is_not "{" c && spaced false r
  end.

Definition plain (s : string) : bool := spaced true s.

(** The three ways a model writes a call in its text. *)
Definition tagged_call (name body : string) : string :=
  "<function=" +:+ name +:+ ">{" +:+ body +:+ "}</function>".

Definition assigned_call (name body : string) : string :=
  "<function=" +:+ name +:+ "={" +:+ body +:+ "}>".

Definition compact_call (name body : string) : string :=
  "<function=" +:+ name +:+ "{" +:+ body +:+ "}>".

(** A tool name, and the inside of an argument object with no brace and no
    tag in it. *)
Definition is_name (name : string) : bool :=
  negb (String.eqb name "") && all_chars Py.is_word name.

Definition is_body (body : string) : bool :=
  negb (String.eqb body "")
  && all_chars (fun c => is_not "}" c && is_not "<" c) body.

Definition no_tag (s : string) : bool := all_chars (is_not "<") s.

(** [s] is empty or starts with a character that [p] rejects. *)
Definition stops (p : ascii -> bool) (s : string) : bool :=
  match s with
  | EmptyString => true
  | String c _ => negb (p c)
  end.

(** The loop of a greedy repetition of a character class, as [Re.run]
    unfolds it for [Star (Cls p)] and after the first character of
    [Plus (Cls p)]. *)
Definition star_cls {R : Type} (p : ascii -> bool)
    (k : string -> list string -> option R) : nat -> string -> list string -> option R :=
  fix star (n : nat) (s : string) (caps : list string) {struct n} : option R :=
    match n with
    | O => k s caps
    | S n' =>
        match Re.run (Re.Cls p) n s caps
                (fun s' caps' => if Re.shorter s' s then star n' s' caps' else None) with
        | Some x => Some x
        | None => k s caps
        end
    end.

End Text.

(** ** The table of appointments under both interfaces *)

Module Rest.
Import ToolExecutor Store.

(** A request that writes: [POST /], [PUT /{id}] or [DELETE /{id}]. *)
Inductive request :=
| Create (db_now : string) (appointment : AppointmentCreate.t)
| Update (appointment_id : Z) (appointment : AppointmentCreate.t)
| Cancel (appointment_id : Z).

(** The status code of a response: 200 for a value returned. *)
Definition status_code {A} (response : http A) : Z :=
  match response with
  | Returned _ => 200
  | HTTPException code _ => code
  end.

(** The status of the response to a request and the database after it. *)
Definition handle (d : database) (current_user : User.t) (q : request) : Z * database :=
  match q with
  | Create db_now appointment =>
      let '(response, d') :=
        appointments_api.create_appointment d db_now appointment current_user in
      (status_code response, d')
  | Update appointment_id appointment =>
      let '(response, d') :=
        appointments_api.update_appointment d appointment_id appointment current_user in
      (status_code response, d')
  | Cancel appointment_id =>
      let '(response, d') :=
        appointments_api.cancel_appointment d appointment_id current_user in
      (status_code response, d')
  end.

(** The stores reachable through the executor and the REST endpoints
    together: from a store with no appointment, by constructing executors,
    executing tools and handling requests, for any session, user, tool,
    arguments, request and clock readings. *)
Inductive served (rt : runtime) : world -> Prop :=
| served_empty w :
    appointments (db w) = [] -> served rt w
| served_init w session_id user_id user_name :
    served rt w ->
    served rt (with_kv w (snd (init (kv w) session_id user_id user_name)))
| served_tool w c self tool_name arguments :
    served rt w ->
    served rt (snd (execute rt c self w tool_name arguments))
| served_request w current_user q :
    served rt w ->
    served rt (with_db w (snd (handle (db w) current_user q))).

(** What every such store satisfies: the primary keys are below the
    sequence and distinct, and two scheduled appointments at one date and
    time are one row. *)
Record table_inv (d : database) : Prop := {
  keys_below : forall a, In a (appointments d) -> (Appointment.id a < next_id d)%Z;
  keys_nodup : List.NoDup (List.map Appointment.id (appointments d));
  one_row_per_slot :
    forall a b, In a (appointments d) -> In b (appointments d) ->
      scheduled a = true -> scheduled b = true ->
      Appointment.appointment_date a = Appointment.appointment_date b ->
      Appointment.appointment_time a = Appointment.appointment_time b ->
      Appointment.id a = Appointment.id b
}.

End Rest.

(** ** A conversation context and what is added to it *)

Module Context.
Import ConversationContext.

(** A user or an assistant message added to a context. *)
Inductive addition :=
| UserMessage (content : string)
| AssistantMessage (content : string).

Definition add (self : t) (a : addition) : t :=
  match a with
  | UserMessage content => add_user_message self content
  | AssistantMessage content => add_assistant_message self content
  end.

Definition message_of (a : addition) : LLMMessage :=
  match a with
  | UserMessage content => message "user" content
  | AssistantMessage content => message "assistant" content
  end.

(** The system message a history starts with, if it does. *)
Definition leading_system (messages : list LLMMessage) : list LLMMessage :=
  match messages with
  | first :: _ => if String.eqb (role first) "system" then [first] else []
  | [] => []
  end.

End Context.

(** ** More concrete inputs *)

Module Cases.
Import Ex.

(** A table with an appointment of Ann (user 7) and one of another user
    (user 8), and Ann in the table of users. *)
Definition shared_world : world :=
  {| db := {| appointments := [row 1 7 "2026-11-04" "14:00" "scheduled";
                               row 2 8 "2026-11-04" "15:00" "scheduled"];
              next_id := 3; users := [ann_user]; conversation_summaries := [] |};
     kv := no_keys |}.

(** The executor of a caller not yet identified. *)
Definition guest : ToolExecutor.t :=
  {| ToolExecutor.session_id := sid;
     ToolExecutor.user_id := None;
     ToolExecutor.user_name := None |}.

(** The result of a tool, when it returned one. *)
Definition returned (o : ToolExecutor.outcome) : pyval :=
  match o with
  | (Ok v, _, _) => v
  | (Raise _, _, _) => PNone
  end.

(** Services whose token decoder accepts every token as Ann's. *)
Definition services_of_ann : services :=
  {| sv_rt := rt;
     real_llm := Some markup_llm;
     mock_llm := fun _ _ => Ok (reply "mock" []);
     summary_real_llm := fun _ => Ok (reply "summary" []);
     summary_mock_llm := fun _ => Ok (reply "summary" []);
     synthesize_speech := tts_echo;
     b64decode := fun _ => Raise (ValueError "Incorrect padding");
     decode_token := fun _ => Ok [("sub", PStr "5550100199")];
     get_breakdown := fun _ => [("total_usd", PInt 0)];
     round1 := fun _ => PInt 0;
     fmt_1f := fun _ => "0.0";
     VOICE_AGENT_SYSTEM_PROMPT := "You are an appointment assistant.";
     CALL_SUMMARY_SYSTEM_PROMPT := "Summarize the call." |}.

(** The first message of a client on the socket. *)
Definition auth_message (items : list (string * string)) : string :=
  json_object (("type", q "auth") :: items).

(** Another user. *)
Definition bob_user : User.t :=
  {| User.id := 8; User.contact_number := "5550100200"; User.name := Some "Bob" |}.

(** A request for the slot of tomorrow at 2pm. *)
Definition tomorrow_2pm_request : AppointmentCreate.t :=
  {| AppointmentCreate.user_id := None;
     AppointmentCreate.appointment_date := "2026-11-04";
     AppointmentCreate.appointment_time := "14:00";
     AppointmentCreate.purpose := Some "check-up" |}.

(** A context of at most three messages that holds three. *)
Definition full_context : ConversationContext.t :=
  ConversationContext.add_assistant_message
    (ConversationContext.add_user_message
       (ConversationContext.init sid (Some "You are an assistant.") 3) "hello")
    "Hello! How can I help?".

End Cases.

(** * Properties of the tool executor *)

Module ExecutorFacts.
Import ToolExecutor Results.

Lemma structured_failure error : structured (failure error).
Proof. exists [("success", PBool false); ("error", PStr error)], false. split; reflexivity. Qed.

Lemma structured_item d b :
  structured (PDict (("success", PBool b) :: d)).
Proof. exists (("success", PBool b) :: d), b. split; reflexivity. Qed.

#[local] Hint Resolve structured_failure structured_item : tools.

Lemma identify_user_structured rt self w args :
  returns_structured (_execute_identify_user rt self w args).
Proof. unfold _execute_identify_user. tool_cases. Qed.

Lemma fetch_slots_structured rt c self w args :
  returns_structured (_execute_fetch_slots rt c self w args).
Proof. unfold _execute_fetch_slots. tool_cases. Qed.

Lemma book_appointment_structured rt c self w args :
  returns_structured (_execute_book_appointment rt c self w args).
Proof. unfold _execute_book_appointment, not_authenticated. tool_cases. Qed.

Lemma retrieve_appointments_structured rt c self w args :
  returns_structured (_execute_retrieve_appointments rt c self w args).
Proof. unfold _execute_retrieve_appointments, not_authenticated. tool_cases. Qed.

Lemma cancel_appointment_structured rt self w args :
  returns_structured (_execute_cancel_appointment rt self w args).
Proof.
  unfold _execute_cancel_appointment, cancel_found, invalid_id, not_authenticated. tool_cases.
Qed.

Lemma modify_owned_structured rt c self w appointment_id new_date new_time n appointment :
  returns_structured
    (modify_owned rt c self w appointment_id new_date new_time n appointment).
Proof.
  unfold modify_owned.
  destruct (truthy new_date); [destruct (_parse_date rt c new_date) as [date_obj|e]|];
    [| destruct (is_ValueError e) |]; tool_cases.
Qed.

Lemma modify_appointment_structured rt c self w args :
  returns_structured (_execute_modify_appointment rt c self w args).
Proof.
  unfold _execute_modify_appointment, invalid_id, not_authenticated.
  tool_cases; apply modify_owned_structured.
Qed.

Lemma end_conversation_structured self w args :
  returns_structured (_execute_end_conversation self w args).
Proof. unfold _execute_end_conversation. tool_cases. Qed.

Lemma method_structured rt c tool_name m self w args :
  method rt c tool_name = Some m -> returns_structured (m self w args).
Proof.
  unfold method.
  repeat match goal with
         | |- context [if ?b then _ else _] => destruct b
         end;
    intros Hm; inversion Hm; subst;
    auto using identify_user_structured, fetch_slots_structured, book_appointment_structured,
      retrieve_appointments_structured, cancel_appointment_structured,
      modify_appointment_structured, end_conversation_structured.
Qed.

(** [execute] returns, and returns a structured result. *)
Lemma execute_returns rt c self w tool_name arguments :
  exists result self' w',
    execute rt c self w tool_name arguments = (Ok result, self', w')
    /\ structured result.
Proof.
  unfold execute.
  destruct (method rt c tool_name) as [m|] eqn:Hm.
  - pose proof (method_structured rt c tool_name m self w arguments Hm) as Hs.
    destruct (m self w arguments) as [[[v|e] s1] w1]; cbn in Hs.
    + by exists v, s1, w1.
    + exists (failure (exn_str e)), s1, w1. split; [done | auto with tools].
  - exists (failure ("Unknown tool: " +:+ tool_name)), self, w. split; [done | auto with tools].
Qed.

(** C6 (executor totality).  For every tool name and every arguments value,
    [execute] returns a result and raises nothing; the result is a dict with
    a boolean [success] item; an unknown tool name gives the failure result
    [Unknown tool: <name>] and changes nothing; and an exception raised by
    the tool's implementation is turned into the failure result carrying
    [str(e)]. *)
Theorem execute_total rt c self w tool_name arguments :
  exists result self' w',
    execute rt c self w tool_name arguments = (Ok result, self', w')
    /\ structured result
    /\ (method rt c tool_name = None ->
        result = failure ("Unknown tool: " +:+ tool_name) /\ self' = self /\ w' = w)
    /\ (forall m e s1 w1,
          method rt c tool_name = Some m ->
          m self w arguments = (Raise e, s1, w1) ->
          result = failure (exn_str e) /\ self' = s1 /\ w' = w1).
Proof.
  unfold execute.
  destruct (method rt c tool_name) as [m|] eqn:Hm.
  - pose proof (method_structured rt c tool_name m self w arguments Hm) as Hs.
    destruct (m self w arguments) as [[[v|e] s1] w1] eqn:Hrun; cbn in Hs.
    + exists v, s1, w1. split; [done|]. split; [done|]. split; [congruence|].
      intros m' e' s2 w2 Hm' Hrun'. congruence.
    + exists (failure (exn_str e)), s1, w1.
      split; [done|]. split; [auto with tools|]. split; [congruence|].
      intros m' e' s2 w2 Hm' Hrun'.
      assert (m' = m) by congruence. subst m'.
      rewrite Hrun in Hrun'. by inversion Hrun'.
  - exists (failure ("Unknown tool: " +:+ tool_name)), self, w.
    split; [done|]. split; [auto with tools|]. split; [done|].
    intros m e s1 w1 Hm'. discriminate.
Qed.

End ExecutorFacts.

(** * The appointment store *)

Module StoreFacts.
Import ToolExecutor Store.

Lemma str_in_true x l : str_in x l = true <-> In x l.
Proof.
  unfold str_in. rewrite existsb_exists. split.
  - intros (y & Hy & Heq). apply String.eqb_eq in Heq. by subst.
  - intros Hx. exists x. split; [done | apply String.eqb_refl].
Qed.

Lemma str_in_false x l : str_in x l = false <-> ~ In x l.
Proof.
  rewrite <- str_in_true. destruct (str_in x l); intuition congruence.
Qed.

(** The rows a booked-slots query reads. *)
Lemma booked_slots_spec d date exclude time :
  In time (_get_booked_slots_from_db d date exclude) <->
  exists a, In a (appointments d)
    /\ Appointment.appointment_date a = date
    /\ scheduled a = true
    /\ Appointment.appointment_time a = time
    /\ match exclude with
       | Some n => n = 0%Z \/ Appointment.id a <> n
       | None => True
       end.
Proof.
  unfold _get_booked_slots_from_db, scheduled.
  rewrite in_map_iff. split.
  - intros (a & Htime & Hin). apply filter_In in Hin as [Hin Hq]. exists a.
    destruct exclude as [n|]; [destruct (Z.eqb_spec n 0) as [->|Hn]|].
    + apply andb_prop in Hq as [Hd Hs]. apply String.eqb_eq in Hd.
      repeat split; auto.
    + apply andb_prop in Hq as [Hq Hne]. apply andb_prop in Hq as [Hd Hs].
      apply String.eqb_eq in Hd. apply negb_true_iff, Z.eqb_neq in Hne.
      repeat split; auto.
    + apply andb_prop in Hq as [Hd Hs]. apply String.eqb_eq in Hd.
      repeat split; auto.
  - intros (a & Hin & Hdate & Hs & Htime & Hex). exists a. split; [done|].
    apply filter_In. split; [done|].
    apply String.eqb_eq in Hdate.
    destruct exclude as [n|]; [destruct (Z.eqb_spec n 0) as [->|Hn]|].
    + by rewrite Hdate, Hs.
    + destruct Hex as [?|Hne]; [done|]. apply Z.eqb_neq in Hne.
      by rewrite Hdate, Hs, Hne.
    + by rewrite Hdate, Hs.
Qed.

Lemma not_booked d date exclude time a :
  ~ In time (_get_booked_slots_from_db d date exclude) ->
  In a (appointments d) ->
  scheduled a = true ->
  Appointment.appointment_date a = date ->
  Appointment.appointment_time a = time ->
  match exclude with
  | Some n => n <> 0%Z /\ Appointment.id a = n
  | None => False
  end.
Proof.
  intros Hfree Hin Hs Hd Ht.
  destruct exclude as [n|].
  - destruct (Z.eq_dec n 0%Z) as [->|Hn];
      [| destruct (Z.eq_dec (Appointment.id a) n) as [Heq|Hne]; [done|] ].
    all: exfalso; apply Hfree, booked_slots_spec; exists a; repeat split; auto.
  - apply Hfree, booked_slots_spec. exists a. repeat split; auto.
Qed.

(** *** The three writes keep the invariant *)

Lemma insert_inv d user date time purpose stamp :
  db_inv d ->
  ~ In time (_get_booked_slots_from_db d date None) ->
  In time AVAILABLE_SLOTS ->
  db_inv (snd (insert_appointment d user date time purpose stamp)).
Proof.
  intros [Hbelow Hnodup Hone Hcat] Hfree Hslot.
  constructor; cbn [insert_appointment snd appointments next_id].
  - intros a [Hin|Hnew]%in_app_iff.
    + specialize (Hbelow a Hin). lia.
    + destruct Hnew as [<-|[]]. cbn. lia.
  - rewrite map_app. apply List.NoDup_app; [done | repeat constructor; by intros [] |].
    intros n (a & <- & Hin)%in_map_iff [Heq|[]]. cbn in Heq.
    specialize (Hbelow a Hin). lia.
  - intros a b [Ha|Ha]%in_app_iff [Hb|Hb]%in_app_iff Hsa Hsb Hd Ht.
    + by apply Hone.
    + destruct Hb as [<-|[]]. cbn in Hd, Ht.
      destruct (not_booked d date None time a Hfree Ha Hsa Hd Ht).
    + destruct Ha as [<-|[]]. cbn in Hd, Ht.
      destruct (not_booked d date None time b Hfree Hb Hsb (eq_sym Hd) (eq_sym Ht)).
    + destruct Ha as [<-|[]], Hb as [<-|[]]. done.
  - intros a [Hin|Hnew]%in_app_iff; [by apply Hcat|].
    by destruct Hnew as [<-|[]].
Qed.

(** A committed change keeps the primary keys. *)
Lemma update_ids d n f :
  (forall a, Appointment.id (f a) = Appointment.id a) ->
  List.map Appointment.id (appointments (update_appointment d n f))
  = List.map Appointment.id (appointments d).
Proof.
  intros Hid. cbn. rewrite List.map_map. apply List.map_ext.
  intros a. by destruct (_ =? _)%Z.
Qed.

Lemma update_in d n f a' :
  In a' (appointments (update_appointment d n f)) <->
  exists a, In a (appointments d)
    /\ a' = if (Appointment.id a =? n)%Z then f a else a.
Proof.
  cbn. rewrite in_map_iff. split; intros (a & ? & ?); exists a; auto.
Qed.

Lemma cancel_inv d n :
  db_inv d ->
  db_inv (update_appointment d n (fun a => Appointment.with_status a "cancelled")).
Proof.
  intros [Hbelow Hnodup Hone Hcat].
  constructor.
  - intros a' (a & Hin & ->)%update_in. cbn [next_id update_appointment with_appointments].
    specialize (Hbelow a Hin). by destruct (_ =? _)%Z.
  - by rewrite update_ids.
  - intros a' b' (a & Ha & ->)%update_in (b & Hb & ->)%update_in.
    destruct (Appointment.id a =? n)%Z, (Appointment.id b =? n)%Z; try done.
    by apply Hone.
  - intros a' (a & Hin & ->)%update_in.
    specialize (Hcat a Hin). by destruct (_ =? _)%Z.
Qed.

Lemma modify_inv d n date time :
  db_inv d ->
  ~ In time (_get_booked_slots_from_db d date (Some n)) ->
  In time AVAILABLE_SLOTS ->
  db_inv (update_appointment d n (fun a => Appointment.with_slot a date time)).
Proof.
  intros [Hbelow Hnodup Hone Hcat] Hfree Hslot.
  constructor.
  - intros a' (a & Hin & ->)%update_in. cbn [next_id update_appointment with_appointments].
    specialize (Hbelow a Hin). by destruct (_ =? _)%Z.
  - by rewrite update_ids.
  - intros a' b' (a & Ha & ->)%update_in (b & Hb & ->)%update_in.
    destruct (Z.eqb_spec (Appointment.id a) n) as [Han|Han],
             (Z.eqb_spec (Appointment.id b) n) as [Hbn|Hbn]; cbn.
    + congruence.
    + intros _ Hsb Hd Ht.
      destruct (not_booked d date (Some n) time b Hfree Hb Hsb (eq_sym Hd) (eq_sym Ht)).
      congruence.
    + intros Hsa _ Hd Ht.
      destruct (not_booked d date (Some n) time a Hfree Ha Hsa Hd Ht).
      congruence.
    + by apply Hone.
  - intros a' (a & Hin & ->)%update_in.
    specialize (Hcat a Hin). by destruct (_ =? _)%Z.
Qed.

(** *** Every tool keeps the invariant *)

Lemma book_appointment_inv rt c self w args :
  db_inv (db w) -> db_inv (db (snd (_execute_book_appointment rt c self w args))).
Proof.
  intros Hinv. unfold _execute_book_appointment. tool_branches.
  match goal with
  | H : insert_appointment ?d0 ?u ?dt ?tm ?p ?s = (_, ?d) |- db_inv ?d =>
      change d with (snd (pair z d)); rewrite <- H
  end.
  apply insert_inv; [done | by apply str_in_false |].
  apply str_in_true. by apply negb_false_iff.
Qed.

Lemma cancel_appointment_inv rt self w args :
  db_inv (db w) -> db_inv (db (snd (_execute_cancel_appointment rt self w args))).
Proof.
  intros Hinv. unfold _execute_cancel_appointment, cancel_found. tool_branches.
  by apply cancel_inv.
Qed.

Lemma find_appointment_in d n a :
  find_appointment d n = Some a -> In a (appointments d) /\ Appointment.id a = n.
Proof.
  intros [Hin Heq]%find_some. split; [done|]. by apply Z.eqb_eq.
Qed.

Lemma modify_owned_inv rt c self w appointment_id new_date new_time n appointment :
  db_inv (db w) ->
  find_appointment (db w) n = Some appointment ->
  db_inv (db (snd (modify_owned rt c self w appointment_id new_date new_time n appointment))).
Proof.
  intros Hinv [Hin _]%find_appointment_in. unfold modify_owned. tool_branches.
  apply modify_inv; [done | by apply str_in_false |].
  match goal with
  | H : (truthy new_time && _)%bool = false |- _ => apply andb_false_iff in H as [Hno|Hok]
  end.
  - match goal with
    | H : (if truthy new_time then _ else _) = Ok _ |- _ =>
        rewrite Hno in H; inversion H; subst
    end.
    by apply (catalog_times _ Hinv).
  - apply str_in_true. by apply negb_false_iff.
Qed.

Lemma modify_appointment_inv rt c self w args :
  db_inv (db w) -> db_inv (db (snd (_execute_modify_appointment rt c self w args))).
Proof.
  intros Hinv. unfold _execute_modify_appointment. tool_branches.
  by apply modify_owned_inv.
Qed.

(** The other tools leave the database as it is. *)
Lemma identify_user_db rt self w args :
  db (snd (_execute_identify_user rt self w args)) = db w.
Proof. unfold _execute_identify_user. by tool_branches. Qed.

Lemma fetch_slots_unchanged rt c self w args :
  snd (_execute_fetch_slots rt c self w args) = w.
Proof. unfold _execute_fetch_slots. by tool_branches. Qed.

Lemma retrieve_appointments_unchanged rt c self w args :
  snd (_execute_retrieve_appointments rt c self w args) = w.
Proof. unfold _execute_retrieve_appointments. by tool_branches. Qed.

Lemma end_conversation_unchanged self w args :
  snd (_execute_end_conversation self w args) = w.
Proof. unfold _execute_end_conversation. by tool_branches. Qed.

Lemma method_inv rt c tool_name m self w args :
  method rt c tool_name = Some m ->
  db_inv (db w) -> db_inv (db (snd (m self w args))).
Proof.
  unfold method.
  repeat match goal with
         | |- context [if ?b then _ else _] => destruct b
         end;
    intros Hm Hinv; inversion Hm; subst;
    rewrite ?identify_user_db, ?fetch_slots_unchanged, ?retrieve_appointments_unchanged,
      ?end_conversation_unchanged;
    auto using book_appointment_inv, cancel_appointment_inv, modify_appointment_inv.
Qed.

Lemma execute_snd rt c self w tool_name arguments :
  snd (execute rt c self w tool_name arguments)
  = match method rt c tool_name with
    | Some m => snd (m self w arguments)
    | None => w
    end.
Proof.
  unfold execute. destruct (method rt c tool_name) as [m|]; [|done].
  by destruct (m self w arguments) as [[[v|e] s1] w1].
Qed.

Lemma execute_inv rt c self w tool_name arguments :
  db_inv (db w) -> db_inv (db (snd (execute rt c self w tool_name arguments))).
Proof.
  intros Hinv. rewrite execute_snd.
  destruct (method rt c tool_name) as [m|] eqn:Hm; [|done].
  by apply (method_inv rt c tool_name).
Qed.

Lemma empty_inv d : appointments d = [] -> db_inv d.
Proof.
  intros Hnil. constructor; rewrite Hnil; cbn; try done. constructor.
Qed.

Lemma reachable_inv rt w : reachable rt w -> db_inv (db w).
Proof.
  induction 1 as [w Hnil | w sid uid uname _ IH | w c self tool args _ IH].
  - by apply empty_inv.
  - exact IH.
  - by apply execute_inv.
Qed.

(** From the invariant to the count of rows. *)
Lemma filter_ids_nodup (p : Appointment.t -> bool) rows :
  List.NoDup (List.map Appointment.id rows) ->
  List.NoDup (List.map Appointment.id (List.filter p rows)).
Proof.
  induction rows as [|a rows IH]; cbn; [done|].
  intros Hnd. apply List.NoDup_cons_iff in Hnd as [Hnotin Hnd].
  destruct (p a); cbn; [|by apply IH].
  apply List.NoDup_cons; [|by apply IH].
  intros (b & Hid & Hin)%in_map_iff. apply filter_In in Hin as [Hin _].
  apply Hnotin, in_map_iff. by exists b.
Qed.

Lemma at_slot_true date time a :
  at_slot date time a = true <->
  scheduled a = true
  /\ Appointment.appointment_date a = date
  /\ Appointment.appointment_time a = time.
Proof.
  unfold at_slot. rewrite !andb_true_iff, !String.eqb_eq. tauto.
Qed.

Lemma scheduled_at_le_1 d date time :
  db_inv d -> length (scheduled_at date time d) <= 1.
Proof.
  intros [_ Hnodup Hone _]. unfold scheduled_at.
  pose proof (filter_ids_nodup (at_slot date time) _ Hnodup) as Hnd.
  destruct (List.filter (at_slot date time) (appointments d)) as [|a [|b rest]] eqn:Hf;
    cbn; [lia | lia |].
  exfalso.
  assert (Ha : In a (List.filter (at_slot date time) (appointments d)))
    by (rewrite Hf; by left).
  assert (Hb : In b (List.filter (at_slot date time) (appointments d)))
    by (rewrite Hf; right; by left).
  apply filter_In in Ha as [Ha (Hsa & Hda & Hta)%at_slot_true].
  apply filter_In in Hb as [Hb (Hsb & Hdb & Htb)%at_slot_true].
  assert (Heq : Appointment.id a = Appointment.id b) by (apply Hone; congruence).
  cbn in Hnd. apply List.NoDup_cons_iff in Hnd as [Hnotin _].
  apply Hnotin. rewrite Heq. by left.
Qed.

Lemma filter_and_length {A} (p q : A -> bool) l :
  length (List.filter (fun a => p a && q a) l) <= length (List.filter q l).
Proof.
  induction l as [|a l IH]; cbn; [lia|].
  destruct (p a), (q a); cbn; lia.
Qed.

Lemma scheduled_for_le_1 d user date time :
  db_inv d -> length (scheduled_for user date time d) <= 1.
Proof.
  intros Hinv. unfold scheduled_for.
  etransitivity; [apply filter_and_length|].
  by apply (scheduled_at_le_1 d date time).
Qed.

(** C1 (no double booking).  In every appointment store reachable through
    the executor's operations there is at most one scheduled appointment for
    any date and time, across all users, and at most one for any user, date
    and time; and whatever tool is executed next ([book_appointment] and
    [modify_appointment] among them), the same holds of the store it
    leaves. *)
Theorem no_double_booking rt w :
  reachable rt w ->
  (forall date time, length (scheduled_at date time (db w)) <= 1)
  /\ (forall user date time, length (scheduled_for user date time (db w)) <= 1)
  /\ (forall c self tool_name arguments date time,
        length (scheduled_at date time
                  (db (snd (execute rt c self w tool_name arguments)))) <= 1).
Proof.
  intros Hreach. pose proof (reachable_inv rt w Hreach) as Hinv.
  split; [|split].
  - intros date time. by apply scheduled_at_le_1.
  - intros user date time. by apply scheduled_for_le_1.
  - intros c self tool_name arguments date time.
    by apply scheduled_at_le_1, execute_inv.
Qed.

End StoreFacts.

(** * The slots of a day *)

Module SlotFacts.
Import ToolExecutor Store StoreFacts.

Lemma available_spec booked s :
  In s (List.filter (fun slot => negb (str_in slot booked)) AVAILABLE_SLOTS)
  <-> In s AVAILABLE_SLOTS /\ ~ In s booked.
Proof.
  rewrite filter_In, negb_true_iff, str_in_false. tauto.
Qed.

Lemma reachable_booked_in_catalog rt w date s :
  reachable rt w -> In s (_get_booked_slots_from_db (db w) date None) -> In s AVAILABLE_SLOTS.
Proof.
  intros Hinv%reachable_inv (a & Hin & _ & _ & <- & _)%booked_slots_spec.
  by apply (catalog_times _ Hinv).
Qed.

(** C4, amended (the slot lists of [fetch_slots]).  For every arguments
    dict whose date parses, [fetch_slots] succeeds, whatever is booked, and
    changes nothing; [booked_slots] is the list of times of the scheduled
    appointments on that date, [available_slots] is the catalog without
    them; the two are disjoint and every catalog slot is in one of them;
    their union is the catalog whenever every booked time is a catalog
    slot, which is so in every store reachable through the executor alone;
    and on a day with every catalog slot booked the available list is
    empty. *)
Theorem fetch_slots_partition rt c self w a date :
  _parse_date rt c (dict_get a "date" (PStr "")) = Ok date ->
  exists d available booked,
    execute rt c self w "fetch_slots" (PDict a) = (Ok (PDict d), self, w)
    /\ dict_lookup "success" d = Some (PBool true)
    /\ dict_lookup "available_slots" d = Some (PList (List.map PStr available))
    /\ dict_lookup "booked_slots" d = Some (PList (List.map PStr booked))
    /\ booked = _get_booked_slots_from_db (db w) (Cal.strftime_iso date) None
    /\ (forall s, In s available <-> In s AVAILABLE_SLOTS /\ ~ In s booked)
    /\ (forall s, ~ (In s available /\ In s booked))
    /\ (forall s, In s AVAILABLE_SLOTS -> In s available \/ In s booked)
    /\ ((forall s, In s booked -> In s AVAILABLE_SLOTS) ->
        forall s, In s available \/ In s booked <-> In s AVAILABLE_SLOTS)
    /\ (reachable rt w ->
        forall s, In s available \/ In s booked <-> In s AVAILABLE_SLOTS)
    /\ ((forall s, In s AVAILABLE_SLOTS -> In s booked) -> available = []).
Proof.
  intros Hdate.
  set (booked := _get_booked_slots_from_db (db w) (Cal.strftime_iso date) None).
  set (available := List.filter (fun slot => negb (str_in slot booked)) AVAILABLE_SLOTS).
  assert (Havail : forall s, In s available <-> In s AVAILABLE_SLOTS /\ ~ In s booked)
    by (intros s; apply available_spec).
  assert (Hunion : (forall s, In s booked -> In s AVAILABLE_SLOTS) ->
                   forall s, In s available \/ In s booked <-> In s AVAILABLE_SLOTS).
  { intros Hsub s. rewrite Havail. split; [intuition|].
    intros Hs. destruct (In_dec string_dec s booked); tauto. }
  eexists _, available, booked.
  split.
  { unfold execute, method, _execute_fetch_slots. cbn [String.eqb Ascii.eqb Bool.eqb args_get].
    rewrite Hdate. reflexivity. }
  split; [reflexivity|]. split; [reflexivity|]. split; [reflexivity|].
  split; [reflexivity|]. split; [exact Havail|].
  split; [|split; [|split; [exact Hunion|split]]].
  - intros s [[_ Hno]%Havail Hyes]. done.
  - intros s Hs. destruct (In_dec string_dec s booked); [by right|left]. by apply Havail.
  - intros Hreach. apply Hunion.
    intros s Hs. by apply (reachable_booked_in_catalog rt w (Cal.strftime_iso date)).
  - intros Hfull. destruct available as [|s rest] eqn:Hav; [done|].
    exfalso. assert (Hin : In s (s :: rest)) by (by left).
    apply Havail in Hin as [Hcat Hno]. auto.
Qed.

End SlotFacts.

(** * Cancelling *)

Module CancelFacts.
Import ToolExecutor Results Store StoreFacts.

Lemma find_after_update d n f a :
  (forall x, Appointment.id (f x) = Appointment.id x) ->
  find_appointment d n = Some a ->
  find_appointment (update_appointment d n f) n = Some (f a).
Proof.
  intros Hid. unfold find_appointment, update_appointment. cbn.
  induction (appointments d) as [|x rows IH]; cbn; [done|].
  destruct (Z.eqb_spec (Appointment.id x) n) as [Hx|Hx].
  - intros [= <-]. by rewrite Hid, Hx, Z.eqb_refl.
  - intros Hfind. apply Z.eqb_neq in Hx. rewrite Hx. by apply IH.
Qed.

(** [execute] for this tool is the tool, an exception turned into a
    failure result. *)
Lemma execute_cancel rt c self w args :
  execute rt c self w "cancel_appointment" args
  = match _execute_cancel_appointment rt self w args with
    | (Ok result, self, w) => (Ok result, self, w)
    | (Raise e, self, w) => (Ok (failure (exn_str e)), self, w)
    end.
Proof. reflexivity. Qed.

Lemma cancel_run rt c self w a n :
  truthy (_get_current_user_id self (kv w)) = true ->
  py_int (dict_get a "appointment_id" (PStr "")) = Ok n ->
  execute rt c self w "cancel_appointment" (PDict a)
  = cancel_found rt self w (_get_current_user_id self (kv w))
      (dict_get a "appointment_id" (PStr "")) n.
Proof.
  intros Hauth Hint. rewrite execute_cancel. unfold _execute_cancel_appointment.
  rewrite Hauth. cbn [negb args_get]. rewrite Hint.
  unfold cancel_found.
  destruct (find_appointment (db w) n) as [appointment|]; [|done].
  destruct (negb _); [done|]. by destruct (String.eqb _ _).
Qed.

Lemma failed_failure error : failed (failure error).
Proof. by eexists. Qed.

(** The only branch of the tool that writes is the one that succeeds. *)
Lemma cancel_failure_keeps rt self w args result self' w' :
  _execute_cancel_appointment rt self w args = (Ok result, self', w') ->
  failed result -> self' = self /\ w' = w.
Proof.
  unfold _execute_cancel_appointment, cancel_found, not_authenticated.
  intros Hrun (d & -> & Hfalse).
  repeat match type of Hrun with
         | context [match ?x with _ => _ end] => destruct x eqn:?
         end;
    inversion Hrun; subst; try done.
Qed.


End CancelFacts.

(** * Booking *)

Module BookingFacts.
Import ToolExecutor Store StoreFacts.

Lemma insert_by_in {A} (key : A -> string * string) x y l :
  In y (insert_by key x l) <-> y = x \/ In y l.
Proof.
  induction l as [|z l IH]; cbn; [intuition|].
  destruct (key_le (key z) (key x)); cbn; rewrite ?IH; intuition.
Qed.

Lemma sort_by_in {A} (key : A -> string * string) y l :
  In y (sort_by key l) <-> In y l.
Proof.
  unfold sort_by.
  assert (Hgen : forall acc, In y (fold_left (fun acc x => insert_by key x acc) l acc)
                             <-> In y l \/ In y acc).
  { induction l as [|x l IH]; intros acc; cbn; [intuition|].
    rewrite IH, insert_by_in. intuition. }
  rewrite Hgen. cbn. intuition.
Qed.

(** A slot the user holds is a booked slot. *)
Lemma held_is_booked d user date time :
  existsb (holds_slot date time) (_get_user_appointments_from_db d user) = true ->
  In time (_get_booked_slots_from_db d date None).
Proof.
  intros (x & Hx & Hholds)%existsb_exists.
  unfold _get_user_appointments_from_db in Hx.
  apply in_map_iff in Hx as (a & <- & Ha).
  apply sort_by_in, filter_In in Ha as [Ha _].
  unfold holds_slot in Hholds.
  apply andb_prop in Hholds as [Hholds Hs]. apply andb_prop in Hholds as [Hd Ht].
  apply String.eqb_eq in Hd, Ht.
  apply booked_slots_spec. exists a. repeat split; auto.
Qed.

Lemma scheduled_at_nil d date time :
  scheduled_at date time d = [] <-> ~ In time (_get_booked_slots_from_db d date None).
Proof.
  unfold scheduled_at. split.
  - intros Hnil (a & Ha & Hd & Hs & Ht & _)%booked_slots_spec.
    assert (Hin : In a (List.filter (at_slot date time) (appointments d))).
    { apply filter_In. split; [done|]. by apply at_slot_true. }
    by rewrite Hnil in Hin.
  - intros Hfree.
    destruct (List.filter (at_slot date time) (appointments d)) as [|a rest] eqn:Hf; [done|].
    exfalso. assert (Hin : In a (List.filter (at_slot date time) (appointments d)))
      by (rewrite Hf; by left).
    apply filter_In in Hin as [Hin (Hs & Hd & Ht)%at_slot_true].
    apply Hfree, booked_slots_spec. exists a. repeat split; auto.
Qed.

Lemma booked_after_insert d user date time purpose stamp :
  In time (_get_booked_slots_from_db
             (snd (insert_appointment d user date time purpose stamp)) date None).
Proof.
  apply booked_slots_spec. eexists. split; [apply in_app_iff; right; by left|].
  repeat split.
Qed.

Lemma parse_tomorrow rt c : _parse_date rt c (PStr "tomorrow") = Cal.add_days (now c) 1.
Proof. reflexivity. Qed.

Lemma normalize_2pm : _normalize_time (PStr "2pm") = Ok "14:00".
Proof. reflexivity. Qed.

(** C10 (the booking example).  For an authenticated user, when tomorrow
    is a date and no scheduled appointment is at 14:00 on it,
    [book_appointment] with date [tomorrow] and time [2pm] succeeds with
    the time [14:00] and tomorrow's date in the form YYYY-MM-DD, and stores
    a scheduled appointment of the user at that slot; the same call made
    again at once fails with the slot reported as already booked, and
    changes nothing. *)
Theorem book_tomorrow_2pm rt c self w user tomorrow :
  _get_current_user_id self (kv w) = PInt user ->
  user <> 0%Z ->
  Cal.add_days (now c) 1 = Ok tomorrow ->
  scheduled_at (Cal.strftime_iso tomorrow) "14:00" (db w) = [] ->
  let date := Cal.strftime_iso tomorrow in
  exists d w',
    execute rt c self w "book_appointment" tomorrow_2pm = (Ok (PDict d), self, w')
    /\ dict_lookup "success" d = Some (PBool true)
    /\ dict_lookup "time" d = Some (PStr "14:00")
    /\ dict_lookup "date" d = Some (PStr date)
    /\ dict_lookup "appointment_id" d = Some (PStr (Py.str_of_Z (next_id (db w))))
    /\ (exists row, scheduled_at date "14:00" (db w') = [row]
                    /\ Appointment.id row = next_id (db w)
                    /\ Appointment.user_id row = user)
    /\ execute rt c self w' "book_appointment" tomorrow_2pm
       = (Ok (failure ("Sorry, 14:00 on " +:+ date
                       +:+ " is already booked. Please choose another slot.")), self, w').
Proof.
  intros Huser Hnz Htomorrow Hfree date. subst date.
  set (date := Cal.strftime_iso tomorrow) in *.
  apply scheduled_at_nil in Hfree as Hnot.
  assert (Hheld : existsb (holds_slot date "14:00")
                    (_get_user_appointments_from_db (db w) user) = false).
  { destruct (existsb _ _) eqn:Hex; [|done]. by apply held_is_booked in Hex. }
  apply str_in_false in Hnot.
  set (w' := with_db w (snd (insert_appointment (db w) user date "14:00"
                               (Some "General appointment") (db_now c)))).
  assert (Hauth : truthy (PInt user) = true) by (cbn; by apply negb_true_iff, Z.eqb_neq).
  assert (Hcat : str_in "14:00" AVAILABLE_SLOTS = true) by reflexivity.
  eexists _, w'.
  split.
  { unfold execute, method. cbn [String.eqb Ascii.eqb Bool.eqb].
    unfold _execute_book_appointment, tomorrow_2pm.
    rewrite Huser, Hauth. cbn [negb args_get dict_get dict_lookup String.eqb Ascii.eqb Bool.eqb
                                 mbind res_bind].
    rewrite parse_tomorrow, Htomorrow, normalize_2pm, Hcat.
    cbn [negb]. fold date. rewrite Hnot.
    cbn [bind_int bind_str]. rewrite Hheld. reflexivity. }
  split; [reflexivity|]. split; [reflexivity|]. split; [reflexivity|].
  split; [reflexivity|]. split.
  - eexists. split; [|split].
    { unfold scheduled_at, w'. cbn [db with_db insert_appointment snd appointments].
      rewrite List.filter_app. fold (scheduled_at date "14:00" (db w)). rewrite Hfree.
      cbn [List.filter app].
      match goal with
      | |- context [at_slot date "14:00" ?r] =>
          assert (Hrow : at_slot date "14:00" r = true) by (apply at_slot_true; by repeat split)
      end.
      rewrite Hrow. reflexivity. }
    all: reflexivity.
  - unfold execute, method. cbn [String.eqb Ascii.eqb Bool.eqb].
    unfold _execute_book_appointment, tomorrow_2pm.
    change (kv w') with (kv w).
    rewrite Huser, Hauth. cbn [negb args_get dict_get dict_lookup String.eqb Ascii.eqb Bool.eqb
                                 mbind res_bind].
    rewrite parse_tomorrow, Htomorrow, normalize_2pm, Hcat.
    cbn [negb]. fold date.
    pose proof (booked_after_insert (db w) user date "14:00" (Some "General appointment")
                  (db_now c)) as Hbooked.
    apply str_in_true in Hbooked.
    unfold w'. cbn [db with_db]. rewrite Hbooked. reflexivity.
Qed.

End BookingFacts.

(** * The conversation history *)

Module HistoryFacts.
Import session_manager History.

Lemma last_n_length {A} n (l : list A) : length (last_n n l) <= n.
Proof. unfold last_n. rewrite length_drop. lia. Qed.

Lemma last_n_all {A} n (l : list A) : length l <= n -> last_n n l = l.
Proof. unfold last_n. intros Hle. by replace (length l - n) with 0 by lia. Qed.

Lemma last_n_app {A} n (l k : list A) :
  last_n n (last_n n l ++ k) = last_n n (l ++ k).
Proof.
  destruct (decide (length l <= n)) as [Hle|Hgt].
  - by rewrite (last_n_all n l).
  - unfold last_n.
    rewrite !length_app, !length_drop.
    destruct (decide (length k <= n)) as [Hk|Hk].
    + rewrite (drop_app_le l); [|lia].
      rewrite drop_app_le; [|rewrite length_drop; lia].
      rewrite drop_drop. f_equal. f_equal. lia.
    + rewrite (drop_app_ge l); [|lia].
      rewrite drop_app_ge; [|rewrite length_drop; lia].
      rewrite length_drop. f_equal. lia.
Qed.

Lemma append_inj_r p s1 s2 : p +:+ s1 = p +:+ s2 -> s1 = s2.
Proof. induction p as [|c p IH]; cbn; [done|]. intros [= Heq]. by apply IH. Qed.

Lemma conversation_key_inj s1 s2 : _conversation_key s1 = _conversation_key s2 -> s1 = s2.
Proof. unfold _conversation_key. by intros Heq%append_inj_r%append_inj_r. Qed.

Lemma get_after_init r sid prompt :
  get_conversation (init_conversation r sid prompt) sid = [system_message prompt].
Proof.
  unfold get_conversation, init_conversation, Redis.lrange_all, Redis.rpush, Redis.delete.
  cbn. by rewrite lookup_insert_eq, lookup_delete_eq.
Qed.

Lemma get_after_add r sid role content tool_calls tool_call_id name sid' :
  get_conversation (add_message r sid role content tool_calls tool_call_id name) sid'
  = if decide (sid = sid')
    then last_n 100 (get_conversation r sid'
                     ++ [message role content tool_calls tool_call_id name])
    else get_conversation r sid'.
Proof.
  unfold get_conversation, add_message, Redis.lrange_all, Redis.ltrim_last, Redis.rpush.
  cbn. rewrite lookup_insert_eq. cbn.
  destruct (decide (sid = sid')) as [->|Hne].
  - by rewrite lookup_insert_eq.
  - rewrite !lookup_insert_ne; [done|..];
      intros Heq%conversation_key_inj; congruence.
Qed.

Lemma get_after_calls calls r sid :
  length (get_conversation r sid) <= 100 ->
  get_conversation (fold_left add calls r) sid
  = last_n 100 (get_conversation r sid ++ added sid calls).
Proof.
  revert r. induction calls as [|a calls IH]; intros r Hlen.
  - cbn. unfold added. cbn. by rewrite app_nil_r, last_n_all.
  - cbn [fold_left].
    assert (Hstep : get_conversation (add r a) sid
                    = if decide (a_session a = sid)
                      then last_n 100 (get_conversation r sid ++ [message_of a])
                      else get_conversation r sid)
      by apply get_after_add.
    rewrite IH; [|rewrite Hstep; destruct (decide _); [apply last_n_length | done]].
    rewrite Hstep. unfold added. cbn [List.filter].
    destruct (decide (a_session a = sid)) as [Heq|Hne].
    + apply String.eqb_eq in Heq as Heqb. rewrite Heqb. cbn [List.map].
      by rewrite last_n_app, <- app_assoc.
    + apply String.eqb_neq in Hne. by rewrite Hne.
Qed.

(** The stored history (history trimming).  After [init_conversation] for a
    session and any sequence of [add_message] calls, for this and for other
    sessions, the stored history of the session is the last 100 entries of
    the system message followed by the messages added to the session, in
    order.  So it never exceeds 100 entries; the system message is its first
    entry as long as at most 99 messages have been added; and from the
    100th message on, the history is the last 100 messages added, the system
    message having been dropped as the oldest entry. *)
Theorem history_after_adds r sid system_prompt calls :
  let history :=
    get_conversation (fold_left add calls (init_conversation r sid system_prompt)) sid in
  history = last_n 100 (system_message system_prompt :: added sid calls)
  /\ length history <= 100
  /\ (length (added sid calls) <= 99 ->
      history = system_message system_prompt :: added sid calls)
  /\ (100 <= length (added sid calls) -> history = last_n 100 (added sid calls)).
Proof.
  intros history.
  assert (Hhist : history = last_n 100 (system_message system_prompt :: added sid calls)).
  { subst history. rewrite get_after_calls; rewrite get_after_init; [done | cbn; lia]. }
  split; [done|]. rewrite Hhist. split; [apply last_n_length|]. split.
  - intros Hfew. apply last_n_all. cbn. lia.
  - intros Hmany. unfold last_n. cbn [length].
    replace (S (length (added sid calls)) - 100) with (S (length (added sid calls) - 100))
      by lia.
    done.
Qed.

End HistoryFacts.

(** * The agent loop *)

Module AgentFacts.
Import voice Agent.

(** No tool call raises: [execute] has turned every exception into a
    result. *)
Lemma run_tool_calls_returns sv c session_id calls end_conversation st :
  exists ending st', run_tool_calls sv c session_id calls end_conversation st = (Ok ending, st').
Proof.
  revert end_conversation st.
  induction calls as [|tool_call calls IH]; intros end_conversation st; cbn [run_tool_calls].
  - by eexists _, _.
  - match goal with
    | |- context [ToolExecutor.execute ?rt ?c ?self ?w ?name ?args] =>
        destruct (ExecutorFacts.execute_returns rt c self w name args)
          as (result & self' & w' & -> & _)
    end.
    apply IH.
Qed.

Lemma tool_loop_returns sv tk session_id cost_tracker fuel :
  forall llm iteration end_conversation st,
    iteration <= MAX_TOOL_ITERATIONS ->
    MAX_TOOL_ITERATIONS - iteration <= fuel ->
    exists r n st',
      tool_loop fuel sv tk session_id cost_tracker llm iteration end_conversation st
      = Some (r, n, st')
      /\ iteration <= n <= MAX_TOOL_ITERATIONS.
Proof.
  induction fuel as [|fuel IH]; intros llm iteration end_conversation st Hle Hfuel.
  - assert (iteration = MAX_TOOL_ITERATIONS) as -> by lia.
    by eexists _, _, _.
  - cbn [tool_loop].
    destruct (iteration <? MAX_TOOL_ITERATIONS)%nat eqn:Hlt; [|by eexists _, _, _].
    apply Nat.ltb_lt in Hlt.
    destruct (generate sv llm (S iteration) _) as [[[llm_response llm'] tracked]|e].
    2: { eexists _, _, _. split; [done|lia]. }
    destruct (r_tool_calls llm_response) as [|tool_call calls] eqn:Hcalls.
    { eexists _, _, _. split; [done|lia]. }
    match goal with
    | |- context [run_tool_calls ?sv ?c ?sid ?calls ?e ?st] =>
        destruct (run_tool_calls_returns sv c sid calls e st) as (ending & st' & ->)
    end.
    destruct (IH llm' (S iteration) ending st') as (r & n & st'' & -> & Hn); [lia|lia|].
    eexists _, _, _. split; [done|lia].
Qed.

Lemma tool_loop_adversarial sv tk session_id cost_tracker llm fuel :
  always_calls llm ->
  forall iteration end_conversation st,
    iteration <= MAX_TOOL_ITERATIONS ->
    MAX_TOOL_ITERATIONS - iteration <= fuel ->
    exists st',
      tool_loop fuel sv tk session_id cost_tracker llm iteration end_conversation st
      = Some (Ok (apology, false), MAX_TOOL_ITERATIONS, st').
Proof.
  intros Hadv.
  induction fuel as [|fuel IH]; intros iteration end_conversation st Hle Hfuel.
  - assert (iteration = MAX_TOOL_ITERATIONS) as -> by lia. by eexists.
  - cbn [tool_loop].
    destruct (iteration <? MAX_TOOL_ITERATIONS)%nat eqn:Hlt.
    2: { apply Nat.ltb_ge in Hlt. assert (iteration = MAX_TOOL_ITERATIONS) as -> by lia.
         by eexists. }
    apply Nat.ltb_lt in Hlt.
    unfold generate.
    match goal with
    | |- context [llm ?i ?msgs] => destruct (Hadv i msgs) as (llm_response & -> & Hcalls)
    end.
    destruct (r_tool_calls llm_response) as [|tool_call calls] eqn:Heq; [done|].
    match goal with
    | |- context [run_tool_calls ?sv ?c ?sid ?calls ?e ?st] =>
        destruct (run_tool_calls_returns sv c sid calls e st) as (ending & st' & ->)
    end.
    apply IH; lia.
Qed.

(** The loop returns the text of a response without tool calls as the
    model wrote it. *)
Lemma final_text_is_model_text sv tk session_id cost_tracker st llm_response text :
  first_provider sv 1
    (_redis_messages_to_llm_messages
       (session_manager.get_conversation (kv (w st)) session_id))
  = Ok llm_response ->
  r_tool_calls llm_response = [] ->
  r_content llm_response = Some text ->
  text <> "" ->
  exists st',
    _process_llm_with_tools sv tk session_id cost_tracker st = Some (Ok (text, false), 1, st').
Proof.
  intros Hreply Hcalls Hcontent Htext.
  unfold _process_llm_with_tools. fold (first_provider sv).
  cbn [tool_loop MAX_TOOL_ITERATIONS Nat.ltb Nat.leb].
  unfold generate. rewrite Hreply, Hcalls, Hcontent. unfold content_or.
  apply String.eqb_neq in Htext. rewrite Htext. by eexists.
Qed.

(** C3 (iteration bound and fallback).  For every history, every state and
    every behaviour of the providers, one invocation of the tool-calling
    loop returns (or raises a provider's exception) after at most
    [MAX_TOOL_ITERATIONS] = 10 iterations; and against a provider that asks
    for tool calls in every response it makes exactly 10 iterations and
    returns the fixed apology, with no request to end the call. *)
Theorem agent_loop_bounded sv tk session_id cost_tracker st :
  MAX_TOOL_ITERATIONS = 10
  /\ exists r iterations st',
       _process_llm_with_tools sv tk session_id cost_tracker st = Some (r, iterations, st')
       /\ iterations <= MAX_TOOL_ITERATIONS
       /\ (always_calls (first_provider sv) ->
           r = Ok (apology, false) /\ iterations = MAX_TOOL_ITERATIONS).
Proof.
  split; [reflexivity|].
  unfold _process_llm_with_tools. fold (first_provider sv).
  destruct (tool_loop_returns sv tk session_id cost_tracker MAX_TOOL_ITERATIONS
              (first_provider sv) 0 false st) as (r & n & st' & Hrun & Hn); [lia|lia|].
  exists r, n, st'. split; [done|]. split; [lia|].
  intros Hadv.
  destruct (tool_loop_adversarial sv tk session_id cost_tracker (first_provider sv)
              MAX_TOOL_ITERATIONS Hadv 0 false st) as (st'' & Hrun'); [lia|lia|].
  rewrite Hrun in Hrun'. by inversion Hrun'.
Qed.

End AgentFacts.

(** * The websocket message loop *)

Module IsolationFacts.
Import voice.

Section Handler.
Context {D : Type} `{Deepgram D}.


End Handler.

End IsolationFacts.

(** * The text tool-call parser *)

Module ParserFacts.
Import llm_proxy.

Lemma calls_from_length uuid_hex i ms : length (calls_from uuid_hex i ms) = length ms.
Proof. revert i. induction ms as [|m ms IH]; intros i; cbn; [done|]. by rewrite IH. Qed.

Lemma calls_from_nth uuid_hex ms :
  forall i k m,
    nth_error ms k = Some m ->
    nth_error (calls_from uuid_hex i ms) k = Some (call_of_match (uuid_hex (i + k)) m).
Proof.
  induction ms as [|m0 ms IH]; intros i k m; destruct k as [|k]; cbn; try done.
  - intros [= ->]. by rewrite Nat.add_0_r.
  - intros Hk. rewrite (IH (S i) k m Hk). do 3 f_equal. lia.
Qed.

(** Every call of a list is executed, each from the executor and the stores
    the call before it left, and its result is appended for the model. *)
Lemma run_calls_executes rt c calls :
  forall self w msgs,
    exists tail self' w',
      run_calls rt c calls self w msgs = (Ok (msgs ++ tail)%list, self', w')
      /\ length tail = length calls
      /\ forall k tc,
           nth_error calls k = Some tc ->
           exists s wk result s' wk',
             ToolExecutor.execute rt c s wk (tc_name tc) (tc_arguments tc)
             = (Ok result, s', wk')
             /\ (k = 0 -> s = self /\ wk = w)
             /\ nth_error tail k = Some (tool_message rt tc result).
Proof.
  induction calls as [|tc calls IH]; intros self w msgs; cbn [run_calls].
  - exists [], self, w. rewrite app_nil_r. split; [done|]. split; [done|]. by intros [|k] tc.
  - destruct (ExecutorFacts.execute_returns rt c self w (tc_name tc) (tc_arguments tc))
      as (result & self1 & w1 & Hrun & _).
    rewrite Hrun.
    destruct (IH self1 w1 (msgs ++ [tool_message rt tc result])%list)
      as (tail & self' & w' & -> & Hlen & Hcalls).
    exists (tool_message rt tc result :: tail), self', w'.
    split; [by rewrite <- app_assoc|]. split; [cbn; by rewrite Hlen|].
    intros [|k] tc' Hk; cbn in Hk.
    + injection Hk as <-. by exists self, w, result, self1, w1.
    + destruct (Hcalls k tc' Hk) as (s & wk & r & s' & wk' & Hexec & _ & Hnth).
      exists s, wk, r, s', wk'. split; [done|]. split; [lia|done].
Qed.


(** On the proxy path the final response is one of the two fixed texts or
    has been through [clean_response_for_speech], after at most
    [MAX_TOOL_ITERATIONS] iterations. *)
Lemma completion_loop_final rt clk uuid_hex llm fuel :
  forall tool_executor w llm_messages iteration final n tool_executor' w',
    iteration <= MAX_TOOL_ITERATIONS ->
    completion_loop fuel rt clk uuid_hex llm tool_executor w llm_messages iteration
    = Some (final, n, tool_executor', w') ->
    n <= MAX_TOOL_ITERATIONS
    /\ (final = trouble \/ final = ""
        \/ exists text, final = clean_response_for_speech text).
Proof.
  induction fuel as [|fuel IH];
    intros tool_executor w llm_messages iteration final n tool_executor' w' Hle; cbn [completion_loop].
  - destruct (iteration <? MAX_TOOL_ITERATIONS)%nat; [done|].
    intros [= <- <- <- <-]. auto.
  - destruct (iteration <? MAX_TOOL_ITERATIONS)%nat eqn:Hlt.
    2: { intros [= <- <- <- <-]. auto. }
    apply Nat.ltb_lt in Hlt.
    destruct (llm (S iteration) llm_messages) as [llm_response|e].
    2: { intros [= <- <- <- <-]. split; [lia | auto]. }
    destruct (calls_and_content _ _ llm_response) as [calls response_content].
    destruct calls as [|tool_call calls], tool_executor as [self|].
    1,2,4: intros [= <- <- <- <-]; split; [lia | eauto].
    destruct (run_calls _ _ _ _ _ _) as [[[llm_messages'|e] self'] w''].
    + intros Hrun. apply IH in Hrun; [done | lia].
    + intros [= <- <- <- <-]. split; [lia | auto].
Qed.

End ParserFacts.

(** * The theorems at concrete inputs *)

Module Examples.
Import Ex.

Lemma booked_world_reachable : Store.reachable rt booked_world.
Proof. apply Store.reach_execute, Store.reach_empty. reflexivity. Qed.

(** C1 at the store with one booking. *)
Lemma no_double_booking_witness :
  List.map Appointment.id (Store.scheduled_at "2026-11-04" "14:00" (db booked_world)) = [1%Z]
  /\ forall date time, length (Store.scheduled_at date time (db booked_world)) <= 1.
Proof.
  split; [reflexivity|].
  exact (proj1 (StoreFacts.no_double_booking rt booked_world booked_world_reachable)).
Defined.

(** C2: a hundred messages after the system prompt, the history in Redis
    holds a hundred entries and the first of them is a user message: the
    system prompt is gone.  A [ConversationContext] of at most a hundred
    messages, given the same prompt and the same messages, holds a hundred
    entries too and still starts with the system prompt. *)
Theorem system_prompt_evicted :
  let r :=
    fold_left
      (fun r _ => session_manager.add_message r sid "user" "hello" PNone PNone PNone)
      (seq 0 100)
      (session_manager.init_conversation no_keys sid "You are an assistant.") in
  let context :=
    fold_left
      (fun context _ => ConversationContext.add_user_message context "hello")
      (seq 0 100)
      (ConversationContext.init sid (Some "You are an assistant.") 100) in
  length (session_manager.get_conversation r sid) = 100
  /\ head (session_manager.get_conversation r sid)
     = Some (PDict [("role", PStr "user"); ("content", PStr "hello")])
  /\ length (ConversationContext._messages context) = 100
  /\ head (ConversationContext._messages context)
     = Some (ConversationContext.message "system" "You are an assistant.").
Proof. vm_compute. repeat split. Qed.

Lemma adversarial_always_calls : Agent.always_calls adversarial_llm.
Proof. intros iteration llm_messages. eexists. split; [reflexivity|done]. Qed.

(** C3 against the model that asks for a tool call in every response. *)
Lemma agent_loop_bounded_witness :
  Agent.always_calls (Agent.first_provider (services_with adversarial_llm))
  /\ exists st',
       voice._process_llm_with_tools (services_with adversarial_llm) tk sid (Some sid) started
       = Some (Ok (voice.apology, false), 10, st').
Proof.
  split; [exact adversarial_always_calls|].
  destruct (AgentFacts.agent_loop_bounded (services_with adversarial_llm) tk sid (Some sid) started)
    as [_ (r & n & st' & Hrun & _ & Hadv)].
  destruct (Hadv adversarial_always_calls) as [-> ->]. by exists st'.
Defined.

(** C4: with a scheduled appointment at 12:30, a time outside the catalog,
    [fetch_slots] returns the whole catalog as available and 12:30 as
    booked: the union of the two lists is not the catalog. *)
Lemma fetch_slots_union_counterexample :
  fst (fst (ToolExecutor.execute rt clk ann off_catalog_world "fetch_slots"
              (PDict [("date", PStr "today")])))
  = Ok (PDict [("success", PBool true);
               ("date", PStr "2026-11-03");
               ("date_display", PStr "Tuesday, November 03, 2026");
               ("available_slots",
                PList [PStr "09:00"; PStr "10:00"; PStr "11:00"; PStr "14:00";
                       PStr "15:00"; PStr "16:00"; PStr "17:00"; PStr "18:00"]);
               ("booked_slots", PList [PStr "12:30"]);
               ("message", PStr "Found 8 available slots on 2026-11-03")])
  /\ ~ In "12:30" ToolExecutor.AVAILABLE_SLOTS.
Proof.
  split; [reflexivity|]. cbn. intuition discriminate.
Qed.

(** C4, amended, at the same input. *)
Lemma fetch_slots_partition_witness :
  ToolExecutor._parse_date rt clk (dict_get [("date", PStr "today")] "date" (PStr ""))
  = Ok (now clk)
  /\ exists d available booked,
       ToolExecutor.execute rt clk ann off_catalog_world "fetch_slots"
         (PDict [("date", PStr "today")])
       = (Ok (PDict d), ann, off_catalog_world)
       /\ dict_lookup "available_slots" d = Some (PList (List.map PStr available))
       /\ dict_lookup "booked_slots" d = Some (PList (List.map PStr booked))
       /\ (forall s, ~ (In s available /\ In s booked))
       /\ (forall s, In s ToolExecutor.AVAILABLE_SLOTS -> In s available \/ In s booked).
Proof.
  split; [reflexivity|].
  destruct (SlotFacts.fetch_slots_partition rt clk ann off_catalog_world
              [("date", PStr "today")] (now clk) eq_refl)
    as (d & available & booked & Hrun & _ & Hav & Hbk & _ & _ & Hdisj & Hcover & _).
  exists d, available, booked. auto.
Defined.


(** C6: arguments that are not a dict make the tool raise, and [execute]
    returns the failure result. *)
Example execute_catches_exception :
  ToolExecutor.execute rt clk ann empty_world "book_appointment" PNone
  = (Ok (PDict [("success", PBool false);
                ("error", PStr "'NoneType' object has no attribute 'get'")]),
     ann, empty_world).
Proof. reflexivity. Qed.




(** C9 on the websocket path: the model answers a text input with a text
    that carries a tool call in writing and no structured call.  The text
    synthesized (returned here as the audio) and sent to the client is the
    model's text with the call syntax in it, while
    [clean_response_for_speech], which the proxy applies to its final text,
    strips it. *)
Theorem websocket_speaks_call_syntax :
  markup_text = "Let me check. <function=fetch_slots>{" +:+ Py.dq +:+ "date" +:+ Py.dq
                +:+ ":" +:+ Py.dq +:+ "2026-01-22" +:+ Py.dq +:+ "}</function>"
  /\ (match voice.on_message (services_with markup_llm) tk connection started
              (text_input sid "any slots on the 22nd?") with
      | voice.Continue _ st =>
          voice.sent st
          = [Text (PDict [("type", PStr "audio_response");
                          ("text", PStr markup_text);
                          ("audio_data", PStr markup_text);
                          ("audio_format", PStr "pcm_16000");
                          ("sample_rate", PInt 16000);
                          ("duration_ms", PInt 0);
                          ("visemes", PList []);
                          ("user_transcript", PStr "any slots on the 22nd?");
                          ("should_end_call", PBool false)])]
      | _ => False
      end)
  /\ Py.contains "<function=" markup_text = true
  /\ llm_proxy.clean_response_for_speech markup_text = "Let me check.".
Proof. vm_compute. repeat split. Qed.

(** C10 in an empty store on 3 November 2026. *)
Lemma book_tomorrow_2pm_witness :
  ToolExecutor._get_current_user_id ann (kv empty_world) = PInt 7
  /\ Cal.add_days (now clk) 1
     = Ok {| dt_year := 2026; dt_month := 11; dt_day := 4; dt_micros := 37800000000 |}
  /\ Store.scheduled_at "2026-11-04" "14:00" (db empty_world) = []
  /\ exists d w',
       ToolExecutor.execute rt clk ann empty_world "book_appointment" Store.tomorrow_2pm
       = (Ok (PDict d), ann, w')
       /\ dict_lookup "time" d = Some (PStr "14:00")
       /\ dict_lookup "date" d = Some (PStr "2026-11-04")
       /\ ToolExecutor.execute rt clk ann w' "book_appointment" Store.tomorrow_2pm
          = (Ok (ToolExecutor.failure
                   "Sorry, 14:00 on 2026-11-04 is already booked. Please choose another slot."),
             ann, w').
Proof.
  split; [reflexivity|]. split; [reflexivity|]. split; [reflexivity|].
  destruct (BookingFacts.book_tomorrow_2pm rt clk ann empty_world 7
              {| dt_year := 2026; dt_month := 11; dt_day := 4; dt_micros := 37800000000 |})
    as (d & w' & Hrun & _ & Htime & Hdate & _ & _ & Hagain); try reflexivity; [lia|].
  exists d, w'. auto.
Defined.

End Examples.

(** * More properties of the tool executor *)

Module ExecutorProps.
Import ToolExecutor Results Store Rows StoreFacts.

Ltac branches :=
  repeat match goal with
         | |- context [match ?x with _ => _ end] => destruct x eqn:?
         | |- context [if ?b then _ else _] => destruct b eqn:?
         end.

Lemma success_not_failed d : ~ failed (PDict (("success", PBool true) :: d)).
Proof. intros (d' & Hd & Hs). inversion Hd; subst. discriminate. Qed.

Ltac keeps_cases :=
  branches; cbn [keeps]; try done;
  try (intros Hf; by apply success_not_failed in Hf).

Lemma identify_user_keeps rt self w args :
  keeps self w (_execute_identify_user rt self w args).
Proof. unfold _execute_identify_user. keeps_cases. Qed.

Lemma fetch_slots_keeps rt c self w args :
  keeps self w (_execute_fetch_slots rt c self w args).
Proof. unfold _execute_fetch_slots. keeps_cases. Qed.

Lemma book_appointment_keeps rt c self w args :
  keeps self w (_execute_book_appointment rt c self w args).
Proof. unfold _execute_book_appointment. keeps_cases. Qed.

Lemma retrieve_appointments_keeps rt c self w args :
  keeps self w (_execute_retrieve_appointments rt c self w args).
Proof. unfold _execute_retrieve_appointments. keeps_cases. Qed.

Lemma cancel_appointment_keeps rt self w args :
  keeps self w (_execute_cancel_appointment rt self w args).
Proof. unfold _execute_cancel_appointment, cancel_found. keeps_cases. Qed.

Lemma modify_appointment_keeps rt c self w args :
  keeps self w (_execute_modify_appointment rt c self w args).
Proof. unfold _execute_modify_appointment, modify_owned. keeps_cases. Qed.

Lemma end_conversation_keeps self w args :
  keeps self w (_execute_end_conversation self w args).
Proof. unfold _execute_end_conversation. keeps_cases. Qed.

Lemma method_keeps rt c tool_name m self w args :
  method rt c tool_name = Some m -> keeps self w (m self w args).
Proof.
  unfold method.
  repeat match goal with
         | |- context [if ?b then _ else _] => destruct b
         end;
    intros Hm; inversion Hm; subst;
    auto using identify_user_keeps, fetch_slots_keeps, book_appointment_keeps,
      retrieve_appointments_keeps, cancel_appointment_keeps, modify_appointment_keeps,
      end_conversation_keeps.
Qed.

(** X1 (a failed call writes nothing).  Whenever [execute] returns a result
    whose [success] is false, for any tool name and arguments, the executor
    (its user) and both stores, the database and Redis, are exactly as they
    were before the call. *)
Theorem failed_call_changes_nothing rt c self w tool_name arguments result self' w' :
  execute rt c self w tool_name arguments = (Ok result, self', w') ->
  failed result ->
  self' = self /\ w' = w.
Proof.
  unfold execute. destruct (method rt c tool_name) as [m|] eqn:Hm.
  - pose proof (method_keeps rt c tool_name m self w arguments Hm) as Hk.
    destruct (m self w arguments) as [[[v|e] s1] w1]; cbn in Hk;
      intros Hrun Hf; inversion Hrun; subst; auto.
  - intros Hrun _. by inversion Hrun.
Qed.

Lemma fetch_slots_pure rt c self w args :
  exists r, _execute_fetch_slots rt c self w args = (r, self, w).
Proof. unfold _execute_fetch_slots. branches; eauto. Qed.

Lemma retrieve_appointments_pure rt c self w args :
  exists r, _execute_retrieve_appointments rt c self w args = (r, self, w).
Proof. unfold _execute_retrieve_appointments. branches; eauto. Qed.

Lemma end_conversation_pure self w args :
  exists r, _execute_end_conversation self w args = (r, self, w).
Proof. unfold _execute_end_conversation. branches; eauto. Qed.

(** X2 (read-only tools).  [fetch_slots], [retrieve_appointments] and
    [end_conversation] return a result and leave the executor, the database
    and Redis exactly as they were, whatever the arguments and whoever the
    user. *)
Theorem read_only_tools rt c self w tool_name arguments :
  In tool_name ["fetch_slots"; "retrieve_appointments"; "end_conversation"] ->
  exists result, execute rt c self w tool_name arguments = (Ok result, self, w).
Proof.
  intros [<-|[<-|[<-|[]]]]; unfold execute; cbn [method String.eqb Ascii.eqb Bool.eqb].
  - destruct (fetch_slots_pure rt c self w arguments) as [[v|e] ->]; eauto.
  - destruct (retrieve_appointments_pure rt c self w arguments) as [[v|e] ->]; eauto.
  - destruct (end_conversation_pure self w arguments) as [[v|e] ->]; eauto.
Qed.

(** *** Whose rows a call can change *)

Lemma of_others_insert d user date time purpose stamp :
  of_others user (snd (insert_appointment d user date time purpose stamp)) = of_others user d.
Proof.
  unfold of_others. cbn. rewrite List.filter_app. cbn.
  rewrite Z.eqb_refl. cbn. by rewrite app_nil_r.
Qed.

Lemma of_others_update d n f u :
  (forall x, In x (appointments d) -> Appointment.id x = n -> Appointment.user_id x = u) ->
  (forall x, Appointment.user_id (f x) = Appointment.user_id x) ->
  of_others u (update_appointment d n f) = of_others u d.
Proof.
  intros Hown Hf. unfold of_others. cbn.
  induction (appointments d) as [|x l IH]; cbn; [done|].
  rewrite IH by (intros y Hy; apply Hown; by right).
  destruct (Z.eqb_spec (Appointment.id x) n) as [Hn|Hn]; [|done].
  rewrite Hf. rewrite (Hown x (or_introl eq_refl) Hn). by rewrite Z.eqb_refl.
Qed.

Lemma nodup_id_inj rows a b :
  List.NoDup (List.map Appointment.id rows) ->
  In a rows -> In b rows -> Appointment.id a = Appointment.id b -> a = b.
Proof.
  induction rows as [|x l IH]; cbn; [done|].
  intros Hnd. apply List.NoDup_cons_iff in Hnd as [Hnotin Hnd].
  intros [->|Ha] [->|Hb] Heq; auto.
  - exfalso. apply Hnotin. rewrite Heq. by apply in_map.
  - exfalso. apply Hnotin. rewrite <- Heq. by apply in_map.
Qed.

Lemma found_owner d n a u :
  List.NoDup (List.map Appointment.id (appointments d)) ->
  find_appointment d n = Some a ->
  Appointment.user_id a = u ->
  forall x, In x (appointments d) -> Appointment.id x = n -> Appointment.user_id x = u.
Proof.
  intros Hnd [Hin Hid]%find_appointment_in Hu x Hx Hxn.
  assert (x = a) by (apply (nodup_id_inj (appointments d)); auto; congruence).
  by subst.
Qed.

Lemma int_eq_PInt n u : int_eq n (PInt u) = true -> n = u.
Proof. cbn. apply Z.eqb_eq. Qed.

(** X3 (a call changes only the caller's appointments).  When the current
    user of the executor is the user [u], whatever tool is executed with
    whatever arguments, the appointments of every other user are afterwards
    what they were: none added, none removed, none changed.  The precondition
    is that [id] is a key of the table. *)
Theorem other_users_rows_untouched rt c self w tool_name arguments u :
  List.NoDup (List.map Appointment.id (appointments (db w))) ->
  _get_current_user_id self (kv w) = PInt u ->
  of_others u (db (snd (execute rt c self w tool_name arguments))) = of_others u (db w).
Proof.
  intros Hnd Hu. rewrite execute_snd. unfold method.
  repeat match goal with
         | |- context [if ?b then _ else _] => destruct b
         end;
    rewrite ?identify_user_db, ?fetch_slots_unchanged, ?retrieve_appointments_unchanged,
      ?end_conversation_unchanged; try done.
  - unfold _execute_book_appointment. rewrite Hu. cbn [bind_int].
    branches; cbn [snd db with_db with_kv]; try done.
    match goal with
    | H : insert_appointment ?d0 ?us ?dt ?tm ?p ?s = (?i, ?d) |- _ = of_others _ ?d0 =>
        change d with (snd (pair i d)); rewrite <- H
    end.
    apply of_others_insert.
  - unfold _execute_cancel_appointment, cancel_found. rewrite Hu.
    branches; cbn [snd db with_db with_kv]; try done.
    apply of_others_update; [|done].
    eapply found_owner; eauto.
    apply int_eq_PInt. by apply negb_false_iff.
  - unfold _execute_modify_appointment, modify_owned. rewrite Hu.
    branches; cbn [snd db with_db with_kv]; try done.
    all: apply of_others_update; [|done].
    all: eapply found_owner; eauto.
    all: apply int_eq_PInt; by apply negb_false_iff.
Qed.

(** *** Rows are never deleted *)

Lemma grows_refl d : grows d d.
Proof. exists []. rewrite app_nil_r. split; [cbn; lia|]. split; [done|lia]. Qed.

Lemma grows_insert d user date time purpose stamp :
  grows d (snd (insert_appointment d user date time purpose stamp)).
Proof.
  eexists [_]. split; [cbn; lia|]. split; [reflexivity|]. cbn. lia.
Qed.

Lemma grows_update d n f :
  (forall x, identity (f x) = identity x) ->
  grows d (update_appointment d n f).
Proof.
  intros Hf. exists []. rewrite app_nil_r. split; [cbn; lia|]. split; [|cbn; lia].
  cbn. rewrite List.map_map. apply List.map_ext. intros x.
  by destruct (_ =? _)%Z.
Qed.

Lemma method_grows rt c tool_name m self w args :
  method rt c tool_name = Some m -> grows (db w) (db (snd (m self w args))).
Proof.
  unfold method.
  repeat match goal with
         | |- context [if ?b then _ else _] => destruct b
         end;
    intros Hm; inversion Hm; subst;
    rewrite ?identify_user_db, ?fetch_slots_unchanged, ?retrieve_appointments_unchanged,
      ?end_conversation_unchanged; try apply grows_refl.
  - unfold _execute_book_appointment.
    branches; cbn [snd db with_db with_kv]; try apply grows_refl.
    match goal with
    | H : insert_appointment ?d0 ?us ?dt ?tm ?p ?s = (?i, ?d) |- grows ?d0 ?d =>
        change d with (snd (pair i d)); rewrite <- H
    end.
    apply grows_insert.
  - unfold _execute_cancel_appointment, cancel_found.
    branches; cbn [snd db with_db with_kv]; try apply grows_refl.
    by apply grows_update.
  - unfold _execute_modify_appointment, modify_owned.
    branches; cbn [snd db with_db with_kv]; try apply grows_refl.
    all: by apply grows_update.
Qed.

(** X4 (appointments are never deleted).  Whatever tool is executed, every
    row of the appointments table is still there afterwards, in the same
    order and with the same id, owner, purpose and creation time; at most
    one row is added; and the id sequence never goes back.  Cancelling and
    modifying change a row's status or slot, never its identity. *)
Theorem rows_never_deleted rt c self w tool_name arguments :
  exists extra,
    length extra <= 1
    /\ List.map identity (appointments (db (snd (execute rt c self w tool_name arguments))))
       = List.map identity (appointments (db w) ++ extra)
    /\ (next_id (db w) <= next_id (db (snd (execute rt c self w tool_name arguments))))%Z.
Proof.
  rewrite execute_snd.
  destruct (method rt c tool_name) as [m|] eqn:Hm.
  - exact (method_grows rt c tool_name m self w arguments Hm).
  - exact (grows_refl (db w)).
Qed.

Lemma failure_not_succeeded e : ~ succeeded (failure e).
Proof. intros (d & Hd & Hs). inversion Hd; subst. discriminate. Qed.

Lemma not_in_booked_others d date time n b :
  str_in time (_get_booked_slots_from_db d date (Some n)) = false ->
  In b (appointments d) -> Appointment.id b <> n -> at_slot date time b = false.
Proof.
  intros Hfree%str_in_false Hb Hne.
  destruct (at_slot date time b) eqn:Hat; [|done].
  apply at_slot_true in Hat as (Hs & Hd & Ht).
  destruct (not_booked d date (Some n) time b Hfree Hb Hs Hd Ht). congruence.
Qed.

Ltac outcome_cases :=
  branches; intros Hrun; inversion Hrun; subst; clear Hrun;
  try (intros Hs; by apply failure_not_succeeded in Hs); intros Hs.

Lemma execute_succeeded rt c self w tool_name arguments result self' w' m :
  method rt c tool_name = Some m ->
  execute rt c self w tool_name arguments = (Ok result, self', w') ->
  succeeded result ->
  m self w arguments = (Ok result, self', w').
Proof.
  unfold execute. intros ->.
  destruct (m self w arguments) as [[[v|e] s1] w1]; intros Hrun Hs; inversion Hrun; subst.
  - done.
  - by apply failure_not_succeeded in Hs.
Qed.

(** X5 (what a successful modification does).  Whenever [modify_appointment]
    succeeds, one appointment was moved, the one whose id is the integer
    read from the [appointment_id] argument: it existed, belonged to the
    current user and was not cancelled; the new date and time the result
    reports are where it now is; no other appointment (any row with another
    id) was scheduled at that date and time; the table is otherwise
    unchanged, and so are Redis and the executor. *)
Theorem modify_moves_one_appointment rt c self w arguments result self' w' :
  execute rt c self w "modify_appointment" arguments = (Ok result, self', w') ->
  succeeded result ->
  exists d appointment_id n a date time,
    result = PDict d
    /\ args_get arguments "appointment_id" (PStr "") = Ok appointment_id
    /\ py_int appointment_id = Ok n
    /\ dict_lookup "appointment_id" d = Some appointment_id
    /\ dict_lookup "new_date" d = Some (PStr date)
    /\ dict_lookup "new_time" d = Some (PStr time)
    /\ find_appointment (db w) n = Some a
    /\ int_eq (Appointment.user_id a) (_get_current_user_id self (kv w)) = true
    /\ Appointment.status a <> "cancelled"
    /\ (forall b, In b (appointments (db w)) -> Appointment.id b <> n ->
          at_slot date time b = false)
    /\ db w' = update_appointment (db w) n (fun a => Appointment.with_slot a date time)
    /\ kv w' = kv w
    /\ self' = self.
Proof.
  intros Hrun Hs.
  apply (execute_succeeded rt c self w "modify_appointment" arguments result self' w'
           (_execute_modify_appointment rt c) eq_refl) in Hrun; [|done].
  revert Hrun Hs.
  unfold _execute_modify_appointment, modify_owned, not_authenticated, invalid_id.
  outcome_cases.
  - match goal with
    | H : _ = Ok (?id_arg, _, _) |- _ =>
        assert (Hid : args_get arguments "appointment_id" (PStr "") = Ok id_arg);
        [ destruct (args_get arguments "appointment_id" (PStr "")); [|discriminate];
          destruct (args_get arguments "new_date" PNone); [|discriminate];
          destruct (args_get arguments "new_time" PNone); [|discriminate];
          cbn in H; by inversion H
        | ]
    end.
    eexists _, _, _, _, _, _. split; [reflexivity|].
    split; [exact Hid|]. split; [eassumption|]. split; [reflexivity|].
    split; [reflexivity|]. split; [reflexivity|].
    split; [eassumption|]. split; [by apply negb_false_iff|].
    split; [by apply String.eqb_neq|].
    split; [intros b Hb Hne; by eapply not_in_booked_others|].
    done.
  - exfalso.
    repeat match goal with
           | H : context [if ?b then _ else _] |- _ => destruct b
           | H : context [match ?x with _ => _ end] |- _ => destruct x
           end; try discriminate;
    match goal with
    | H : Ok (inr _) = Ok (inr _) |- _ => inversion H; subst
    end.
    by apply failure_not_succeeded in Hs.
Qed.
Lemma insert_by_perm {A} (key : A -> string * string) x l :
  insert_by key x l ≡ₚ x :: l.
Proof.
  induction l as [|y l IH]; cbn; [done|].
  destruct (key_le (key y) (key x)); [|done].
  rewrite IH. apply perm_swap.
Qed.

Lemma sort_by_perm {A} (key : A -> string * string) l : sort_by key l ≡ₚ l.
Proof.
  unfold sort_by.
  assert (Hgen : forall acc, fold_left (fun acc x => insert_by key x acc) l acc ≡ₚ acc ++ l).
  { induction l as [|x l IH]; intros acc; cbn; [by rewrite app_nil_r|].
    rewrite IH, insert_by_perm. apply Permutation_middle. }
  apply Hgen.
Qed.

Lemma filter_perm {A} (p : A -> bool) l l' :
  l ≡ₚ l' -> List.filter p l ≡ₚ List.filter p l'.
Proof.
  induction 1 as [|x l l' _ IH|x y l|l l' l'' _ IH1 _ IH2]; cbn.
  - done.
  - destruct (p x); [by constructor | done].
  - destruct (p x), (p y); try done. apply perm_swap.
  - by etransitivity.
Qed.

Lemma filter_split_perm {A} (p q : A -> bool) l :
  (forall a, q a = negb (p a)) ->
  List.filter p l ++ List.filter q l ≡ₚ l.
Proof.
  intros Hq. induction l as [|a l IH]; cbn; [done|].
  rewrite Hq. destruct (p a); cbn.
  - by constructor.
  - rewrite <- Permutation_middle. by constructor.
Qed.

Lemma filter_true {A} (l : list A) : List.filter (fun _ => true) l = l.
Proof. induction l as [|a l IH]; cbn; congruence. Qed.

Lemma leb_ltb s1 s2 : String.leb s1 s2 = negb (String.ltb s2 s1).
Proof.
  unfold String.leb, String.ltb. rewrite (String.compare_antisym s2 s1).
  by destruct (s1 ?= s2)%string.
Qed.

(** X6 (what [retrieve_appointments] lists).  For the current user [u], a
    successful [retrieve_appointments] returns two lists, [upcoming] and
    [past], that together hold every appointment of [u] exactly once (the
    cancelled ones only when [include_cancelled] is truthy) and no
    appointment of anyone else; [total_count] is the sum of their lengths;
    every upcoming appointment is scheduled and dated today or later, and
    every past one is not scheduled or dated before today. *)
Theorem retrieve_lists_own_appointments rt c self w arguments result self' w' u :
  execute rt c self w "retrieve_appointments" arguments = (Ok result, self', w') ->
  succeeded result ->
  _get_current_user_id self (kv w) = PInt u ->
  exists d include_cancelled upcoming past,
    result = PDict d
    /\ args_get arguments "include_cancelled" (PBool false) = Ok include_cancelled
    /\ dict_lookup "upcoming" d = Some (PList (List.map PDict upcoming))
    /\ dict_lookup "past" d = Some (PList (List.map PDict past))
    /\ dict_lookup "total_count" d = Some (PInt (Z.of_nat (length upcoming + length past)))
    /\ upcoming ++ past
       ≡ₚ List.filter (shown include_cancelled) (List.map row_dict (of_user u (db w)))
    /\ (forall a, In a upcoming ->
          is_scheduled a = true
          /\ String.leb (Cal.strftime_iso (now c)) (item_str a "date") = true)
    /\ (forall a, In a past ->
          is_scheduled a = false
          \/ String.ltb (item_str a "date") (Cal.strftime_iso (now c)) = true).
Proof.
  intros Hrun Hs Hu.
  apply (execute_succeeded rt c self w "retrieve_appointments" arguments result self' w'
           (_execute_retrieve_appointments rt c) eq_refl) in Hrun; [|done].
  revert Hrun Hs.
  unfold _execute_retrieve_appointments, not_authenticated. rewrite Hu. cbn [bind_int].
  outcome_cases; clear Hs.
  all: destruct (args_get arguments "include_cancelled" (PBool false)) as [ic|e] eqn:Hic;
    cbn in Heqr; inversion Heqr; subst; clear Heqr.
  all: eexists _, _, _, _.
  all: split; [reflexivity|]. 
  all: split; [reflexivity|].
  all: split; [reflexivity|].
  all: split; [reflexivity|].
  all: split; [cbn; unfold count; do 3 f_equal;
               rewrite <- length_app;
               apply Permutation_length; symmetry; apply filter_split_perm;
               intros a; rewrite leb_ltb, negb_andb; by rewrite negb_involutive|].
  all: split; [rewrite filter_split_perm
                 by (intros a; rewrite leb_ltb, negb_andb; by rewrite negb_involutive);
               rewrite sort_by_perm; unfold _get_user_appointments_from_db, shown, of_user|].
  - apply negb_true_iff in Heqb0. rewrite Heqb0. cbn [orb].
    apply filter_perm, Permutation_map, sort_by_perm.
  - split; intros a [_ Ha]%filter_In.
    + apply andb_prop in Ha as [? ?]. by split.
    + apply orb_prop in Ha as [?|?%negb_true_iff]; auto.
  - apply negb_false_iff in Heqb0. rewrite Heqb0. cbn [orb].
    rewrite filter_true. apply Permutation_map, sort_by_perm.
  - split; intros a [_ Ha]%filter_In.
    + apply andb_prop in Ha as [? ?]. by split.
    + apply orb_prop in Ha as [?|?%negb_true_iff]; auto.
Qed.
Lemma space_not_digit c : Py.isspace c = true -> Py.is_digit c = false.
Proof. destruct c as [[] [] [] [] [] [] [] []]; vm_compute; congruence. Qed.

Lemma filter_digits_lstrip s : Py.filter_digits (Py.lstrip s) = Py.filter_digits s.
Proof.
  induction s as [|c s IH]; cbn; [done|].
  destruct (Py.isspace c) eqn:Hc; [|done].
  by rewrite (space_not_digit c Hc).
Qed.

Lemma filter_digits_rev_app s acc :
  Py.filter_digits (String.rev_app s acc)
  = String.rev_app (Py.filter_digits s) (Py.filter_digits acc).
Proof.
  revert acc. induction s as [|c s IH]; intros acc; cbn; [done|].
  rewrite IH. cbn. by destruct (Py.is_digit c).
Qed.

Lemma rev_app_rev_app s a b :
  String.rev_app (String.rev_app s a) b = String.rev_app a (s +:+ b).
Proof.
  revert a b. induction s as [|c s IH]; intros a b; [done|].
  change (String.rev_app (String.rev_app s (String c a)) b
          = String.rev_app a (String c (s +:+ b))).
  by rewrite IH.
Qed.

Lemma append_nil_r s : s +:+ "" = s.
Proof.
  induction s as [|c s IH]; [done|].
  change (String c (s +:+ "") = String c s). by rewrite IH.
Qed.

Lemma rev_rev s : String.rev (String.rev s) = s.
Proof. unfold String.rev. rewrite rev_app_rev_app. cbn. apply append_nil_r. Qed.

Lemma filter_digits_strip s : Py.filter_digits (Py.strip s) = Py.filter_digits s.
Proof.
  unfold Py.strip, Py.rstrip, String.rev.
  rewrite filter_digits_rev_app, filter_digits_lstrip, filter_digits_rev_app. cbn.
  fold (String.rev (Py.filter_digits (Py.lstrip s))).
  fold (String.rev (String.rev (Py.filter_digits (Py.lstrip s)))).
  by rewrite rev_rev, filter_digits_lstrip.
Qed.

(** X7 (what a successful [identify_user] establishes).  On an executor
    with no user of its own, [identify_user] succeeds only when the
    [contact_number] argument is a string with at least ten digits and a
    user is registered under exactly those digits (every other character of
    the argument is ignored); the executor then carries that user's id and
    name, the database is unchanged, and the account tools that follow run
    as that user. *)
Theorem identify_user_authenticates rt c self w arguments result self' w' :
  own_user_id self = None ->
  execute rt c self w "identify_user" arguments = (Ok result, self', w') ->
  succeeded result ->
  exists number user,
    args_get arguments "contact_number" (PStr "") = Ok (PStr number)
    /\ (10 <= String.length (Py.filter_digits number))%nat
    /\ find_user_by_contact (db w) (Py.filter_digits number) = Some user
    /\ user_id self' = Some (User.id user)
    /\ user_name self' = User.name user
    /\ db w' = db w
    /\ (User.id user <> 0%Z -> _get_current_user_id self' (kv w') = PInt (User.id user)).
Proof.
  intros Hnone Hrun Hs.
  apply (execute_succeeded rt c self w "identify_user" arguments result self' w'
           (_execute_identify_user rt) eq_refl) in Hrun; [|done].
  revert Hrun Hs.
  unfold _execute_identify_user. rewrite Hnone.
  outcome_cases; clear Hs.
  destruct (args_get arguments "contact_number" (PStr "")) as [v|e] eqn:Hv;
    [|discriminate].
  cbn in Heqr. destruct v; try discriminate. cbn in Heqr. inversion Heqr; subst.
  rewrite filter_digits_strip in *.
  exists a, t0. split; [done|].
  split; [apply Nat.ltb_ge in Heqb; lia|].
  split; [done|]. split; [done|]. split; [done|]. split; [done|].
  intros Hid. unfold _get_current_user_id. cbn [user_id].
  apply Z.eqb_neq in Hid. by rewrite Hid.
Qed.
End ExecutorProps.

(** * Times and dates *)

Module TimeProps.
Import ToolExecutor Clock.
Open Scope Z_scope.

Lemma all_from_spec n z p k :
  all_from n z p = true -> z <= k < z + Z.of_nat n -> p k = true.
Proof.
  revert z. induction n as [|n IH]; intros z Hall Hk; [lia|].
  cbn [all_from] in Hall. apply andb_prop in Hall as [Hz Hrest].
  destruct (Z.eq_dec k z) as [->|Hne]; [done|].
  apply (IH (z + 1)); [done | lia].
Qed.

Lemma normalizes_spec want text :
  normalizes want text = true -> _normalize_time (PStr text) = Ok want.
Proof.
  unfold normalizes. destruct (_normalize_time (PStr text)) as [t|e]; [|done].
  by intros ->%String.eqb_eq.
Qed.

Lemma all_12h pm :
  all_from 12 1 (fun h => all_from 60 0 (fun m => normalizes_12h pm h m)) = true.
Proof. destruct pm; vm_cast_no_check (eq_refl true). Qed.

Lemma all_24h :
  all_from 24 0 (fun h => all_from 60 0 (fun m => normalizes (hh_mm h m) (hh_mm h m))) = true.
Proof. vm_cast_no_check (eq_refl true). Qed.

(** X8 (times of the 12-hour clock).  For every hour from 1 to 12, every
    minute and each of the spellings of am and pm listed in [am_suffixes]
    and [pm_suffixes] (lower or upper case, with or without dots, with or
    without a space before), [_normalize_time] returns the time of the
    24-hour clock as [HH:MM]: 12 am is [00], 12 pm is [12], the other hours
    of the afternoon are twelve more; the hour alone gives minute [00]. *)
Theorem normalize_time_12_hour (h m : Z) (pm : bool) (suffix : string) :
  1 <= h <= 12 -> 0 <= m <= 59 ->
  In suffix (if pm then pm_suffixes else am_suffixes) ->
  _normalize_time (PStr (Py.str_of_Z h +:+ ":" +:+ Py.fmt_02d m +:+ suffix))
    = Ok (hh_mm (hour24 h pm) m)
  /\ _normalize_time (PStr (Py.str_of_Z h +:+ suffix)) = Ok (hh_mm (hour24 h pm) 0).
Proof.
  intros Hh Hm Hs.
  assert (Hrow : all_from 60 0 (fun m => normalizes_12h pm h m) = true)
    by (apply (all_from_spec 12 1 _ h (all_12h pm)); lia).
  assert (Hcell : normalizes_12h pm h m = true)
    by (apply (all_from_spec 60 0 _ m Hrow); lia).
  unfold normalizes_12h in Hcell. rewrite forallb_forall in Hcell.
  specialize (Hcell suffix Hs). apply andb_prop in Hcell as [H1 H2].
  split; by apply normalizes_spec.
Qed.

(** X9 (times already normalised).  A time written [HH:MM] on the 24-hour
    clock, with two digits each, is returned as it is: normalising is
    idempotent on its own results, and the catalog slots are among them. *)
Theorem normalize_time_24_hour h m :
  0 <= h <= 23 -> 0 <= m <= 59 ->
  _normalize_time (PStr (hh_mm h m)) = Ok (hh_mm h m).
Proof.
  intros Hh Hm.
  assert (Hrow : all_from 60 0 (fun m => normalizes (hh_mm h m) (hh_mm h m)) = true)
    by (apply (all_from_spec 24 0 _ h all_24h); lia).
  apply normalizes_spec. apply (all_from_spec 60 0 _ m Hrow). lia.
Qed.

(** *** The calendar *)

Lemma era_days_ok : all_from (Z.to_nat 146097) 0 era_day_ok = true.
Proof. vm_cast_no_check (eq_refl true). Qed.

Lemma civil_shift z k :
  Cal.civil_from_days (z + 146097 * k)
  = let '(y, m, d) := Cal.civil_from_days z in (y + 400 * k, m, d).
Proof.
  unfold Cal.civil_from_days.
  replace (z + 146097 * k + 719468) with (z + 719468 + k * 146097) by lia.
  rewrite Z.div_add by lia.
  replace (z + 719468 + k * 146097 - ((z + 719468) / 146097 + k) * 146097)
    with (z + 719468 - (z + 719468) / 146097 * 146097) by lia.
  set (doe := z + 719468 - (z + 719468) / 146097 * 146097).
  set (yoe := (doe - doe / 1460 + doe / 36524 - doe / 146096) / 365).
  cbv zeta.
  destruct (_ <=? 2); f_equal; f_equal; lia.
Qed.

Lemma days_shift y m d k :
  Cal.days_from_civil (y + 400 * k) m d = Cal.days_from_civil y m d + 146097 * k.
Proof.
  unfold Cal.days_from_civil. cbv zeta.
  destruct (m <=? 2).
  - replace (y + 400 * k - 1) with (y - 1 + k * 400) by lia.
    rewrite Z.div_add by lia.
    replace (y - 1 + k * 400 - ((y - 1) / 400 + k) * 400)
      with (y - 1 - (y - 1) / 400 * 400) by lia.
    lia.
  - replace (y + 400 * k) with (y + k * 400) by lia.
    rewrite Z.div_add by lia.
    replace (y + k * 400 - (y / 400 + k) * 400) with (y - y / 400 * 400) by lia.
    lia.
Qed.

Lemma civil_round_trip z :
  let '(y, m, d) := Cal.civil_from_days z in Cal.days_from_civil y m d = z.
Proof.
  set (k := (z + 719468) / 146097).
  set (z0 := z - 146097 * k).
  assert (Hz0 : 0 <= z0 + 719468 < 146097).
  { subst z0 k. pose proof (Z.div_mod (z + 719468) 146097 ltac:(lia)).
    pose proof (Z.mod_pos_bound (z + 719468) 146097 ltac:(lia)). lia. }
  assert (Hok : era_day_ok (z0 + 719468) = true).
  { apply (all_from_spec (Z.to_nat 146097) 0 _ _ era_days_ok). lia. }
  unfold era_day_ok in Hok.
  replace (z0 + 719468 - 719468) with z0 in Hok by lia.
  replace z with (z0 + 146097 * k) by (subst z0; lia).
  rewrite civil_shift.
  destruct (Cal.civil_from_days z0) as [[y m] d].
  rewrite days_shift. apply Z.eqb_eq in Hok. lia.
Qed.

Lemma add_days_ordinal t n d :
  Cal.add_days t n = Ok d ->
  Cal.ordinal d = Cal.ordinal t + n /\ dt_micros d = dt_micros t.
Proof.
  unfold Cal.add_days.
  pose proof (civil_round_trip (Cal.ordinal t + n)) as Hrt.
  destruct (Cal.civil_from_days (Cal.ordinal t + n)) as [[y m] dd].
  destruct (_ && _); [|done]. intros [= <-]. by split.
Qed.

Lemma weekday_range t : 0 <= Cal.weekday t <= 6.
Proof. unfold Cal.weekday. pose proof (Z.mod_pos_bound (Cal.ordinal t + 3) 7). lia. Qed.

(** The loop over the weekday names stops at the first one the text
    contains. *)
Lemma next_weekday_first today text days :
  forall k i day,
    nth_error days i = Some day ->
    Py.contains day text = true ->
    (forall j day', (j < i)%nat -> nth_error days j = Some day' ->
                    Py.contains day' text = false) ->
    next_weekday today text k days
    = Some (Cal.add_days today
              (let ahead := k + Z.of_nat i - Cal.weekday today in
               if ahead <=? 0 then ahead + 7 else ahead)).
Proof.
  induction days as [|d0 days IH]; intros k i day Hnth Hc Hfirst.
  - by destruct i.
  - destruct i as [|i]; cbn in Hnth.
    + inversion Hnth; subst. cbn [next_weekday]. rewrite Hc. cbv zeta.
      by replace (k + Z.of_nat 0) with k by lia.
    + cbn [next_weekday].
      rewrite (Hfirst 0%nat d0) by (cbn; done || lia).
      rewrite (IH (k + 1) i day Hnth Hc).
      * cbv zeta. by replace (k + 1 + Z.of_nat i) with (k + Z.of_nat (S i)) by lia.
      * intros j day' Hj Hnth'. apply (Hfirst (S j) day'); [lia | done].
Qed.

Lemma contains_next_not_relative text :
  Py.contains "next" text = true ->
  str_in text ["today"; "now"] = false
  /\ String.eqb text "tomorrow" = false
  /\ String.eqb text "day after tomorrow" = false.
Proof.
  intros Hc. unfold str_in. cbn [existsb].
  repeat split;
    repeat match goal with
           | |- context [String.eqb ?a ?b] =>
               destruct (String.eqb_spec a b) as [Heq|_];
               [rewrite Heq in Hc; vm_compute in Hc; discriminate|]
           end; reflexivity.
Qed.

(** X10 (next weekday).  When the date text, lower-cased and stripped,
    contains [next] and the name of a weekday (the first of Monday to Sunday
    it contains decides), the date [_parse_date] returns falls on that
    weekday, is between one and seven days after today (a week later when
    today is that weekday), and keeps the time of day of the clock. *)
Theorem parse_date_next_weekday rt c s i day d :
  let text := Py.strip (Py.lower s) in
  Py.contains "next" text = true ->
  nth_error next_weekdays i = Some day ->
  Py.contains day text = true ->
  (forall j day', (j < i)%nat -> nth_error next_weekdays j = Some day' ->
                  Py.contains day' text = false) ->
  _parse_date rt c (PStr s) = Ok d ->
  Cal.weekday d = Z.of_nat i
  /\ 1 <= Cal.ordinal d - Cal.ordinal (now c) <= 7
  /\ dt_micros d = dt_micros (now c).
Proof.
  intros text Hnext Hnth Hc Hfirst.
  unfold _parse_date. cbn [str_method mbind res_bind]. fold text.
  destruct (contains_next_not_relative text Hnext) as (-> & -> & ->).
  rewrite Hnext.
  rewrite (next_weekday_first (now c) text next_weekdays 0 i day Hnth Hc Hfirst).
  cbv zeta. intros Hadd. apply add_days_ordinal in Hadd as [Hord Hmic].
  assert (Hi : (i < length next_weekdays)%nat)
    by (apply nth_error_Some; rewrite Hnth; discriminate).
  cbn in Hi.
  pose proof (weekday_range (now c)) as Hwd.
  split; [|split; [|done]].
  - unfold Cal.weekday in *. rewrite Hord.
    destruct (_ <=? 0) eqn:Hle; [apply Z.leb_le in Hle | apply Z.leb_gt in Hle].
    all: revert Hle Hwd; generalize (Cal.ordinal (now c)); intros o Hle Hwd.
    all: Z.div_mod_to_equations; lia.
  - rewrite Hord.
    destruct (_ <=? 0) eqn:Hle; [apply Z.leb_le in Hle | apply Z.leb_gt in Hle]; lia.
Qed.

End TimeProps.

(** * The session store *)

Module SessionProps.
Import session_manager Sessions History HistoryFacts.

Lemma key_inj s1 s2 : _key s1 = _key s2 -> s1 = s2.
Proof. unfold _key, namespace. intros Heq. cbn in Heq. by inversion Heq. Qed.

Lemma key_not_conversation_key s1 s2 : _key s1 <> _conversation_key s2.
Proof. unfold _key, _conversation_key. cbn. intros Heq. inversion Heq. Qed.

Lemma conversation_key_ne s1 s2 : s1 <> s2 -> _conversation_key s1 <> _conversation_key s2.
Proof. intros Hne Heq. by apply Hne, conversation_key_inj. Qed.

Lemma key_ne s1 s2 : s1 <> s2 -> _key s1 <> _key s2.
Proof. intros Hne Heq. by apply Hne, key_inj. Qed.

(** What the primitive writes do to the other keys. *)
Lemma hset_hashes_ne r key f v key' :
  key <> key' -> hashes (Redis.hset r key f v) !! key' = hashes r !! key'.
Proof. intros Hne. cbn. by rewrite lookup_insert_ne. Qed.

Lemma delete_hashes_ne r key key' :
  key <> key' -> hashes (Redis.delete r key) !! key' = hashes r !! key'.
Proof. intros Hne. cbn. by rewrite lookup_delete_ne. Qed.

Lemma delete_lists_ne r key key' :
  key <> key' -> lists (Redis.delete r key) !! key' = lists r !! key'.
Proof. intros Hne. cbn. by rewrite lookup_delete_ne. Qed.

Lemma rpush_lists_ne r key v key' :
  key <> key' -> lists (Redis.rpush r key v) !! key' = lists r !! key'.
Proof. intros Hne. cbn. by rewrite lookup_insert_ne. Qed.

Lemma ltrim_lists_ne r key n key' :
  key <> key' -> lists (Redis.ltrim_last r key n) !! key' = lists r !! key'.
Proof.
  intros Hne. unfold Redis.ltrim_last. destruct (lists r !! key); [|done].
  cbn. by rewrite lookup_insert_ne.
Qed.

Lemma ltrim_hashes r key n : hashes (Redis.ltrim_last r key n) = hashes r.
Proof. unfold Redis.ltrim_last. by destruct (lists r !! key). Qed.

Lemma set_field_hashes_ne f r sid v key' :
  _key sid <> key' -> hashes (set_field f r sid v) !! key' = hashes r !! key'.
Proof.
  intros Hne. unfold set_field. destruct (Redis.exists_ _ _); [|done].
  by apply hset_hashes_ne.
Qed.

Lemma set_field_lists f r sid v : lists (set_field f r sid v) = lists r.
Proof. unfold set_field. by destruct (Redis.exists_ _ _). Qed.

Lemma set_metadata_hashes_ne r sid f v key' :
  _key sid <> key' -> hashes (set_metadata r sid f v) !! key' = hashes r !! key'.
Proof.
  intros Hne. unfold set_metadata. destruct (Redis.exists_ _ _); [|done].
  by apply hset_hashes_ne.
Qed.

Lemma set_metadata_lists r sid f v : lists (set_metadata r sid f v) = lists r.
Proof. unfold set_metadata. by destruct (Redis.exists_ _ _). Qed.

Lemma apply_other_keys r sid op sid' :
  sid <> sid' ->
  hashes (apply r sid op) !! _key sid' = hashes r !! _key sid'
  /\ lists (apply r sid op) !! _conversation_key sid' = lists r !! _conversation_key sid'.
Proof.
  intros Hne.
  pose proof (key_ne _ _ Hne) as Hk.
  pose proof (conversation_key_ne _ _ Hne) as Hc.
  pose proof (key_not_conversation_key sid sid') as Hkc.
  assert (Hck : _conversation_key sid <> _key sid')
    by (intros Heq; by apply (key_not_conversation_key sid' sid)).
  destruct op; cbn [apply].
  - unfold create_session. cbn [snd fold_left fst].
    split; [by rewrite !hset_hashes_ne|done].
  - unfold set_user. by rewrite set_field_hashes_ne, set_field_lists.
  - unfold set_status. by rewrite set_field_hashes_ne, set_field_lists.
  - unfold set_ws_active. by rewrite set_field_hashes_ne, set_field_lists.
  - unfold init_conversation. split; [cbn; by rewrite lookup_delete_ne|].
    by rewrite rpush_lists_ne, delete_lists_ne.
  - unfold add_message. split; [by rewrite ltrim_hashes|].
    by rewrite ltrim_lists_ne, rpush_lists_ne.
  - unfold clear_conversation. by rewrite delete_hashes_ne, delete_lists_ne.
  - unfold remove. by rewrite !delete_hashes_ne, !delete_lists_ne.
  - by rewrite set_metadata_hashes_ne, set_metadata_lists.
Qed.

(** X11 (sessions do not interfere in the store).  Whatever the session
    manager writes for one session (creating it, setting its user, status or
    activity flag, initialising, extending or clearing its conversation,
    removing it, storing metadata), every other session reads as before: its
    fields, its metadata, its conversation and its count of user turns. *)
Theorem sessions_do_not_interfere r sid op sid' :
  sid <> sid' ->
  get (apply r sid op) sid' = get r sid'
  /\ get_conversation (apply r sid op) sid' = get_conversation r sid'
  /\ get_user_turn_count (apply r sid op) sid' = get_user_turn_count r sid'
  /\ (forall name, field (apply r sid op) sid' name = field r sid' name)
  /\ (forall name default,
        get_metadata (apply r sid op) sid' name default
        = get_metadata r sid' name default).
Proof.
  intros Hne. destruct (apply_other_keys r sid op sid' Hne) as [Hh Hl].
  unfold get, get_user_turn_count, get_conversation, Redis.lrange_all, field, get_metadata,
    Redis.hget.
  rewrite Hh, Hl. repeat split.
Qed.

Lemma removed_no_key r sid : Redis.exists_ (remove r sid) (_key sid) = false.
Proof.
  unfold remove, Redis.exists_. cbn.
  assert (Hne : _conversation_key sid <> _key sid)
    by (intros Heq; by apply (key_not_conversation_key sid sid)).
  rewrite !(lookup_delete_ne _ _ _ Hne). by rewrite !lookup_delete_eq.
Qed.

Lemma remove_reads r sid :
  hashes (remove r sid) !! _key sid = None
  /\ lists (remove r sid) !! _conversation_key sid = None.
Proof.
  assert (Hne : _conversation_key sid <> _key sid)
    by (intros Heq; by apply (key_not_conversation_key sid sid)).
  unfold remove. cbn. rewrite (lookup_delete_ne _ _ _ Hne). by rewrite !lookup_delete_eq.
Qed.

Lemma remove_gone r sid :
  get (remove r sid) sid = None /\ get_conversation (remove r sid) sid = [].
Proof.
  destruct (remove_reads r sid) as [Hh Hl].
  unfold get, get_conversation, Redis.lrange_all. by rewrite Hh, Hl.
Qed.

(** X12 (a removed session is gone).  After [remove], the session has no
    fields, no metadata and no conversation, and its count of user turns is
    zero; setting a field or metadata of it afterwards changes nothing (the
    session is not created again); but [add_message] does start a new
    conversation for it, holding that one message and no system prompt. *)
Theorem removed_session_is_gone r sid :
  let r' := remove r sid in
  get r' sid = None
  /\ get_conversation r' sid = []
  /\ get_user_turn_count r' sid = 0
  /\ (forall name default, get_metadata r' sid name default = default)
  /\ (forall name v, set_field name r' sid v = r')
  /\ (forall name v, set_metadata r' sid name v = r')
  /\ (forall role content tool_calls tool_call_id name,
        get_conversation (add_message r' sid role content tool_calls tool_call_id name) sid
        = [message role content tool_calls tool_call_id name]).
Proof.
  intros r'. pose proof (removed_no_key r sid) as Hex. fold r' in Hex.
  destruct (remove_reads r sid) as [Hh Hl]. fold r' in Hh, Hl.
  split; [unfold get; by rewrite Hh|].
  split; [unfold get_conversation, Redis.lrange_all; by rewrite Hl|].
  split; [unfold get_user_turn_count, get_conversation, Redis.lrange_all; by rewrite Hl|].
  split; [intros name default; unfold get_metadata, Redis.hget; by rewrite Hh|].
  split; [intros name v; unfold set_field; by rewrite Hex|].
  split; [intros name v; unfold set_metadata; by rewrite Hex|].
  intros role content tool_calls tool_call_id name.
  unfold get_conversation, add_message, Redis.lrange_all, Redis.ltrim_last, Redis.rpush.
  cbn [lists]. rewrite lookup_insert_eq. cbn [lists]. rewrite lookup_insert_eq, Hl. reflexivity.
Qed.

End SessionProps.

(** * The cost ledger *)

Module CostProps.
Import CostTracker Costs.
Open Scope Z_scope.

Lemma cost_key_inj s1 s2 : _key s1 = _key s2 -> s1 = s2.
Proof. unfold _key, COST_KEY_PREFIX. intros Heq. cbn in Heq. by inversion Heq. Qed.

Lemma counters_now r sid now now' :
  counters (_get_data r sid now) = counters (_get_data r sid now').
Proof. unfold _get_data. by destruct (costs r !! _key sid). Qed.

Lemma track_counters r e sid now :
  counters (_get_data (track r e) sid now)
  = if String.eqb (e_session e) sid
    then plus (counters (_get_data r sid now)) (adds (e_usage e))
    else counters (_get_data r sid now).
Proof.
  destruct (String.eqb_spec (e_session e) sid) as [<-|Hne].
  - rewrite (counters_now r (e_session e) now (e_utcnow e)).
    unfold track. destruct (e_usage e); unfold track_stt, track_llm, track_tts, track_tavus,
      _save_data, Redis.set_cost, _get_data at 1; cbn [costs];
      rewrite lookup_insert_eq; unfold counters, plus, adds; cbn; repeat f_equal; lia.
  - assert (Hk : _key (e_session e) <> _key sid) by (intros Heq; by apply Hne, cost_key_inj).
    unfold track. destruct (e_usage e); unfold track_stt, track_llm, track_tts, track_tavus,
      _save_data, Redis.set_cost, _get_data at 1; cbn [costs];
      rewrite (lookup_insert_ne _ _ _ _ Hk); reflexivity.
Qed.

Lemma plus_0_l a : plus (0, 0, 0, 0, 0, 0) a = a.
Proof. by destruct a as [[[[[? ?] ?] ?] ?] ?]. Qed.

Lemma tracked_counters events sid now :
  forall r acc,
    counters (_get_data r sid now) = acc ->
    counters (_get_data (fold_left track events r) sid now)
    = fold_left (fun acc e => if String.eqb (e_session e) sid
                              then plus acc (adds (e_usage e)) else acc) events acc.
Proof.
  induction events as [|e events IH]; intros r acc Hacc; cbn [fold_left]; [done|].
  apply IH. rewrite track_counters, Hacc. reflexivity.
Qed.

(** X17 (the cost ledger adds up).  Starting from a store with no record
    for a session, after any sequence of tracked uses, for any sessions, the
    record of that session holds the sums of the input tokens, the output
    tokens and the characters tracked for it, and the numbers of speech,
    LLM and synthesis requests tracked for it; uses tracked for other
    sessions do not count. *)
Theorem cost_ledger_totals r events sid now :
  costs r !! _key sid = None ->
  counters (_get_data (fold_left track events r) sid now) = total sid events.
Proof.
  intros Hnone. apply tracked_counters. unfold _get_data. by rewrite Hnone.
Qed.

End CostProps.

(** * The websocket handler *)

Module VoiceProps.
Import session_manager Sessions History HistoryFacts SessionProps voice Steps.

Lemma exists_hset r key f v : Redis.exists_ (Redis.hset r key f v) key = true.
Proof. unfold Redis.exists_, Redis.hset. cbn. by rewrite lookup_insert_eq. Qed.

Lemma exists_of_hash r key h : hashes r !! key = Some h -> Redis.exists_ r key = true.
Proof. unfold Redis.exists_. by intros ->. Qed.

Lemma set_field_hash f r sid v h :
  hashes r !! _key sid = Some h ->
  set_field f r sid v = Redis.hset r (_key sid) f v
  /\ hashes (set_field f r sid v) !! _key sid = Some (<[f := v]> h)
  /\ lists (set_field f r sid v) = lists r
  /\ costs (set_field f r sid v) = costs r.
Proof.
  intros Hh. unfold set_field. rewrite (exists_of_hash r _ h Hh).
  split; [done|]. unfold Redis.hset. cbn. rewrite lookup_insert_eq, Hh. done.
Qed.

Lemma set_metadata_hash r sid f v h :
  hashes r !! _key sid = Some h ->
  hashes (set_metadata r sid f v) !! _key sid = Some (<["meta:" +:+ f := v]> h)
  /\ lists (set_metadata r sid f v) = lists r.
Proof.
  intros Hh. unfold set_metadata. rewrite (exists_of_hash r _ h Hh).
  unfold Redis.hset. cbn. by rewrite lookup_insert_eq, Hh.
Qed.

Lemma get_of_hash r sid f v h :
  hashes r !! _key sid = Some (<[f := v]> h) -> get r sid = Some (<[f := v]> h).
Proof.
  intros Hh. unfold get. rewrite Hh.
  destruct (size (<[f := v]> h) =? 0)%nat eqn:Hsz; [|done].
  apply Nat.eqb_eq, map_size_empty_iff in Hsz.
  by apply insert_non_empty in Hsz.
Qed.

Lemma create_session_hash r sid created start :
  exists h, hashes (snd (create_session r sid created start)) !! _key sid
            = Some (<["ws_active" := PStr "0"]> h)
    /\ lists (snd (create_session r sid created start)) = lists r.
Proof.
  unfold create_session. cbn [snd fold_left fst]. unfold Redis.hset. cbn.
  rewrite !lookup_insert_eq. cbn. eexists. split; reflexivity.
Qed.

Lemma stored_call_data tc : stored_call (call_data tc) = tc.
Proof. by destruct tc. Qed.

Lemma stored_calls_data calls : List.map stored_call (List.map call_data calls) = calls.
Proof.
  induction calls as [|tc calls IH]; cbn [List.map]; [done|].
  by rewrite stored_call_data, IH.
Qed.

(** X15 (the history reads back what the agent loop wrote).  A message the
    loop stores with [add_message] and reads back as an [LLMMessage] is the
    message it meant: an assistant message with tool calls comes back with
    the same calls (ids, names and arguments), a tool result with its call
    id and tool name, and any other message with its role and text, a role
    that is none of system, user, assistant and tool being read as user. *)
Theorem history_round_trip :
  (forall text calls,
      calls <> [] ->
      _redis_message_to_llm_message
        (message "assistant" text (PList (List.map call_data calls)) PNone PNone)
      = {| role := "assistant"; content := PStr text; name := PNone; tool_call_id := PNone;
           tool_calls := calls |})
  /\ (forall text tc,
        tc_id tc <> "" -> tc_name tc <> "" ->
        _redis_message_to_llm_message
          (message "tool" text PNone (PStr (tc_id tc)) (PStr (tc_name tc)))
        = {| role := "tool"; content := PStr text; name := PStr (tc_name tc);
             tool_call_id := PStr (tc_id tc); tool_calls := [] |})
  /\ (forall role text,
        role <> "tool" ->
        _redis_message_to_llm_message (message role text PNone PNone PNone)
        = {| role := if ToolExecutor.str_in role message_roles then role else "user";
             content := PStr text; name := PNone; tool_call_id := PNone; tool_calls := [] |}).
Proof.
  split; [|split].
  - intros text calls Hcalls. unfold message, optional_item.
    destruct calls as [|tc calls]; [done|].
    transitivity
      {| role := "assistant"; content := PStr text; name := PNone; tool_call_id := PNone;
         tool_calls := List.map stored_call (List.map call_data (tc :: calls)) |};
      [reflexivity|].
    by rewrite stored_calls_data.
  - intros text tc Hid Hname. unfold message, optional_item. cbn [truthy].
    apply String.eqb_neq in Hid, Hname. rewrite Hid, Hname. reflexivity.
  - intros role text Hrole. unfold message, optional_item. cbn [truthy app].
    unfold _redis_message_to_llm_message.
    cbn [m_get dict_get dict_lookup String.eqb Ascii.eqb Bool.eqb truthy andb].
    apply String.eqb_neq in Hrole. rewrite Hrole.
    by rewrite andb_false_r.
Qed.

Section Handler.
Context {D : Type} `{Deepgram D}.

Lemma on_audio_chunk_session sv tk (c : conn (D := D)) st msg :
  same_session c (on_audio_chunk sv tk c st msg).
Proof.
  unfold on_audio_chunk.
  repeat match goal with
         | |- context [match ?x with _ => _ end] => destruct x eqn:?
         | |- context [if ?b then _ else _] => destruct b eqn:?
         end; cbn [same_session]; try reflexivity.
Qed.

Lemma on_end_of_speech_session sv tk (c : conn (D := D)) st msg :
  same_session c (on_end_of_speech sv tk c st msg).
Proof.
  unfold on_end_of_speech.
  repeat match goal with
         | |- context [match ?x with _ => _ end] => destruct x eqn:?
         | |- context [if ?b then _ else _] => destruct b eqn:?
         end; cbn [same_session]; try reflexivity.
Qed.

Lemma on_text_input_session sv tk (c : conn (D := D)) st msg :
  same_session c (on_text_input sv tk c st msg).
Proof.
  unfold on_text_input.
  repeat match goal with
         | |- context [match ?x with _ => _ end] => destruct x eqn:?
         | |- context [if ?b then _ else _] => destruct b eqn:?
         end; cbn [same_session]; try reflexivity.
Qed.

Lemma on_message_session sv tk (c : conn (D := D)) st raw :
  same_session c (on_message sv tk c st raw).
Proof.
  unfold on_message.
  destruct (Json.loads raw) as [[| | | | | |msg]|]; try reflexivity.
  destruct (negb _); [reflexivity|].
  pose proof (on_audio_chunk_session sv tk c st msg) as Ha.
  pose proof (on_end_of_speech_session sv tk c st msg) as Hb.
  pose proof (on_text_input_session sv tk c st msg) as Hd.
  assert (Hc : same_session c (on_end_call sv tk c st)) by reflexivity.
  assert (He : same_session c (Continue c st)) by reflexivity.
  destruct (dict_get msg "type" PNone) as [| | | |s| |]; try exact He.
  repeat match goal with
         | |- context [match ?x with EmptyString => _ | String _ _ => _ end] =>
             destruct x as [|[[|] [|] [|] [|] [|] [|] [|] [|]] ?];
             try exact He; try exact Ha; try exact Hb; try exact Hc; try exact Hd
         end.
Qed.

Lemma release_is_remove r sid : exists r', release r sid = remove r' sid.
Proof. unfold release. by eexists. Qed.

Lemma serve_releases sv incoming :
  forall (c : conn (D := D)) st,
    exists r, kv (w (serve sv c st incoming)) = remove r (session_id c).
Proof.
  induction incoming as [|[tk raw] rest IH]; intros c st; cbn [serve].
  - unfold cleanup, with_kv_of. cbn. apply release_is_remove.
  - pose proof (on_message_session sv tk c st raw) as Hs.
    destruct (on_message sv tk c st raw) as [c' st'|c' st'|e c' st']; cbn in Hs; rewrite <- Hs.
    + apply IH.
    + unfold cleanup, with_kv_of. cbn. apply release_is_remove.
    + unfold cleanup, with_kv_of. cbn. apply release_is_remove.
Qed.


(** X16 (every text input is answered).  For a [text_input] message whose
    text is a string that is not blank, the handler goes on with the next
    message (it neither closes nor fails), and the last frame it has sent is
    an [audio_response] carrying the stripped text as [user_transcript]:
    whether the agent loop and the speech synthesis succeed or raise. *)
Theorem text_input_is_answered sv tk (c : conn (D := D)) st msg text :
  dict_get msg "text" (PStr "") = PStr text ->
  Py.strip text <> "" ->
  exists st' doc,
    on_text_input sv tk c st msg = Continue c st'
    /\ last (sent st') = Some (Text (PDict doc))
    /\ dict_lookup "type" doc = Some (PStr "audio_response")
    /\ dict_lookup "user_transcript" doc = Some (PStr (Py.strip text)).
Proof.
  intros Htext Hne. unfold on_text_input. rewrite Htext. cbn [str_method].
  apply String.eqb_neq in Hne. rewrite Hne.
  destruct (run_agent _ _ _ _) as [[[reply ending]|e] st1].
  - destruct (synthesize_speech sv reply) as [tts|e].
    + eexists _, _. split; [reflexivity|]. unfold send_text. cbn [sent].
      rewrite last_snoc. split; [reflexivity|]. by split.
    + eexists _, _. split; [reflexivity|]. unfold send_text. cbn [sent].
      rewrite last_snoc. split; [reflexivity|]. by split.
  - eexists _, _. split; [reflexivity|]. unfold send_text. cbn [sent].
    rewrite last_snoc. split; [reflexivity|]. by split.
Qed.

End Handler.

End VoiceProps.

(** * The LLM proxy *)

(** ** The matcher on the patterns of the parser *)

Module RegexFacts.
Import Re Text.

Lemma length_append a b : String.length (a +:+ b) = String.length a + String.length b.
Proof.
  induction a as [|c a IH]; [done|].
  change (String c a +:+ b) with (String c (a +:+ b)). cbn [String.length]. by rewrite IH.
Qed.

Lemma append_assoc a b c : (a +:+ b) +:+ c = a +:+ (b +:+ c).
Proof.
  induction a as [|x a IH]; [done|].
  change (String x ((a +:+ b) +:+ c) = String x (a +:+ (b +:+ c))). by rewrite IH.
Qed.

Lemma take_append a b : take (String.length a) (a +:+ b) = a.
Proof.
  induction a as [|c a IH]; [by destruct b|].
  change (String c a +:+ b) with (String c (a +:+ b)). cbn [String.length take]. by rewrite IH.
Qed.

Lemma consumed_append a b : consumed (a +:+ b) b = a.
Proof.
  unfold consumed. rewrite length_append.
  replace (String.length a + String.length b - String.length b) with (String.length a) by lia.
  apply take_append.
Qed.

Lemma drop_prefix_append p s : drop_prefix p (p +:+ s) = Some s.
Proof.
  induction p as [|c p IH]; [done|].
  change (String c p +:+ s) with (String c (p +:+ s)). cbn [drop_prefix].
  by rewrite Ascii.eqb_refl.
Qed.

Section Matcher.
Context {R : Type}.
Implicit Types k : string -> list string -> option R.

Lemma run_lit p fuel s caps k : run (Lit p) fuel (p +:+ s) caps k = k s caps.
Proof. cbn [run]. by rewrite drop_prefix_append. Qed.

Lemma run_chr c fuel s caps k : run (chr c) fuel (String c s) caps k = k s caps.
Proof. unfold chr. cbn [run]. by rewrite Ascii.eqb_refl. Qed.

Lemma run_chr_ne c x fuel s caps k :
  Ascii.eqb c x = false -> run (chr c) fuel (String x s) caps k = None.
Proof. unfold chr. cbn [run]. by intros ->. Qed.

Lemma run_grp a fuel s caps k :
  run (Grp a) fuel s caps k
  = run a fuel s caps (fun s' caps' => k s' (caps' ++ [consumed s s'])%list).
Proof. reflexivity. Qed.

Lemma run_seq a b fuel s caps k :
  run (Seq a b) fuel s caps k = run a fuel s caps (fun s' caps' => run b fuel s' caps' k).
Proof. reflexivity. Qed.

Lemma run_opt a fuel s caps k :
  run (Opt a) fuel s caps k
  = match run a fuel s caps k with
    | Some x => Some x
    | None => k s caps
    end.
Proof. reflexivity. Qed.

Lemma run_cls_char p c fuel s caps k :
  run (Cls p) fuel (String c s) caps k = if p c then k s caps else None.
Proof. reflexivity. Qed.

Lemma run_star_cls p fuel s caps k :
  run (Star (Cls p)) fuel s caps k = star_cls p k fuel s caps.
Proof. reflexivity. Qed.

Lemma run_plus_cls p fuel s caps k :
  run (Plus (Cls p)) fuel s caps k = run (Cls p) fuel s caps (star_cls p k fuel).
Proof. reflexivity. Qed.

Lemma star_cls_success p k name rest caps x :
  forall n,
    all_chars p name = true -> String.length name <= n -> stops p rest = true ->
    k rest caps = Some x ->
    star_cls p k n (name +:+ rest) caps = Some x.
Proof.
  induction name as [|c name IH]; intros n Hall Hlen Hstop Hk.
  - change ("" +:+ rest) with rest. destruct n as [|n]; [done|].
    cbn [star_cls run]. destruct rest as [|c rest]; [by rewrite Hk|].
    cbn in Hstop. apply negb_true_iff in Hstop. by rewrite Hstop, Hk.
  - change (String c name +:+ rest) with (String c (name +:+ rest)).
    cbn in Hall. apply andb_prop in Hall as [Hc Hall].
    destruct n as [|n]; [cbn in Hlen; lia|].
    cbn [star_cls run]. rewrite Hc.
    assert (Hsh : shorter (name +:+ rest) (String c (name +:+ rest)) = true)
      by (unfold shorter; cbn [String.length]; apply Nat.ltb_lt; lia).
    rewrite Hsh. fold (star_cls p k n (name +:+ rest) caps).
    rewrite (IH n); [done|done|cbn in Hlen; lia|done|done].
Qed.

Lemma star_cls_failure p k name rest caps :
  forall n,
    all_chars p name = true -> stops p rest = true ->
    (forall c t, p c = true -> k (String c t) caps = None) ->
    k rest caps = None ->
    star_cls p k n (name +:+ rest) caps = None.
Proof.
  induction name as [|c name IH]; intros n Hall Hstop Hword Hrest.
  - change ("" +:+ rest) with rest. destruct n as [|n]; [done|].
    cbn [star_cls run]. destruct rest as [|c rest]; [by rewrite Hrest|].
    cbn in Hstop. apply negb_true_iff in Hstop. by rewrite Hstop, Hrest.
  - change (String c name +:+ rest) with (String c (name +:+ rest)).
    cbn in Hall. apply andb_prop in Hall as [Hc Hall].
    destruct n as [|n]; [by apply Hword|].
    cbn [star_cls run]. rewrite Hc.
    destruct (shorter _ _); [|by apply Hword].
    fold (star_cls p k n (name +:+ rest) caps).
    rewrite (IH n); [by apply Hword|done|done|done|done].
Qed.

Lemma all_chars_impl (p q : ascii -> bool) s :
  (forall c, p c = true -> q c = true) -> all_chars p s = true -> all_chars q s = true.
Proof.
  intros Hpq. induction s as [|c s IH]; [done|]. cbn.
  intros [Hc Hs]%andb_prop. by rewrite (Hpq c Hc), IH.
Qed.

(** The group of a tool name. *)
Lemma run_name k name rest fuel caps x :
  is_name name = true -> stops Py.is_word rest = true -> String.length name <= fuel ->
  k rest (caps ++ [name])%list = Some x ->
  run (Grp (Plus word)) fuel (name +:+ rest) caps k = Some x.
Proof.
  unfold is_name. intros [Hne Hall]%andb_prop Hstop Hlen Hk.
  destruct name as [|c name]; [done|].
  cbn [all_chars] in Hall. apply andb_prop in Hall as [Hc Hall].
  rewrite run_grp. unfold word. rewrite run_plus_cls.
  change (String c name +:+ rest) with (String c (name +:+ rest)) at 1.
  rewrite run_cls_char, Hc.
  apply star_cls_success; [done|cbn in Hlen; lia|done|].
  by rewrite consumed_append.
Qed.

Lemma run_name_failure k name rest fuel caps :
  is_name name = true -> stops Py.is_word rest = true ->
  (forall c t caps', Py.is_word c = true -> k (String c t) caps' = None) ->
  (forall caps', k rest caps' = None) ->
  run (Grp (Plus word)) fuel (name +:+ rest) caps k = None.
Proof.
  unfold is_name. intros [Hne Hall]%andb_prop Hstop Hword Hrest.
  destruct name as [|c name]; [done|].
  cbn [all_chars] in Hall. apply andb_prop in Hall as [Hc Hall].
  rewrite run_grp. unfold word. rewrite run_plus_cls.
  change (String c name +:+ rest) with (String c (name +:+ rest)) at 1.
  rewrite run_cls_char, Hc.
  apply star_cls_failure; [done|done| |done].
  intros c' t Hc'. by apply Hword.
Qed.

(** The group of an argument object. *)
Lemma run_payload k body rest fuel caps x :
  is_body body = true -> String.length body <= fuel ->
  k rest (caps ++ ["{" +:+ body +:+ "}"])%list = Some x ->
  run llm_proxy.payload fuel (String "{" (body +:+ String "}" rest)) caps k = Some x.
Proof.
  unfold is_body. intros [Hne Hall]%andb_prop Hlen Hk.
  destruct body as [|c body]; [done|].
  assert (Hnot : all_chars (fun x => negb (Ascii.eqb "}" x)) (String c body) = true).
  { revert Hall. apply all_chars_impl. unfold is_not. by intros y [? _]%andb_prop. }
  cbn [all_chars] in Hnot. apply andb_prop in Hnot as [Hc Hnot].
  unfold llm_proxy.payload. cbn [seq]. rewrite run_grp, run_seq, run_chr, run_seq.
  unfold not_chr. rewrite run_plus_cls.
  change (String c body +:+ String "}" rest) with (String c (body +:+ String "}" rest)) at 1.
  rewrite run_cls_char. cbn beta. rewrite Hc.
  apply star_cls_success; [done|cbn in Hlen; lia|done|].
  rewrite run_chr.
  replace (String "{" (String c body +:+ String "}" rest))
    with (("{" +:+ String c body +:+ "}") +:+ rest).
  - by rewrite consumed_append.
  - rewrite !append_assoc. reflexivity.
Qed.

Lemma run_opt_success a fuel s caps k x :
  run a fuel s caps k = Some x -> run (Opt a) fuel s caps k = Some x.
Proof. rewrite run_opt. by intros ->. Qed.

Lemma run_opt_skip a fuel s caps k :
  run a fuel s caps k = None -> run (Opt a) fuel s caps k = k s caps.
Proof. rewrite run_opt. by intros ->. Qed.

Lemma run_lit_ne a p c fuel s caps k :
  Ascii.eqb a c = false -> run (Lit (String a p)) fuel (String c s) caps k = None.
Proof. intros Hne. cbn [run drop_prefix]. by rewrite Hne. Qed.

End Matcher.

Lemma word_not_syntax c :
  Py.is_word c = true ->
  Ascii.eqb "=" c = false /\ Ascii.eqb "{" c = false /\ Ascii.eqb ">" c = false
  /\ is_not "<" c = true.
Proof. destruct c as [[] [] [] [] [] [] [] []]; vm_compute; intuition congruence. Qed.

Lemma all_chars_append p a b :
  all_chars p (a +:+ b) = all_chars p a && all_chars p b.
Proof.
  induction a as [|c a IH]; [done|].
  change (String c a +:+ b) with (String c (a +:+ b)). cbn [all_chars].
  by rewrite IH, andb_assoc.
Qed.

Lemma name_no_tag name : is_name name = true -> no_tag name = true.
Proof.
  unfold is_name, no_tag. intros [_ Hall]%andb_prop. revert Hall.
  apply all_chars_impl. intros c Hc. by apply word_not_syntax.
Qed.

Lemma body_no_tag body : is_body body = true -> no_tag body = true.
Proof.
  unfold is_body, no_tag. intros [_ Hall]%andb_prop. revert Hall.
  apply all_chars_impl. by intros c [_ ?]%andb_prop.
Qed.

(** *** [findall] over text with no match *)

Lemma findall_skip r a b :
  findall_from r (String.length a) (a +:+ b) = findall_from r 0 b.
Proof.
  induction a as [|c a IH]; [by destruct b|].
  change (String c a +:+ b) with (String c (a +:+ b)). cbn [String.length findall_from].
  exact IH.
Qed.

Lemma findall_no_match r a b :
  (forall c t, is_not "<" c = true -> match_at r (String c t) = None) ->
  no_tag a = true ->
  findall_from r 0 (a +:+ b) = findall_from r 0 b.
Proof.
  intros Hr. induction a as [|c a IH]; [done|].
  change (String c a +:+ b) with (String c (a +:+ b)). unfold no_tag. cbn [all_chars].
  intros [Hc Ha]%andb_prop. cbn [findall_from]. rewrite (Hr c _ Hc). by apply IH.
Qed.

Lemma findall_nil r s :
  (forall c t, is_not "<" c = true -> match_at r (String c t) = None) ->
  no_tag s = true ->
  findall_from r 0 s = [].
Proof.
  intros Hr. induction s as [|c s IH]; [done|].
  unfold no_tag. cbn [all_chars]. intros [Hc Hs]%andb_prop.
  cbn [findall_from]. rewrite (Hr c _ Hc). by apply IH.
Qed.

(** A match at the head of [form +:+ post]: what [findall] finds in
    [pre +:+ form +:+ post]. *)
Lemma findall_one r pre form post caps :
  (forall c t, is_not "<" c = true -> match_at r (String c t) = None) ->
  no_tag pre = true -> no_tag post = true -> form <> "" ->
  match_at r (form +:+ post) = Some (post, caps) ->
  findall r (pre +:+ form +:+ post) = [caps].
Proof.
  intros Hr Hpre Hpost Hne Hm. unfold findall.
  rewrite (findall_no_match r pre _ Hr Hpre).
  destruct form as [|c form]; [done|].
  change (String c form +:+ post) with (String c (form +:+ post)) in *.
  cbn [findall_from]. rewrite Hm. f_equal.
  cbn [String.length]. rewrite length_append.
  replace (S (String.length form + String.length post) - String.length post - 1)
    with (String.length form) by lia.
  rewrite findall_skip. by apply findall_nil.
Qed.

Lemma findall_none r pre c t :
  (forall c t, is_not "<" c = true -> match_at r (String c t) = None) ->
  no_tag pre = true ->
  match_at r (String c t) = None ->
  findall_from r 0 t = [] ->
  findall r (pre +:+ String c t) = [].
Proof.
  intros Hr Hpre Hm Hrest. unfold findall.
  rewrite (findall_no_match r pre _ Hr Hpre).
  cbn [findall_from]. by rewrite Hm.
Qed.

End RegexFacts.

(** ** The parser and the loop *)

Module ProxyProps.
Import Re Text RegexFacts llm_proxy Agent.

Lemma tagged_nf name body post :
  tagged_call name body +:+ post
  = "<function=" +:+ (name +:+ String ">" (String "{" (body +:+ String "}" ("</function>" +:+ post)))).
Proof. unfold tagged_call. rewrite !append_assoc. reflexivity. Qed.

Lemma assigned_nf name body post :
  assigned_call name body +:+ post
  = "<function=" +:+ (name +:+ String "=" (String "{" (body +:+ String "}" (String ">" post)))).
Proof. unfold assigned_call. rewrite !append_assoc. reflexivity. Qed.

Lemma compact_nf name body post :
  compact_call name body +:+ post
  = "<function=" +:+ (name +:+ String "{" (body +:+ String "}" (String ">" post))).
Proof. unfold compact_call. rewrite !append_assoc. reflexivity. Qed.

Lemma tagged_hd name body post :
  tagged_call name body +:+ post
  = String "<" ("function=" +:+ (name +:+ String ">" (String "{" (body +:+ String "}"
                                                         ("</function>" +:+ post))))).
Proof. rewrite tagged_nf. reflexivity. Qed.

Lemma assigned_hd name body post :
  assigned_call name body +:+ post
  = String "<" ("function=" +:+ (name +:+ ("={" +:+ (body +:+ String "}" (String ">" post))))).
Proof. rewrite assigned_nf. reflexivity. Qed.

Lemma compact_hd name body post :
  compact_call name body +:+ post
  = String "<" ("function=" +:+ (name +:+ ("{" +:+ (body +:+ String "}" (String ">" post))))).
Proof. rewrite compact_nf. reflexivity. Qed.

Lemma pattern_needs_tag r c t :
  In r [pattern1; pattern2; pattern3] ->
  is_not "<" c = true -> match_at r (String c t) = None.
Proof.
  unfold is_not. intros Hr Hc%negb_true_iff.
  destruct Hr as [<-|[<-|[<-|[]]]]; unfold match_at, pattern1, pattern2, pattern3;
    cbn [seq]; rewrite run_seq; by apply run_lit_ne.
Qed.

Section Forms.
Variables (name body post : string) (fuel : nat).
Hypothesis Hname : is_name name = true.
Hypothesis Hbody : is_body body = true.
Hypothesis Hfuel_name : String.length name <= fuel.
Hypothesis Hfuel_body : String.length body <= fuel.

Ltac after_word :=
  intros c t caps' Hc; destruct (word_not_syntax c Hc) as (He & Hb & Hg & _).

Lemma pattern1_tagged :
  run pattern1 fuel (tagged_call name body +:+ post) [] (fun s' caps => Some (s', caps))
  = Some (post, [name; "{" +:+ body +:+ "}"]).
Proof.
  rewrite tagged_nf. unfold pattern1. cbn [seq].
  rewrite run_seq, run_lit, run_seq.
  apply run_name; [done|done|done|].
  rewrite run_seq, run_chr, run_seq.
  apply run_payload; [done|done|].
  by rewrite run_lit.
Qed.

Lemma pattern1_assigned :
  run pattern1 fuel (assigned_call name body +:+ post) [] (fun s' caps => Some (s', caps)) = None.
Proof.
  rewrite assigned_nf. unfold pattern1. cbn [seq].
  rewrite run_seq, run_lit, run_seq.
  apply run_name_failure; [done|done| |].
  - after_word. rewrite run_seq. by apply run_chr_ne.
  - intros caps'. rewrite run_seq. by apply run_chr_ne.
Qed.

Lemma pattern1_compact :
  run pattern1 fuel (compact_call name body +:+ post) [] (fun s' caps => Some (s', caps)) = None.
Proof.
  rewrite compact_nf. unfold pattern1. cbn [seq].
  rewrite run_seq, run_lit, run_seq.
  apply run_name_failure; [done|done| |].
  - after_word. rewrite run_seq. by apply run_chr_ne.
  - intros caps'. rewrite run_seq. by apply run_chr_ne.
Qed.

Lemma payload_needs_brace c t caps k :
  Ascii.eqb "{" c = false ->
  run payload fuel (String c t) caps k = (None : option (string * list string)).
Proof.
  intros Hc. unfold payload. cbn [seq]. rewrite run_grp, run_seq. by apply run_chr_ne.
Qed.

Lemma pattern2_tagged :
  run pattern2 fuel (tagged_call name body +:+ post) [] (fun s' caps => Some (s', caps)) = None.
Proof.
  rewrite tagged_nf. unfold pattern2. cbn [seq].
  rewrite run_seq, run_lit, run_seq.
  apply run_name_failure; [done|done| |].
  - after_word. rewrite run_seq, run_opt_skip by by apply run_chr_ne.
    rewrite run_seq. by apply payload_needs_brace.
  - intros caps'. rewrite run_seq, run_opt_skip by by apply run_chr_ne.
    rewrite run_seq. by apply payload_needs_brace.
Qed.

Lemma pattern2_assigned :
  run pattern2 fuel (assigned_call name body +:+ post) [] (fun s' caps => Some (s', caps))
  = Some (post, [name; "{" +:+ body +:+ "}"]).
Proof.
  rewrite assigned_nf. unfold pattern2. cbn [seq].
  rewrite run_seq, run_lit, run_seq.
  apply run_name; [done|done|done|].
  rewrite run_seq. apply run_opt_success. rewrite run_chr, run_seq.
  apply run_payload; [done|done|].
  apply run_opt_success. by rewrite run_chr.
Qed.

Lemma pattern2_compact :
  run pattern2 fuel (compact_call name body +:+ post) [] (fun s' caps => Some (s', caps))
  = Some (post, [name; "{" +:+ body +:+ "}"]).
Proof.
  rewrite compact_nf. unfold pattern2. cbn [seq].
  rewrite run_seq, run_lit, run_seq.
  apply run_name; [done|done|done|].
  rewrite run_seq, run_opt_skip by by apply run_chr_ne.
  rewrite run_seq.
  apply run_payload; [done|done|].
  apply run_opt_success. by rewrite run_chr.
Qed.

Lemma pattern3_tagged :
  run pattern3 fuel (tagged_call name body +:+ post) [] (fun s' caps => Some (s', caps)) = None.
Proof.
  rewrite tagged_nf. unfold pattern3. cbn [seq].
  rewrite run_seq, run_lit, run_seq.
  apply run_name_failure; [done|done| |].
  - after_word. rewrite run_seq. by apply payload_needs_brace.
  - intros caps'. rewrite run_seq. by apply payload_needs_brace.
Qed.

Lemma pattern3_assigned :
  run pattern3 fuel (assigned_call name body +:+ post) [] (fun s' caps => Some (s', caps)) = None.
Proof.
  rewrite assigned_nf. unfold pattern3. cbn [seq].
  rewrite run_seq, run_lit, run_seq.
  apply run_name_failure; [done|done| |].
  - after_word. rewrite run_seq. by apply payload_needs_brace.
  - intros caps'. rewrite run_seq. by apply payload_needs_brace.
Qed.

Lemma pattern3_compact :
  run pattern3 fuel (compact_call name body +:+ post) [] (fun s' caps => Some (s', caps))
  = Some (post, [name; "{" +:+ body +:+ "}"]).
Proof.
  rewrite compact_nf. unfold pattern3. cbn [seq].
  rewrite run_seq, run_lit, run_seq.
  apply run_name; [done|done|done|].
  rewrite run_seq.
  apply run_payload; [done|done|].
  apply run_opt_success. by rewrite run_chr.
Qed.

End Forms.

Lemma form_lengths name body post :
  String.length name <= S (String.length (tagged_call name body +:+ post))
  /\ String.length body <= S (String.length (tagged_call name body +:+ post))
  /\ String.length name <= S (String.length (assigned_call name body +:+ post))
  /\ String.length body <= S (String.length (assigned_call name body +:+ post))
  /\ String.length name <= S (String.length (compact_call name body +:+ post))
  /\ String.length body <= S (String.length (compact_call name body +:+ post)).
Proof.
  rewrite tagged_nf, assigned_nf, compact_nf. rewrite !length_append.
  cbn [String.length]. rewrite !length_append. cbn [String.length]. lia.
Qed.

(** No pattern matches in what follows the first character of a call. *)
Lemma no_match_after_tagged r name body post :
  In r [pattern1; pattern2; pattern3] ->
  is_name name = true -> is_body body = true -> no_tag post = true ->
  findall_from r 0
    ("function=" +:+ (name +:+ String ">" (String "{" (body +:+ String "}"
                                                         ("</function>" +:+ post)))))
  = [].
Proof.
  intros Hr Hname Hbody Hpost.
  replace ("function=" +:+ (name +:+ String ">" (String "{" (body +:+ String "}"
                                                               ("</function>" +:+ post)))))
    with (("function=" +:+ name +:+ ">{" +:+ body +:+ "}") +:+ ("</function>" +:+ post))
    by (rewrite !append_assoc; reflexivity).
  rewrite findall_no_match; [|intros c t; by apply pattern_needs_tag|].
  - change ("</function>" +:+ post) with (String "<" ("/function>" +:+ post)).
    cbn [findall_from].
    assert (Hm : match_at r (String "<" ("/function>" +:+ post)) = None).
    { destruct Hr as [<-|[<-|[<-|[]]]]; unfold match_at, pattern1, pattern2, pattern3;
        cbn [seq]; rewrite run_seq; reflexivity. }
    rewrite Hm. apply findall_nil; [intros c t; by apply pattern_needs_tag|].
    unfold no_tag in *. rewrite all_chars_append. by rewrite Hpost.
  - pose proof (name_no_tag name Hname) as Hn. pose proof (body_no_tag body Hbody) as Hb.
    unfold no_tag in *. rewrite !all_chars_append. by rewrite Hn, Hb.
Qed.

Lemma no_match_after r name sep body post :
  In r [pattern1; pattern2; pattern3] ->
  is_name name = true -> is_body body = true -> no_tag post = true ->
  no_tag sep = true ->
  findall_from r 0 ("function=" +:+ (name +:+ (sep +:+ (body +:+ String "}" (String ">" post)))))
  = [].
Proof.
  intros Hr Hname Hbody Hpost Hsep.
  apply findall_nil; [intros c t; by apply pattern_needs_tag|].
  pose proof (name_no_tag name Hname) as Hn. pose proof (body_no_tag body Hbody) as Hb.
  unfold no_tag in *. rewrite !all_chars_append. cbn [all_chars].
  by rewrite Hn, Hb, Hpost, Hsep.
Qed.


Lemma run_calls_returns rt c calls :
  forall self w msgs,
    exists msgs' self' w', run_calls rt c calls self w msgs = (Ok msgs', self', w').
Proof.
  induction calls as [|tc calls IH]; intros self w msgs; cbn [run_calls].
  - by eexists _, _, _.
  - destruct (ExecutorFacts.execute_returns rt c self w (tc_name tc) (tc_arguments tc))
      as (result & self' & w' & -> & _).
    apply IH.
Qed.

Lemma calls_and_content_calls uuid_hex has_executor llm_response :
  r_tool_calls llm_response <> [] ->
  fst (calls_and_content uuid_hex has_executor llm_response) = r_tool_calls llm_response.
Proof.
  unfold calls_and_content. by destruct (r_tool_calls llm_response).
Qed.

Lemma completion_loop_returns rt clk uuid_hex llm fuel :
  forall tool_executor w llm_messages iteration,
    iteration <= MAX_TOOL_ITERATIONS ->
    MAX_TOOL_ITERATIONS - iteration <= fuel ->
    exists final n tool_executor' w',
      completion_loop fuel rt clk uuid_hex llm tool_executor w llm_messages iteration
      = Some (final, n, tool_executor', w')
      /\ iteration <= n <= MAX_TOOL_ITERATIONS
      /\ (tool_executor = None ->
          tool_executor' = None /\ w' = w
          /\ (iteration < MAX_TOOL_ITERATIONS -> n = S iteration))
      /\ (always_calls llm -> tool_executor <> None -> final = "" /\ n = MAX_TOOL_ITERATIONS).
Proof.
  induction fuel as [|fuel IH]; intros tool_executor w llm_messages iteration Hle Hfuel.
  - assert (iteration = MAX_TOOL_ITERATIONS) as -> by lia.
    eexists _, _, _, _. split; [reflexivity|]. split; [lia|]. split; [intros He; split; [done|split;[done|unfold MAX_TOOL_ITERATIONS; lia]]|by intros _ _; split].
  - cbn [completion_loop].
    destruct (iteration <? MAX_TOOL_ITERATIONS)%nat eqn:Hlt.
    2: { apply Nat.ltb_ge in Hlt. assert (iteration = MAX_TOOL_ITERATIONS) by lia. subst.
         eexists _, _, _, _. split; [reflexivity|]. split; [lia|].
         split; [intros He; split; [done|split;[done|unfold MAX_TOOL_ITERATIONS; lia]]|by intros _ _; split]. }
    apply Nat.ltb_lt in Hlt.
    destruct (llm (S iteration) llm_messages) as [llm_response|e] eqn:Hllm.
    2: { eexists _, _, _, _. split; [reflexivity|]. split; [lia|].
         split; [intros He; split; [done|split;[done|lia]]|].
         intros Hadv. destruct (Hadv (S iteration) llm_messages) as (x & Hx & _). congruence. }
    destruct (calls_and_content _ _ llm_response) as [calls response_content] eqn:Hcc.
    destruct tool_executor as [self|].
    + destruct calls as [|tool_call calls].
      { eexists _, _, _, _. split; [reflexivity|]. split; [lia|]. split; [done|].
        intros Hadv _. destruct (Hadv (S iteration) llm_messages) as (x & Hx & Hcalls).
        rewrite Hllm in Hx. inversion Hx; subst.
        pose proof (calls_and_content_calls (uuid_hex (S iteration)) true x Hcalls) as Hfst.
        rewrite Hcc in Hfst. cbn in Hfst. congruence. }
      match goal with
      | |- context [run_calls ?rt ?c ?calls ?self ?w ?msgs] =>
          destruct (run_calls_returns rt c calls self w msgs) as (msgs' & self' & w' & ->)
      end.
      destruct (IH (Some self') w' msgs' (S iteration)) as (final & n & ex' & w'' & -> & Hn & _ & Hadv);
        [lia|lia|].
      eexists _, _, _, _. split; [reflexivity|]. split; [lia|]. split; [done|].
      intros Ha _. by apply Hadv.
    + eexists _, _, _, _.
      split; [by destruct calls|]. split; [lia|]. split; [|done].
      intros _. split; [done|]. split; [done|lia].
Qed.

(** X18 (the proxy loop is bounded).  The tool-calling loop of
    [chat_completions] always ends, after at most [MAX_TOOL_ITERATIONS] = 5
    calls of the provider, whatever the provider answers.  Without a tool
    executor (no user id found in the system message) it calls the provider
    exactly once and executes nothing.  With one, against a provider that asks for
    tool calls in every response, it makes exactly five calls and the text
    it returns for the avatar is empty. *)
Theorem proxy_loop_bounded rt clk uuid_hex llm tool_executor w llm_messages :
  MAX_TOOL_ITERATIONS = 5
  /\ exists final calls tool_executor' w',
       completion_loop MAX_TOOL_ITERATIONS rt clk uuid_hex llm tool_executor w llm_messages 0
       = Some (final, calls, tool_executor', w')
       /\ calls <= 5
       /\ (tool_executor = None -> calls = 1 /\ w' = w)
       /\ (always_calls llm -> tool_executor <> None -> final = "" /\ calls = 5).
Proof.
  split; [reflexivity|].
  destruct (completion_loop_returns rt clk uuid_hex llm MAX_TOOL_ITERATIONS
              tool_executor w llm_messages 0) as (final & n & ex' & w' & Hrun & Hn & Hnone & Hadv);
    [lia|lia|].
  exists final, n, ex', w'. split; [done|]. split; [unfold MAX_TOOL_ITERATIONS in Hn; lia|].
  split; [|done].
  intros He. destruct (Hnone He) as (_ & Hw & Hone). split; [|done].
  apply Hone. unfold MAX_TOOL_ITERATIONS. lia.
Qed.

End ProxyProps.

(** * The text that is spoken *)

Module SpeechProps.
Import Re Text RegexFacts llm_proxy ExecutorProps.

Lemma sub_no_match r repl s :
  (forall c t, is_not "<" c && is_not "{" c = true -> match_at r (String c t) = None) ->
  forall after_space, spaced after_space s = true -> sub_from r repl 0 s = s.
Proof.
  intros Hr. induction s as [|c s IH]; intros after_space Hs; [done|].
  cbn [spaced] in Hs. cbn [sub_from].
  destruct (Py.isspace c) eqn:Hsp.
  - apply andb_prop in Hs as [[Hc _]%andb_prop Hs]. apply Ascii.eqb_eq in Hc. subst c.
    rewrite Hr by reflexivity. by rewrite (IH true).
  - apply andb_prop in Hs as [Hc Hs]. rewrite (Hr c s Hc). by rewrite (IH false).
Qed.

Lemma function_tag_needs_tag c t :
  is_not "<" c && is_not "{" c = true -> match_at function_tag (String c t) = None.
Proof.
  unfold is_not. intros [Hc%negb_true_iff _]%andb_prop.
  unfold match_at, function_tag. cbn [seq]. rewrite run_seq. by apply run_lit_ne.
Qed.

Lemma json_args_needs_brace c t :
  is_not "<" c && is_not "{" c = true -> match_at json_args (String c t) = None.
Proof.
  unfold is_not. intros [_ Hc%negb_true_iff]%andb_prop.
  unfold match_at, json_args. cbn [seq]. rewrite run_seq. by apply run_chr_ne.
Qed.

Lemma spaces_collapse s :
  forall after_space, spaced after_space s = true ->
  sub_from (Plus space) " " 0 s = s.
Proof.
  induction s as [|c s IH]; intros after_space Hs; [done|].
  cbn [spaced] in Hs. cbn [sub_from].
  destruct (Py.isspace c) eqn:Hsp.
  - apply andb_prop in Hs as [[Hc _]%andb_prop Hs]. apply Ascii.eqb_eq in Hc. subst c.
    destruct s as [|c2 s]; [done|].
    cbn [spaced] in Hs.
    destruct (Py.isspace c2) eqn:Hsp2;
      [apply andb_prop in Hs as [[_ Hf]%andb_prop _]; discriminate|].
    assert (Hm : match_at (Plus space) (String " " (String c2 s)) = Some (String c2 s, [])).
    { unfold match_at, space. rewrite run_plus_cls, run_cls_char, Hsp.
      cbn [String.length star_cls]. rewrite run_cls_char, Hsp2. reflexivity. }
    rewrite Hm.
    assert (Hsh : shorter (String c2 s) (String " " (String c2 s)) = true)
      by (unfold shorter; cbn [String.length]; apply Nat.ltb_lt; lia).
    rewrite Hsh. cbn [String.length].
    replace (S (S (String.length s)) - S (String.length s) - 1) with 0 by lia.
    rewrite (IH true); [reflexivity|]. cbn [spaced]. by rewrite Hsp2.
  - assert (Hm : match_at (Plus space) (String c s) = None).
    { unfold match_at, space. by rewrite run_plus_cls, run_cls_char, Hsp. }
    rewrite Hm. apply andb_prop in Hs as [_ Hs]. by rewrite (IH false).
Qed.

Lemma lstrip_rev_app s :
  forall after_space acc,
    spaced after_space s = true ->
    (after_space = false -> Py.lstrip acc = acc) ->
    Py.lstrip (String.rev_app s acc) = String.rev_app s acc.
Proof.
  induction s as [|c s IH]; intros after_space acc Hs Hacc.
  - cbn in Hs. apply negb_true_iff in Hs. by apply Hacc.
  - cbn [spaced] in Hs. cbn [String.rev_app].
    destruct (Py.isspace c) eqn:Hsp.
    + apply andb_prop in Hs as [_ Hs]. apply (IH true); [done|discriminate].
    + apply andb_prop in Hs as [_ Hs]. apply (IH false); [done|].
      intros _. cbn [Py.lstrip]. by rewrite Hsp.
Qed.

Lemma strip_plain s : plain s = true -> Py.strip s = s.
Proof.
  unfold plain. intros Hs.
  assert (Hl : Py.lstrip s = s).
  { destruct s as [|c s]; [done|]. cbn [spaced] in Hs. cbn [Py.lstrip].
    destruct (Py.isspace c); [|done].
    apply andb_prop in Hs as [[_ Hf]%andb_prop _]. discriminate. }
  unfold Py.strip, Py.rstrip. rewrite Hl. unfold String.rev at 2.
  rewrite (lstrip_rev_app s true ""); [|done|discriminate].
  fold (String.rev s). apply rev_rev.
Qed.

(** X20 (plain text is spoken as written).  A text with no [<] and no
    [{], whose only white space is single spaces between its words,
    comes out of [clean_response_for_speech] as it went in. *)
Theorem plain_text_is_spoken_as_written s :
  plain s = true -> clean_response_for_speech s = s.
Proof.
  intros Hs. unfold clean_response_for_speech, sub.
  rewrite (sub_no_match function_tag "" s function_tag_needs_tag true Hs).
  rewrite (sub_no_match json_args "" s json_args_needs_brace true Hs).
  rewrite (spaces_collapse s true Hs).
  by apply strip_plain.
Qed.

End SpeechProps.

(** * The REST endpoints and the tools on one table *)

Module RestProps.
Import ToolExecutor Results Store StoreFacts CancelFacts Rows Rest ExecutorProps.

Lemma conflict_none d appointment except b :
  appointments_api.conflict d appointment except = None ->
  In b (appointments d) ->
  scheduled b = true ->
  Appointment.appointment_date b = AppointmentCreate.appointment_date appointment ->
  Appointment.appointment_time b = AppointmentCreate.appointment_time appointment ->
  match except with
  | Some n => Appointment.id b = n
  | None => False
  end.
Proof.
  unfold appointments_api.conflict, scheduled. intros Hnone Hin Hs Hd Ht.
  pose proof (find_none _ _ Hnone b Hin) as Hb. cbn beta in Hb.
  rewrite Hd, Ht, Hs, !String.eqb_refl, !andb_true_r in Hb.
  destruct except as [n|]; [|discriminate].
  apply negb_false_iff in Hb. by apply Z.eqb_eq.
Qed.

(** *** The writes keep the table's invariant *)

Lemma insert_table_inv d user date time purpose stamp :
  table_inv d ->
  (forall b, In b (appointments d) -> scheduled b = true ->
     Appointment.appointment_date b = date -> Appointment.appointment_time b = time -> False) ->
  table_inv (snd (insert_appointment d user date time purpose stamp)).
Proof.
  intros [Hbelow Hnodup Hone] Hfree.
  constructor; cbn [insert_appointment snd appointments next_id].
  - intros a [Hin|Hnew]%in_app_iff.
    + specialize (Hbelow a Hin). lia.
    + destruct Hnew as [<-|[]]. cbn. lia.
  - rewrite map_app. apply List.NoDup_app; [done | repeat constructor; by intros [] |].
    intros n (a & <- & Hin)%in_map_iff [Heq|[]]. cbn in Heq.
    specialize (Hbelow a Hin). lia.
  - intros a b [Ha|Ha]%in_app_iff [Hb|Hb]%in_app_iff Hsa Hsb Hd Ht.
    + by apply Hone.
    + destruct Hb as [<-|[]]. cbn in Hd, Ht. destruct (Hfree a Ha Hsa Hd Ht).
    + destruct Ha as [<-|[]]. cbn in Hd, Ht.
      destruct (Hfree b Hb Hsb (eq_sym Hd) (eq_sym Ht)).
    + destruct Ha as [<-|[]], Hb as [<-|[]]. done.
Qed.

Lemma cancel_table_inv d n :
  table_inv d ->
  table_inv (update_appointment d n (fun a => Appointment.with_status a "cancelled")).
Proof.
  intros [Hbelow Hnodup Hone].
  constructor.
  - intros a' (a & Hin & ->)%update_in. cbn [next_id update_appointment with_appointments].
    specialize (Hbelow a Hin). by destruct (_ =? _)%Z.
  - by rewrite update_ids.
  - intros a' b' (a & Ha & ->)%update_in (b & Hb & ->)%update_in.
    destruct (Appointment.id a =? n)%Z, (Appointment.id b =? n)%Z; try done.
    by apply Hone.
Qed.

Lemma move_table_inv d n f date time :
  table_inv d ->
  (forall a, Appointment.id (f a) = Appointment.id a
     /\ Appointment.status (f a) = Appointment.status a
     /\ Appointment.appointment_date (f a) = date
     /\ Appointment.appointment_time (f a) = time) ->
  (forall b, In b (appointments d) -> scheduled b = true ->
     Appointment.appointment_date b = date -> Appointment.appointment_time b = time ->
     Appointment.id b = n) ->
  table_inv (update_appointment d n f).
Proof.
  intros [Hbelow Hnodup Hone] Hf Hfree.
  constructor.
  - intros a' (a & Hin & ->)%update_in. cbn [next_id update_appointment with_appointments].
    specialize (Hbelow a Hin). destruct (_ =? _)%Z; [|done].
    by rewrite (proj1 (Hf a)).
  - rewrite update_ids; [done|]. intros a. apply Hf.
  - intros a' b' (a & Ha & ->)%update_in (b & Hb & ->)%update_in.
    destruct (Z.eqb_spec (Appointment.id a) n) as [Han|Han],
             (Z.eqb_spec (Appointment.id b) n) as [Hbn|Hbn].
    + intros. rewrite (proj1 (Hf a)), (proj1 (Hf b)). congruence.
    + destruct (Hf a) as (_ & _ & Hd & Ht). rewrite Hd, Ht. intros _ Hsb Hdb Htb.
      destruct Hbn. by apply Hfree.
    + destruct (Hf b) as (_ & _ & Hd & Ht). rewrite Hd, Ht. intros Hsa _ Hda Hta.
      destruct Han. by apply Hfree.
    + by apply Hone.
Qed.

Lemma db_inv_table d : db_inv d -> table_inv d.
Proof. intros [? ? ? _]. by constructor. Qed.

(** *** Every tool keeps it *)

Lemma free_of_not_booked d date time b :
  ~ In time (_get_booked_slots_from_db d date None) ->
  In b (appointments d) -> scheduled b = true ->
  Appointment.appointment_date b = date -> Appointment.appointment_time b = time -> False.
Proof. intros Hfree Hin Hs Hd Ht. exact (not_booked d date None time b Hfree Hin Hs Hd Ht). Qed.

Lemma book_appointment_table rt c self w args :
  table_inv (db w) -> table_inv (db (snd (_execute_book_appointment rt c self w args))).
Proof.
  intros Hinv. unfold _execute_book_appointment. tool_branches.
  match goal with
  | H : insert_appointment ?d0 ?u ?dt ?tm ?p ?s = (_, ?d) |- table_inv ?d =>
      change d with (snd (pair z d)); rewrite <- H
  end.
  apply insert_table_inv; [done|].
  intros b. apply free_of_not_booked. by apply str_in_false.
Qed.

Lemma cancel_appointment_table rt self w args :
  table_inv (db w) -> table_inv (db (snd (_execute_cancel_appointment rt self w args))).
Proof.
  intros Hinv. unfold _execute_cancel_appointment, cancel_found. tool_branches.
  by apply cancel_table_inv.
Qed.

Lemma modify_owned_table rt c self w appointment_id new_date new_time n appointment :
  table_inv (db w) ->
  table_inv (db (snd (modify_owned rt c self w appointment_id new_date new_time n appointment))).
Proof.
  intros Hinv. unfold modify_owned. tool_branches.
  match goal with
  | |- table_inv (update_appointment _ _ (fun a => Appointment.with_slot a ?date ?time)) =>
      apply (move_table_inv _ _ _ date time); [done | by intros ? |]
  end.
  intros b Hb Hsb Hd Ht.
  match goal with
  | H : str_in _ (_get_booked_slots_from_db _ _ _) = false |- _ =>
      apply str_in_false in H;
      destruct (not_booked _ _ _ _ b H Hb Hsb Hd Ht) as [_ Hid]
  end.
  exact Hid.
Qed.

Lemma modify_appointment_table rt c self w args :
  table_inv (db w) -> table_inv (db (snd (_execute_modify_appointment rt c self w args))).
Proof.
  intros Hinv. unfold _execute_modify_appointment. tool_branches.
  by apply modify_owned_table.
Qed.

Lemma method_table rt c tool_name m self w args :
  method rt c tool_name = Some m ->
  table_inv (db w) -> table_inv (db (snd (m self w args))).
Proof.
  unfold method.
  repeat match goal with
         | |- context [if ?b then _ else _] => destruct b
         end;
    intros Hm Hinv; inversion Hm; subst;
    rewrite ?identify_user_db, ?fetch_slots_unchanged, ?retrieve_appointments_unchanged,
      ?end_conversation_unchanged;
    auto using book_appointment_table, cancel_appointment_table, modify_appointment_table.
Qed.

Lemma execute_table rt c self w tool_name arguments :
  table_inv (db w) -> table_inv (db (snd (execute rt c self w tool_name arguments))).
Proof.
  intros Hinv. rewrite execute_snd.
  destruct (method rt c tool_name) as [m|] eqn:Hm; [|done].
  by apply (method_table rt c tool_name).
Qed.

(** *** Every request keeps it *)

Lemma handle_table d current_user q :
  table_inv d -> table_inv (snd (handle d current_user q)).
Proof.
  intros Hinv. destruct q as [db_now appointment | n appointment | n]; cbn [handle].
  - unfold appointments_api.create_appointment.
    destruct (appointments_api.conflict d appointment None) eqn:Hc; [done|].
    cbn [snd]. apply insert_table_inv; [done|].
    intros b Hb Hsb Hd Ht. exact (conflict_none d appointment None b Hc Hb Hsb Hd Ht).
  - unfold appointments_api.update_appointment, appointments_api.commit_change.
    destruct (find_appointment d n) as [row|]; [|done].
    destruct (negb _); [done|].
    destruct (appointments_api.conflict d appointment (Some n)) eqn:Hc; [done|].
    cbn [snd].
    apply (move_table_inv _ _ _ (AppointmentCreate.appointment_date appointment)
             (AppointmentCreate.appointment_time appointment)); [done | by intros ? |].
    intros b Hb Hsb Hd Ht. exact (conflict_none d appointment (Some n) b Hc Hb Hsb Hd Ht).
  - unfold appointments_api.cancel_appointment, appointments_api.commit_change.
    destruct (find_appointment d n) as [row|]; [|done].
    destruct (negb _); [done|].
    cbn [snd]. by apply cancel_table_inv.
Qed.

Lemma served_table rt w : served rt w -> table_inv (db w).
Proof.
  induction 1 as [w Hnil | w sid uid uname _ IH | w c self tool args _ IH | w u q _ IH].
  - apply db_inv_table. by apply empty_inv.
  - exact IH.
  - by apply execute_table.
  - by apply handle_table.
Qed.

Lemma table_at_most_one d date time :
  table_inv d -> length (scheduled_at date time d) <= 1.
Proof.
  intros [_ Hnodup Hone]. unfold scheduled_at.
  pose proof (filter_ids_nodup (at_slot date time) _ Hnodup) as Hnd.
  destruct (List.filter (at_slot date time) (appointments d)) as [|a [|b rest]] eqn:Hf;
    cbn; [lia | lia |].
  exfalso.
  assert (Ha : In a (List.filter (at_slot date time) (appointments d)))
    by (rewrite Hf; by left).
  assert (Hb : In b (List.filter (at_slot date time) (appointments d)))
    by (rewrite Hf; right; by left).
  apply filter_In in Ha as [Ha (Hsa & Hda & Hta)%at_slot_true].
  apply filter_In in Hb as [Hb (Hsb & Hdb & Htb)%at_slot_true].
  assert (Heq : Appointment.id a = Appointment.id b) by (apply Hone; congruence).
  cbn in Hnd. apply List.NoDup_cons_iff in Hnd as [Hnotin _].
  apply Hnotin. rewrite Heq. by left.
Qed.

(** X21 (no double booking through either interface).  In every store
    reachable through the tools and the REST endpoints together, in any
    order and for any users, there is at most one scheduled appointment for
    any date and time; and after whatever request or tool call comes next,
    the same holds. *)
Theorem no_double_booking_by_either_interface rt w :
  served rt w ->
  (forall date time, length (scheduled_at date time (db w)) <= 1)
  /\ (forall current_user q date time,
        length (scheduled_at date time (snd (handle (db w) current_user q))) <= 1)
  /\ (forall c self tool_name arguments date time,
        length (scheduled_at date time
                  (db (snd (execute rt c self w tool_name arguments)))) <= 1).
Proof.
  intros Hinv%served_table. split; [|split].
  - intros date time. by apply table_at_most_one.
  - intros u q date time. by apply table_at_most_one, handle_table.
  - intros c self tool_name arguments date time. by apply table_at_most_one, execute_table.
Qed.

(** *** Whose rows a request can change *)

Lemma find_by_key d a :
  List.NoDup (List.map Appointment.id (appointments d)) ->
  In a (appointments d) ->
  find_appointment d (Appointment.id a) = Some a.
Proof.
  intros Hnd Hin. unfold find_appointment.
  destruct (List.find _ _) as [b|] eqn:Hfind.
  - apply find_some in Hfind as [Hb Hid%Z.eqb_eq].
    f_equal. by apply (nodup_id_inj (appointments d)).
  - pose proof (find_none _ _ Hfind a Hin) as Hno. cbn beta in Hno.
    by rewrite Z.eqb_refl in Hno.
Qed.

(** X22 (a request changes only the caller's appointments).  Whatever a
    user asks of [POST /], [PUT /{id}] and [DELETE /{id}], the appointments
    of every other user are afterwards what they were, and a request that is
    not answered with 200 leaves the whole table as it was; a request to
    change or cancel a row of another user is answered with 403.  The
    precondition is that [id] is a key of the table. *)
Theorem request_changes_only_own_rows d current_user q :
  List.NoDup (List.map Appointment.id (appointments d)) ->
  of_others (User.id current_user) (snd (handle d current_user q))
    = of_others (User.id current_user) d
  /\ (fst (handle d current_user q) <> 200%Z -> snd (handle d current_user q) = d)
  /\ (forall a n,
        In a (appointments d) -> Appointment.user_id a <> User.id current_user ->
        Appointment.id a = n ->
        (forall appointment, handle d current_user (Update n appointment) = (403%Z, d))
        /\ handle d current_user (Cancel n) = (403%Z, d)).
Proof.
  intros Hnd. split; [|split].
  - destruct q as [db_now appointment | n appointment | n]; cbn [handle].
    + unfold appointments_api.create_appointment.
      destruct (appointments_api.conflict d appointment None); [done|].
      cbn [snd]. apply of_others_insert.
    + unfold appointments_api.update_appointment, appointments_api.commit_change.
      destruct (find_appointment d n) as [row|] eqn:Hfind; [|done].
      destruct (Z.eqb_spec (Appointment.user_id row) (User.id current_user)) as [Hu|Hu];
        cbn [negb]; [|done].
      destruct (appointments_api.conflict d appointment (Some n)); [done|].
      cbn [snd]. apply of_others_update; [|done].
      by apply (found_owner d n row).
    + unfold appointments_api.cancel_appointment, appointments_api.commit_change.
      destruct (find_appointment d n) as [row|] eqn:Hfind; [|done].
      destruct (Z.eqb_spec (Appointment.user_id row) (User.id current_user)) as [Hu|Hu];
        cbn [negb]; [|done].
      cbn [snd]. apply of_others_update; [|done].
      by apply (found_owner d n row).
  - destruct q as [db_now appointment | n appointment | n]; cbn [handle].
    + unfold appointments_api.create_appointment.
      by destruct (appointments_api.conflict d appointment None).
    + unfold appointments_api.update_appointment.
      destruct (find_appointment d n) as [row|]; [|done].
      destruct (negb _); [done|].
      by destruct (appointments_api.conflict d appointment (Some n)).
    + unfold appointments_api.cancel_appointment.
      destruct (find_appointment d n) as [row|]; [|done].
      by destruct (negb _).
  - intros a n Hin Hu <-. pose proof (find_by_key d a Hnd Hin) as Hfind.
    apply Z.eqb_neq in Hu.
    split; [intros appointment|]; cbn [handle];
      unfold appointments_api.update_appointment, appointments_api.cancel_appointment;
      by rewrite Hfind, Hu.
Qed.

(** X23 (reading the appointments of another user).  For a row of another
    user, [GET /{id}] answers 403; [GET /] with that user's [user_id] lists
    that user's appointments, all of them when [limit] is not below their
    number.  The preconditions are that [id] is a key of the table and that
    the other user's [id] is not 0. *)
Theorem listing_is_of_the_named_user d a current_user limit :
  List.NoDup (List.map Appointment.id (appointments d)) ->
  In a (appointments d) ->
  Appointment.user_id a <> User.id current_user ->
  Appointment.user_id a <> 0%Z ->
  length (of_user (Appointment.user_id a) d) <= limit ->
  appointments_api.get_appointment d (Appointment.id a) current_user
    = HTTPException 403 "Not authorized to view this appointment"
  /\ appointments_api.get_appointments d (Some (Appointment.user_id a)) 0 limit current_user
       ≡ₚ of_user (Appointment.user_id a) d
  /\ In a (appointments_api.get_appointments d (Some (Appointment.user_id a)) 0 limit
             current_user).
Proof.
  intros Hnd Hin Hu H0 Hlimit.
  assert (Hlist : appointments_api.get_appointments d (Some (Appointment.user_id a)) 0 limit
                    current_user ≡ₚ of_user (Appointment.user_id a) d).
  { unfold appointments_api.get_appointments.
    apply Z.eqb_neq in H0. rewrite H0. rewrite drop_0.
    rewrite take_ge; [apply sort_by_perm|].
    fold (of_user (Appointment.user_id a) d).
    by rewrite (Permutation_length (sort_by_perm _ _)). }
  split; [|split; [exact Hlist|]].
  - unfold appointments_api.get_appointment.
    rewrite (find_by_key d a Hnd Hin). apply Z.eqb_neq in Hu. by rewrite Hu.
  - apply (Permutation_in _ (Permutation_sym Hlist)).
    unfold of_user. apply filter_In. split; [done|]. apply Z.eqb_refl.
Qed.

End RestProps.

(** * The conversation context *)

Module ContextProps.
Import ConversationContext Context.

Lemma slice_from_last {A} (n : Z) (l : list A) :
  (0 < n)%Z -> slice_from (- n) l = drop (length l - Z.to_nat n) l.
Proof.
  intros Hn. unfold slice_from.
  destruct (Z.leb_spec 0 (- n)); [lia|]. by rewrite Z.opp_involutive.
Qed.

Lemma add_messages self a :
  add self a = _trim_history (with_messages self (_messages self ++ [message_of a])).
Proof. by destruct a. Qed.

Lemma drop_snoc_last {A} k (l : list A) (x : A) :
  k <= length l -> last (drop k (l ++ [x])%list) = Some x.
Proof.
  intros Hk. rewrite drop_app_le by done. by rewrite last_snoc.
Qed.

Lemma leading_system_add self a :
  leading_system (_messages self ++ [message_of a])%list = leading_system (_messages self).
Proof. destruct (_messages self); [by destruct a | done]. Qed.

(** X24 (trimming a conversation context).  With [max_history] at least 2,
    after a user or an assistant message is added the context holds at most
    [max_history] messages: the system message it started with, if it
    started with one, followed by the latest of the other messages in their
    order, the last of them being the message added.  Nothing is dropped
    while the messages are no more than [max_history]. *)
Theorem context_is_trimmed self a :
  (2 <= max_history self)%Z ->
  let messages := (_messages self ++ [message_of a])%list in
  (Z.of_nat (length (_messages (add self a))) <= max_history self)%Z
  /\ (exists k, _messages (add self a) = (leading_system (_messages self) ++ drop k messages)%list
        /\ length (leading_system (_messages self)) <= k)
  /\ last (_messages (add self a)) = Some (message_of a)
  /\ ((Z.of_nat (length messages) <= max_history self)%Z -> _messages (add self a) = messages).
Proof.
  intros Hmax messages. rewrite add_messages. fold messages.
  rewrite <- (leading_system_add self a). fold messages.
  unfold _trim_history. cbn [_messages max_history with_messages].
  assert (Hlen : length messages = S (length (_messages self)))
    by (unfold messages; rewrite length_app; cbn; lia).
  destruct (Z.leb_spec (Z.of_nat (length messages)) (max_history self)) as [Hle|Hgt].
  - split; [done|]. split; [|split; [|done]].
    + exists (length (leading_system messages)). split; [|done].
      unfold leading_system. destruct messages as [|first rest]; [done|].
      by destruct (String.eqb (role first) "system").
    + unfold messages. apply last_snoc.
  - assert (Hlast : forall k, k <= length (_messages self) ->
                      last (drop k messages) = Some (message_of a)).
    { intros k Hk. by apply drop_snoc_last. }
    destruct messages as [|first rest] eqn:Hm; [cbn in Hlen; lia|].
    cbn [length] in Hlen, Hgt.
    destruct (String.eqb (role first) "system") eqn:Hsys; cbn [_messages with_messages].
    + rewrite slice_from_last by lia.
      change (take 1 (first :: rest)) with [first]. cbn [length leading_system]. rewrite Hsys.
      replace (S (length rest) - Z.to_nat (max_history self - 1))
        with (S (length rest - Z.to_nat (max_history self - 1))) by lia.
      cbn [skipn app].
      split; [|split; [|split; [|lia]]].
      * cbn [length]. rewrite length_drop. lia.
      * exists (S (length rest - Z.to_nat (max_history self - 1))). split; [done|]. cbn. lia.
      * specialize (Hlast (S (length rest - Z.to_nat (max_history self - 1)))).
        cbn [skipn] in Hlast.
        assert (Hne : drop (length rest - Z.to_nat (max_history self - 1)) rest <> []).
        { intros Hnil. apply (f_equal length) in Hnil. rewrite length_drop in Hnil.
          cbn [length] in Hnil. lia. }
        destruct (drop (length rest - Z.to_nat (max_history self - 1)) rest) as [|y l] eqn:Hd;
          [done|].
        change (last (first :: y :: l)) with (last (y :: l)).
        apply Hlast. lia.
    + rewrite slice_from_last by lia. cbn [leading_system]. rewrite Hsys. cbn [app].
      split; [|split; [|split; [|cbn [length]; lia]]].
      * rewrite length_drop. cbn [length]. lia.
      * eexists. split; [reflexivity|]. cbn. lia.
      * apply Hlast. cbn [length]. lia.
Qed.

(** X25 (a context of one message).  With [max_history] 1 and a history
    that starts with a system message, adding a user or an assistant
    message trims nothing: the history afterwards is the system message
    followed by the whole history and the message added. *)
Theorem context_of_one_grows self a first rest :
  max_history self = 1%Z ->
  _messages self = first :: rest ->
  role first = "system" ->
  _messages (add self a) = (first :: first :: rest ++ [message_of a])%list.
Proof.
  intros Hmax Hm Hsys. rewrite add_messages. unfold _trim_history.
  cbn [_messages max_history with_messages]. rewrite Hmax, Hm. cbn [app length].
  destruct (Z.leb_spec (Z.of_nat (S (length (rest ++ [message_of a])))) 1) as [Hle|_].
  { rewrite length_app in Hle. cbn in Hle. lia. }
  rewrite Hsys. reflexivity.
Qed.

End ContextProps.

(** * The further properties at concrete inputs *)

Module MoreExamples.
Import Ex Cases.

(** X1: Ann asks to cancel an appointment that is not hers. *)
Lemma failed_call_changes_nothing_witness :
  ToolExecutor.execute rt clk ann shared_world "cancel_appointment"
    (PDict [("appointment_id", PStr "2")])
  = (Ok (ToolExecutor.failure "This appointment doesn't belong to you."), ann, shared_world)
  /\ Results.failed (ToolExecutor.failure "This appointment doesn't belong to you.")
  /\ ann = ann /\ shared_world = shared_world.
Proof.
  assert (Hf : Results.failed (ToolExecutor.failure "This appointment doesn't belong to you."))
    by (eexists; split; reflexivity).
  split; [reflexivity|]. split; [exact Hf|].
  exact (ExecutorProps.failed_call_changes_nothing rt clk ann shared_world "cancel_appointment"
           (PDict [("appointment_id", PStr "2")]) _ ann shared_world eq_refl Hf).
Defined.

(** X2: the slots of tomorrow, asked of a table with two appointments. *)
Lemma read_only_tools_witness :
  In "fetch_slots" ["fetch_slots"; "retrieve_appointments"; "end_conversation"]
  /\ exists result,
       ToolExecutor.execute rt clk ann shared_world "fetch_slots"
         (PDict [("date", PStr "tomorrow")])
       = (Ok result, ann, shared_world).
Proof.
  split; [by left|].
  apply ExecutorProps.read_only_tools. by left.
Defined.

(** X3: Ann cancels her appointment; the appointment of user 8 is as it
    was. *)
Lemma other_users_rows_untouched_witness :
  List.NoDup (List.map Appointment.id (appointments (db shared_world)))
  /\ ToolExecutor._get_current_user_id ann (kv shared_world) = PInt 7
  /\ Rows.of_others 7
       (db (snd (ToolExecutor.execute rt clk ann shared_world "cancel_appointment"
                   (PDict [("appointment_id", PStr "1")]))))
     = [row 2 8 "2026-11-04" "15:00" "scheduled"].
Proof.
  assert (Hnd : List.NoDup (List.map Appointment.id (appointments (db shared_world)))).
  { cbn. repeat constructor; cbn; intuition discriminate. }
  split; [exact Hnd|]. split; [reflexivity|].
  exact (ExecutorProps.other_users_rows_untouched rt clk ann shared_world "cancel_appointment"
           (PDict [("appointment_id", PStr "1")]) 7 Hnd eq_refl).
Defined.

(** X5: Ann moves her appointment from 2pm to 4pm. *)
Lemma modify_moves_one_appointment_witness :
  let o := ToolExecutor.execute rt clk ann shared_world "modify_appointment"
             (PDict [("appointment_id", PStr "1"); ("new_time", PStr "4pm")]) in
  o = (Ok (returned o), ann, snd o)
  /\ Rows.succeeded (returned o)
  /\ exists n date time,
       db (snd o)
       = update_appointment (db shared_world) n (fun a => Appointment.with_slot a date time).
Proof.
  intros o.
  assert (Hrun : o = (Ok (returned o), ann, snd o)) by reflexivity.
  assert (Hs : Rows.succeeded (returned o)) by (eexists; split; reflexivity).
  split; [exact Hrun|]. split; [exact Hs|].
  destruct (ExecutorProps.modify_moves_one_appointment rt clk ann shared_world _ _ _ _ Hrun Hs)
    as (d & id_arg & n & a & date & time & _ & _ & _ & _ & _ & _ & _ & _ & _ & _ & Hdb & _).
  by exists n, date, time.
Defined.

(** X6: Ann asks for her appointments. *)
Lemma retrieve_lists_own_appointments_witness :
  let o := ToolExecutor.execute rt clk ann shared_world "retrieve_appointments" (PDict []) in
  o = (Ok (returned o), ann, snd o)
  /\ Rows.succeeded (returned o)
  /\ ToolExecutor._get_current_user_id ann (kv shared_world) = PInt 7
  /\ exists d upcoming past,
       returned o = PDict d
       /\ dict_lookup "upcoming" d = Some (PList (List.map PDict upcoming))
       /\ dict_lookup "past" d = Some (PList (List.map PDict past))
       /\ upcoming ++ past
          ≡ₚ List.map ToolExecutor.row_dict (Rows.of_user 7 (db shared_world)).
Proof.
  intros o.
  assert (Hrun : o = (Ok (returned o), ann, snd o)) by reflexivity.
  assert (Hs : Rows.succeeded (returned o)) by (eexists; split; reflexivity).
  split; [exact Hrun|]. split; [exact Hs|]. split; [reflexivity|].
  destruct (ExecutorProps.retrieve_lists_own_appointments rt clk ann shared_world _ _ _ _ 7
              Hrun Hs eq_refl)
    as (d & inc & upcoming & past & Hd & Hinc & Hup & Hpast & _ & Hperm & _).
  exists d, upcoming, past. repeat split; try done.
  injection Hinc as <-. exact Hperm.
Defined.

(** X7: a caller gives Ann's number, punctuated. *)
Lemma identify_user_authenticates_witness :
  let o := ToolExecutor.execute rt clk guest shared_world "identify_user"
             (PDict [("contact_number", PStr "555-010-0199")]) in
  ToolExecutor.own_user_id guest = None
  /\ o = (Ok (returned o), snd (fst o), snd o)
  /\ Rows.succeeded (returned o)
  /\ exists number user,
       find_user_by_contact (db shared_world) (Py.filter_digits number) = Some user
       /\ ToolExecutor.user_id (snd (fst o)) = Some (User.id user).
Proof.
  intros o.
  assert (Hrun : o = (Ok (returned o), snd (fst o), snd o)) by reflexivity.
  assert (Hs : Rows.succeeded (returned o)) by (eexists; split; reflexivity).
  split; [reflexivity|]. split; [exact Hrun|]. split; [exact Hs|].
  destruct (ExecutorProps.identify_user_authenticates rt clk guest shared_world _ _ _ _
              eq_refl Hrun Hs)
    as (number & user & _ & _ & Hfind & Hid & _).
  by exists number, user.
Defined.

(** X8: half past two in the afternoon. *)
Lemma normalize_time_12_hour_witness :
  (1 <= 2 <= 12)%Z /\ (0 <= 30 <= 59)%Z /\ In " PM" Clock.pm_suffixes
  /\ ToolExecutor._normalize_time (PStr "2:30 PM") = Ok "14:30"
  /\ ToolExecutor._normalize_time (PStr "2 PM") = Ok "14:00".
Proof.
  assert (Hin : In " PM" Clock.pm_suffixes) by (cbn; tauto).
  split; [lia|]. split; [lia|]. split; [exact Hin|].
  exact (TimeProps.normalize_time_12_hour 2 30 true " PM"
           ltac:(lia) ltac:(lia) Hin).
Defined.

(** X9: a time of the catalog. *)
Lemma normalize_time_24_hour_witness :
  (0 <= 14 <= 23)%Z /\ (0 <= 0 <= 59)%Z
  /\ ToolExecutor._normalize_time (PStr "14:00") = Ok "14:00".
Proof.
  split; [lia|]. split; [lia|].
  exact (TimeProps.normalize_time_24_hour 14 0 ltac:(lia) ltac:(lia)).
Defined.

(** X10: on Tuesday 3 November 2026, next Friday is the 6th. *)
Lemma parse_date_next_weekday_witness :
  let d := {| dt_year := 2026; dt_month := 11; dt_day := 6; dt_micros := 37800000000 |} in
  Py.contains "next" (Py.strip (Py.lower "Next Friday")) = true
  /\ nth_error ToolExecutor.next_weekdays 4 = Some "friday"
  /\ Py.contains "friday" (Py.strip (Py.lower "Next Friday")) = true
  /\ ToolExecutor._parse_date rt clk (PStr "Next Friday") = Ok d
  /\ Cal.weekday d = 4%Z
  /\ (1 <= Cal.ordinal d - Cal.ordinal (now clk) <= 7)%Z
  /\ dt_micros d = dt_micros (now clk).
Proof.
  intros d.
  split; [reflexivity|]. split; [reflexivity|]. split; [reflexivity|]. split; [reflexivity|].
  apply (TimeProps.parse_date_next_weekday rt clk "Next Friday" 4 "friday" d);
    try reflexivity.
  intros j day' Hj Hnth.
  destruct j as [|[|[|[|j]]]]; [| | | |lia]; cbn in Hnth; injection Hnth as <-; reflexivity.
Defined.

(** X11: a status written for one session, read for another. *)
Lemma sessions_do_not_interfere_witness :
  sid <> "sess_ffffffffffff"
  /\ session_manager.get
       (Sessions.apply (kv (voice.w started)) sid (Sessions.SetStatus (PStr "connected")))
       "sess_ffffffffffff"
     = session_manager.get (kv (voice.w started)) "sess_ffffffffffff".
Proof.
  assert (Hne : sid <> "sess_ffffffffffff") by discriminate.
  split; [exact Hne|].
  exact (proj1 (SessionProps.sessions_do_not_interfere (kv (voice.w started)) sid
                  (Sessions.SetStatus (PStr "connected")) "sess_ffffffffffff" Hne)).
Defined.

(** X17: two uses tracked for a session and one for another. *)
Lemma cost_ledger_totals_witness :
  let events :=
    [ {| Costs.e_session := sid; Costs.e_utcnow := "2026-11-03T10:30:00";
         Costs.e_usage := Costs.Llm 120 40 |};
      {| Costs.e_session := "sess_ffffffffffff"; Costs.e_utcnow := "2026-11-03T10:30:01";
         Costs.e_usage := Costs.Llm 7 7 |};
      {| Costs.e_session := sid; Costs.e_utcnow := "2026-11-03T10:30:02";
         Costs.e_usage := Costs.Tts 55 |} ] in
  costs no_keys !! CostTracker._key sid = None
  /\ Costs.counters
       (CostTracker._get_data (fold_left Costs.track events no_keys) sid "2026-11-03T10:31:00")
     = (120, 40, 55, 0, 1, 1)%Z.
Proof.
  intros events.
  assert (Hnone : costs no_keys !! CostTracker._key sid = None) by apply lookup_empty.
  split; [exact Hnone|].
  exact (CostProps.cost_ledger_totals no_keys events sid "2026-11-03T10:31:00" Hnone).
Defined.


(** X20: a sentence of the assistant. *)
Lemma plain_text_is_spoken_as_written_witness :
  Text.plain "Your appointment is booked for 2 PM." = true
  /\ llm_proxy.clean_response_for_speech "Your appointment is booked for 2 PM."
     = "Your appointment is booked for 2 PM.".
Proof.
  split; [reflexivity|].
  exact (SpeechProps.plain_text_is_spoken_as_written "Your appointment is booked for 2 PM."
           eq_refl).
Defined.

(** X21: Ann books tomorrow at 2pm by voice, then Bob asks [POST /] for the
    same slot. *)
Lemma no_double_booking_by_either_interface_witness :
  let w := with_db booked_world
             (snd (Rest.handle (db booked_world) bob_user
                     (Rest.Create "2026-11-03T10:31:00+00:00" tomorrow_2pm_request))) in
  Rest.served rt w
  /\ fst (Rest.handle (db booked_world) bob_user
            (Rest.Create "2026-11-03T10:31:00+00:00" tomorrow_2pm_request)) = 400%Z
  /\ List.map Appointment.user_id (Store.scheduled_at "2026-11-04" "14:00" (db w)) = [7%Z]
  /\ forall date time, length (Store.scheduled_at date time (db w)) <= 1.
Proof.
  intros w.
  assert (Hserved : Rest.served rt w).
  { apply Rest.served_request.
    apply (Rest.served_tool rt empty_world clk ann "book_appointment" Store.tomorrow_2pm).
    by apply Rest.served_empty. }
  split; [exact Hserved|]. split; [reflexivity|]. split; [reflexivity|].
  exact (proj1 (RestProps.no_double_booking_by_either_interface rt w Hserved)).
Defined.

(** X22: Ann asks [DELETE /1], her appointment, and [DELETE /2], that of
    user 8. *)
Lemma request_changes_only_own_rows_witness :
  List.NoDup (List.map Appointment.id (appointments (db shared_world)))
  /\ Rows.of_others 7 (snd (Rest.handle (db shared_world) ann_user (Rest.Cancel 1)))
     = [row 2 8 "2026-11-04" "15:00" "scheduled"]
  /\ Rest.handle (db shared_world) ann_user (Rest.Cancel 2) = (403%Z, db shared_world).
Proof.
  assert (Hnd : List.NoDup (List.map Appointment.id (appointments (db shared_world)))).
  { cbn. repeat constructor; cbn; intuition discriminate. }
  split; [exact Hnd|]. split.
  - exact (proj1 (RestProps.request_changes_only_own_rows (db shared_world) ann_user
                    (Rest.Cancel 1) Hnd)).
  - apply (proj2 (proj2 (RestProps.request_changes_only_own_rows (db shared_world) ann_user
                           (Rest.Cancel 2) Hnd))
             (row 2 8 "2026-11-04" "15:00" "scheduled")).
    + right. by left.
    + discriminate.
    + reflexivity.
Defined.

(** X23: Ann asks for the appointment of user 8 by its [id], and for the
    appointments of user 8. *)
Lemma listing_is_of_the_named_user_witness :
  let a := row 2 8 "2026-11-04" "15:00" "scheduled" in
  List.NoDup (List.map Appointment.id (appointments (db shared_world)))
  /\ In a (appointments (db shared_world))
  /\ Appointment.user_id a <> User.id ann_user
  /\ Appointment.user_id a <> 0%Z
  /\ length (Rows.of_user 8 (db shared_world)) <= 100
  /\ appointments_api.get_appointment (db shared_world) 2 ann_user
     = HTTPException 403 "Not authorized to view this appointment"
  /\ In a (appointments_api.get_appointments (db shared_world) (Some 8%Z) 0 100 ann_user).
Proof.
  intros a.
  assert (Hnd : List.NoDup (List.map Appointment.id (appointments (db shared_world)))).
  { cbn. repeat constructor; cbn; intuition discriminate. }
  assert (Hin : In a (appointments (db shared_world))) by (right; by left).
  assert (Hu : Appointment.user_id a <> User.id ann_user) by discriminate.
  assert (H0 : Appointment.user_id a <> 0%Z) by discriminate.
  assert (Hlen : length (Rows.of_user 8 (db shared_world)) <= 100)
    by (change (length (Rows.of_user 8 (db shared_world))) with 1; lia).
  repeat (split; [assumption|]).
  destruct (RestProps.listing_is_of_the_named_user (db shared_world) a ann_user 100
              Hnd Hin Hu H0 Hlen) as (Hget & _ & Hlist).
  by split.
Defined.

(** X24: a fourth message in a context of at most three. *)
Lemma context_is_trimmed_witness :
  (2 <= ConversationContext.max_history full_context)%Z
  /\ List.map role (ConversationContext._messages full_context)
     = ["system"; "user"; "assistant"]
  /\ (Z.of_nat (length (ConversationContext._messages
                          (Context.add full_context (Context.UserMessage "book 2pm"))))
      <= 3)%Z
  /\ last (ConversationContext._messages
             (Context.add full_context (Context.UserMessage "book 2pm")))
     = Some (ConversationContext.message "user" "book 2pm").
Proof.
  assert (Hmax : (2 <= ConversationContext.max_history full_context)%Z)
    by (change (ConversationContext.max_history full_context) with 3%Z; lia).
  split; [exact Hmax|]. split; [reflexivity|].
  destruct (ContextProps.context_is_trimmed full_context (Context.UserMessage "book 2pm") Hmax)
    as (Hlen & _ & Hlast & _).
  by split.
Defined.

(** X25: a context of at most one message, with a system prompt. *)
Lemma context_of_one_grows_witness :
  let self := ConversationContext.init sid (Some "You are an assistant.") 1 in
  let system := ConversationContext.message "system" "You are an assistant." in
  ConversationContext.max_history self = 1%Z
  /\ ConversationContext._messages self = [system]
  /\ role system = "system"
  /\ ConversationContext._messages (Context.add self (Context.UserMessage "hello"))
     = [system; system; ConversationContext.message "user" "hello"].
Proof.
  intros self system.
  split; [reflexivity|]. split; [reflexivity|]. split; [reflexivity|].
  exact (ContextProps.context_of_one_grows self (Context.UserMessage "hello") system []
           eq_refl eq_refl eq_refl).
Defined.



(** X16: a greeting typed by Ann. *)
Lemma text_input_is_answered_witness :
  let msg := [("type", PStr "text_input"); ("session_id", PStr sid);
              ("text", PStr " hello ")] in
  dict_get msg "text" (PStr "") = PStr " hello "
  /\ Py.strip " hello " <> ""
  /\ exists st' doc,
       voice.on_text_input (services_with markup_llm) tk connection started msg
       = voice.Continue connection st'
       /\ last (voice.sent st') = Some (Text (PDict doc))
       /\ dict_lookup "user_transcript" doc = Some (PStr "hello").
Proof.
  intros msg.
  assert (Hne : Py.strip " hello " <> "") by discriminate.
  split; [reflexivity|]. split; [exact Hne|].
  destruct (VoiceProps.text_input_is_answered (services_with markup_llm) tk connection started
              msg " hello " eq_refl Hne)
    as (st' & doc & Hrun & Hlast & _ & Htext).
  by exists st', doc.
Defined.

End MoreExamples.

